(** * AstroSpecVis: the numeric pipeline, embedded and verified

    A shallow embedding of the numeric core of AstroSpecVis
    ([utils/utils.py], [models/data_processor.py], [models/data_loader.py],
    [models/lightcurve_plotter.py]) and of the routes of [app.py], together
    with the properties of its specification and further properties of the
    code.

    Layout of the development:
    - [FloatOps]: the float64 interface the arrays are made of, with its
      IEEE-754 binary64 instance (the kernel's primitive floats);
    - Python values and exceptions, slices and [int()];
    - the NumPy operations the sources call (reshape, nan-aware reductions,
      median, unique, meshgrid), after NumPy's documented behaviour;
    - the four source modules, function by function, and the routes of the
      application (the loaders' results are arguments; rendering and file
      writes are left out);
    - the theorems. *)

From Stdlib Require Import String Ascii.
From Stdlib Require Import List ZArith Lia Bool Arith.
From Stdlib Require Import Floats Sorted.
Import ListNotations.
Local Open Scope nat_scope.

(* ================================================================= *)
(** ** Floating-point interface *)

(** What the pipeline needs of NumPy's [float64]: the four arithmetic
    operations, the comparisons (false as soon as an operand is NaN), the
    classification predicates, conversion from and to Python integers. *)
Class FloatOps (F : Type) : Type := {
  fadd : F -> F -> F;
  fsub : F -> F -> F;
  fmul : F -> F -> F;
  fdiv : F -> F -> F;
  fleb : F -> F -> bool;
  feqb : F -> F -> bool;
  fis_nan : F -> bool;
  fis_inf : F -> bool;
  fnan : F;
  fof_Z : Z -> F;
  ftrunc : F -> Z
}.

(** [int(x)] on a finite binary64 value: truncation toward zero. *)
Definition b64_trunc (x : float) : Z :=
  match Prim2SF x with
  | S754_finite s m e =>
      let v := if (0 <=? e)%Z then (Zpos m * 2 ^ e)%Z
               else (Zpos m / 2 ^ (- e))%Z in
      if s then (- v)%Z else v
  | _ => 0%Z
  end.

(** [float(z)]: the integer rounded to the nearest binary64 value. *)
Definition b64_of_Z (z : Z) : float :=
  SF2Prim (binary_normalize prec emax z 0 false).

Definition b64_is_inf (x : float) : bool :=
  PrimFloat.eqb (PrimFloat.abs x) PrimFloat.infinity.

(** The instance the program runs on: IEEE-754 binary64, round to nearest
    even, as evaluated by the kernel. *)
#[export] Instance binary64 : FloatOps float := {
  fadd := PrimFloat.add;
  fsub := PrimFloat.sub;
  fmul := PrimFloat.mul;
  fdiv := PrimFloat.div;
  fleb := PrimFloat.leb;
  feqb := PrimFloat.eqb;
  fis_nan := PrimFloat.is_nan;
  fis_inf := b64_is_inf;
  fnan := PrimFloat.nan;
  fof_Z := b64_of_Z;
  ftrunc := b64_trunc
}.

(* ================================================================= *)
(** ** Python values, exceptions, slices *)

(** The exceptions the modelled code can raise. *)
Inductive exn : Type :=
| ValueError
| ZeroDivisionError
| OverflowError
| IndexError.

(** A call either returns a value or raises. *)
Inductive result (A : Type) : Type :=
| Ok (a : A)
| Raise (e : exn).
Arguments Ok {A} a.
Arguments Raise {A} e.

Definition bind {A B : Type} (r : result A) (k : A -> result B) : result B :=
  match r with
  | Ok a => k a
  | Raise e => Raise e
  end.

Notation "x <- r ;; k" := (bind r (fun x => k))
  (at level 61, r at next level, right associativity).

Definition raises {A : Type} (r : result A) : Prop :=
  exists e, r = Raise e.

Definition succeeds {A : Type} (r : result A) : Prop :=
  exists a, r = Ok a.

(** The stop index of [a[:stop]] on a sequence of length [len]: a negative
    stop counts from the end, and the result is clamped to [0, len]. *)
Definition py_stop (len : nat) (stop : Z) : nat :=
  if (stop <? 0)%Z then Z.to_nat (Z.max 0 (Z.of_nat len + stop))
  else Z.to_nat (Z.min stop (Z.of_nat len)).

(** [l[:stop]] *)
Definition py_slice_to {A : Type} (stop : Z) (l : list A) : list A :=
  firstn (py_stop (length l) stop) l.

(** Every [step]-th element, the first one after [skip] elements. *)
Fixpoint stride_aux {A : Type} (step skip : nat) (l : list A) : list A :=
  match l with
  | [] => []
  | x :: l' =>
      match skip with
      | O => x :: stride_aux step (step - 1) l'
      | S k => stride_aux step k l'
      end
  end.

(** [l[::step]]: a zero step raises, a negative one walks from the end. *)
Definition py_stride {A : Type} (l : list A) (step : Z) : result (list A) :=
  if (step =? 0)%Z then Raise ValueError
  else if (0 <? step)%Z then Ok (stride_aux (Z.to_nat step) 0 l)
  else Ok (stride_aux (Z.to_nat (- step)) 0 (rev l)).

(** [rows] consecutive chunks of [cols] elements: a flat buffer seen as
    [rows] rows of [cols] columns. *)
Fixpoint chunks {A : Type} (rows cols : nat) (l : list A) : list (list A) :=
  match rows with
  | O => []
  | S r => firstn cols l :: chunks r cols (skipn cols l)
  end.

(** The [i]-th window of [b] consecutive elements: positions
    [i*b, (i+1)*b). *)
Definition window {A : Type} (b i : nat) (l : list A) : list A :=
  firstn b (skipn (i * b) l).

(** How many elements satisfy [p]. *)
Definition count {A : Type} (p : A -> bool) (l : list A) : nat :=
  length (filter p l).

(** Text given to [int()]: a Python [str], held as the bytes of its UTF-8
    encoding.  [utf8_decode] gives its code points; bytes that encode no
    text give none. *)
Definition continuation (c : ascii) : option Z :=
  let n := Z.of_nat (nat_of_ascii c) in
  if (0x80 <=? n)%Z && (n <=? 0xBF)%Z then Some (n - 0x80)%Z else None.

Fixpoint utf8_decode (s : string) : option (list Z) :=
  match s with
  | EmptyString => Some []
  | String c s1 =>
      let n := Z.of_nat (nat_of_ascii c) in
      if (n <? 0x80)%Z then option_map (cons n) (utf8_decode s1)
      else if (n <? 0xC2)%Z then None
      else if (n <? 0xE0)%Z then
        match s1 with
        | String c1 s2 =>
            match continuation c1 with
            | Some a =>
                option_map (cons ((n - 0xC0) * 64 + a)%Z) (utf8_decode s2)
            | None => None
            end
        | EmptyString => None
        end
      else if (n <? 0xF0)%Z then
        match s1 with
        | String c1 (String c2 s3) =>
            match continuation c1, continuation c2 with
            | Some a, Some b =>
                let cp := ((n - 0xE0) * 4096 + a * 64 + b)%Z in
                if (cp <? 0x800)%Z || ((0xD800 <=? cp)%Z && (cp <=? 0xDFFF)%Z)
                then None
                else option_map (cons cp) (utf8_decode s3)
            | _, _ => None
            end
        | _ => None
        end
      else if (n <? 0xF5)%Z then
        match s1 with
        | String c1 (String c2 (String c3 s4)) =>
            match continuation c1, continuation c2, continuation c3 with
            | Some a, Some b, Some d =>
                let cp :=
                  ((n - 0xF0) * 262144 + a * 4096 + b * 64 + d)%Z in
                if (cp <? 0x10000)%Z || (0x10FFFF <? cp)%Z then None
                else option_map (cons cp) (utf8_decode s4)
            | _, _, _ => None
            end
        | _ => None
        end
      else None
  end.

(** The code points of the digit zero of every set of decimal digits
    (general category Nd, Unicode 14.0 as in Python 3.11); the nine other
    digits of a set follow its zero. *)
Definition decimal_zeros : list Z :=
  [0x30; 0x660; 0x6F0; 0x7C0; 0x966; 0x9E6; 0xA66; 0xAE6; 0xB66; 0xBE6;
   0xC66; 0xCE6; 0xD66; 0xDE6; 0xE50; 0xED0; 0xF20; 0x1040; 0x1090; 0x17E0;
   0x1810; 0x1946; 0x19D0; 0x1A80; 0x1A90; 0x1B50; 0x1BB0; 0x1C40; 0x1C50;
   0xA620; 0xA8D0; 0xA900; 0xA9D0; 0xA9F0; 0xAA50; 0xABF0; 0xFF10;
   0x104A0; 0x10D30; 0x11066; 0x110F0; 0x11136; 0x111D0; 0x112F0; 0x11450;
   0x114D0; 0x11650; 0x116C0; 0x11730; 0x118E0; 0x11950; 0x11C50; 0x11D50;
   0x11DA0; 0x16A60; 0x16AC0; 0x16B50;
   0x1D7CE; 0x1D7D8; 0x1D7E2; 0x1D7EC; 0x1D7F6;
   0x1E140; 0x1E2F0; 0x1E950; 0x1FBF0]%Z.

(** The value of a decimal digit. *)
Definition digit_of (c : Z) : option Z :=
  match find (fun z => (z <=? c)%Z && (c <? z + 10)%Z) decimal_zeros with
  | Some z => Some (c - z)%Z
  | None => None
  end.

(** The white space [int()] skips: the six ASCII characters of C's
    [isspace], and the white-space code points past ASCII, which the
    conversion turns into spaces first.  The separators U+001C to U+001F
    are not skipped. *)
Definition is_space (c : Z) : bool :=
  ((c =? 32) || ((9 <=? c) && (c <=? 13))
   || existsb (Z.eqb c)
        [0x85; 0xA0; 0x1680; 0x2028; 0x2029; 0x202F; 0x205F; 0x3000]
   || ((0x2000 <=? c) && (c <=? 0x200A)))%Z.

Fixpoint lstrip (s : list Z) : list Z :=
  match s with
  | c :: s' => if is_space c then lstrip s' else s
  | [] => []
  end.

(** Digits with single underscores between them, then optional trailing
    white space.  [prev] tells whether the previous character was a digit. *)
Fixpoint parse_digits (s : list Z) (acc : Z) (prev : bool) : option Z :=
  match s with
  | [] => if prev then Some acc else None
  | c :: s' =>
      match digit_of c with
      | Some d => parse_digits s' (10 * acc + d)%Z true
      | None =>
          if (c =? 95)%Z && prev then
            match s' with
            | c' :: _ =>
                match digit_of c' with
                | Some _ => parse_digits s' acc false
                | None => None
                end
            | [] => None
            end
          else if is_space c && prev then
            match lstrip s' with
            | [] => Some acc
            | _ => None
            end
          else None
      end
  end.

(** How many digits a text holds. *)
Definition count_digits (s : list Z) : nat :=
  length (filter (fun c => match digit_of c with
                          | Some _ => true
                          | None => false
                          end) s).

(** The most digits [int()] converts ([sys.get_int_max_str_digits()], by
    default). *)
Definition max_str_digits : nat := 4300.

(** [int(s)] for a string: optional white space, optional sign, decimal
    digits (single underscores allowed between them), optional white
    space; no more than [max_str_digits] digits. *)
Definition int_of_string (s : string) : option Z :=
  match utf8_decode s with
  | None => None
  | Some text =>
      if max_str_digits <? count_digits text then None
      else
        match lstrip text with
        | c :: s' =>
            if (c =? 45)%Z then option_map Z.opp (parse_digits s' 0 false)
            else if (c =? 43)%Z then parse_digits s' 0 false
            else parse_digits (c :: s') 0 false
        | [] => None
        end
  end.

Section Pipeline.

Context {F : Type} {FO : FloatOps F}.

(** The values a caller can pass as [bin_size]. *)
Inductive pyval : Type :=
| PyInt (z : Z)
| PyFloat (x : F)
| PyStr (s : string).

(** [int(v)]: an integer is itself, a float is truncated toward zero (NaN
    and the infinities raise), a string is parsed. *)
Definition py_int (v : pyval) : result Z :=
  match v with
  | PyInt z => Ok z
  | PyFloat x =>
      if fis_nan x then Raise ValueError
      else if fis_inf x then Raise OverflowError
      else Ok (ftrunc x)
  | PyStr s =>
      match int_of_string s with
      | Some z => Ok z
      | None => Raise ValueError
      end
  end.

(* ================================================================= *)
(** ** NumPy *)

Definition f0 : F := fof_Z 0.
Definition f1 : F := fof_Z 1.
Definition f2 : F := fof_Z 2.
Definition f24 : F := fof_Z 24.
Definition f100 : F := fof_Z 100.

(** A decimal literal [n / d] of the sources, correctly rounded. *)
Definition fdec (n d : Z) : F := fdiv (fof_Z n) (fof_Z d).

Definition notnan (x : F) : bool := negb (fis_nan x).

(** [np.isfinite] *)
Definition np_isfinite (x : F) : bool := negb (fis_nan x) && negb (fis_inf x).

(** A two-dimensional array: its shape and its row-major buffer. *)
Record ndarray2 : Type := mk2 {
  nrows : nat;
  ncols : nat;
  flat : list F
}.

(** The buffer holds exactly [nrows * ncols] values. *)
Definition wf2 (a : ndarray2) : Prop :=
  length (flat a) = nrows a * ncols a.

Definition shape (a : ndarray2) : nat * nat := (nrows a, ncols a).

(** [a[w, t]] *)
Definition get2 (a : ndarray2) (w t : nat) : F :=
  nth (w * ncols a + t) (flat a) fnan.

(** [a[w, :]] *)
Definition row (a : ndarray2) (w : nat) : list F :=
  firstn (ncols a) (skipn (w * ncols a) (flat a)).

(** The rows of an array, first to last. *)
Definition rows (a : ndarray2) : list (list F) :=
  chunks (nrows a) (ncols a) (flat a).

(** [a[:, :stop]] *)
Definition slice_cols (a : ndarray2) (stop : Z) : ndarray2 :=
  let c := py_stop (ncols a) stop in
  mk2 (nrows a) c (concat (map (firstn c) (rows a))).

(** [a[k:, :]] *)
Definition drop_rows (k : nat) (a : ndarray2) : ndarray2 :=
  mk2 (nrows a - k) (ncols a) (skipn (k * ncols a) (flat a)).

Definition prodZ (l : list Z) : Z := fold_right Z.mul 1%Z l.

(** A shape NumPy refuses to build ("array is too big"): the item size, 8
    bytes, times the dimensions other than zero has to fit a signed 64-bit
    size.  In a reshape without a zero among the dimensions their product is
    the size of the array at hand, which NumPy holds already, so the test
    bears on the shapes with a zero.  A dimension past a signed 64-bit
    integer is refused too; in the shapes of the binners it is the bin
    size, which is then longer than the axis it cuts, so that the shape has
    a zero and fails the test. *)
Definition too_big (dims : list Z) : bool :=
  existsb (Z.eqb 0) dims
  && (2 ^ 63 <=? 8 * prodZ (filter (fun d => negb (d =? 0)%Z) dims))%Z.

(** [reshape] on an array of [size] elements: the dimensions it resolves
    to.  A negative dimension is the unknown one; there can be one only,
    and the known ones must divide the size exactly (and not be zero).  The
    resolved shape must not be too big. *)
Definition np_reshape (size : nat) (dims : list Z) : result (list nat) :=
  let known := prodZ (filter (fun d => (0 <=? d)%Z) dims) in
  match length (filter (fun d => (d <? 0)%Z) dims) with
  | O =>
      if (known =? Z.of_nat size)%Z then
        if too_big dims then Raise ValueError else Ok (map Z.to_nat dims)
      else Raise ValueError
  | S O =>
      if (known =? 0)%Z || negb (Z.of_nat size mod known =? 0)%Z
      then Raise ValueError
      else
        let resolved :=
          map (fun d => if (d <? 0)%Z then (Z.of_nat size / known)%Z else d)
              dims in
        if too_big resolved then Raise ValueError
        else Ok (map Z.to_nat resolved)
  | _ => Raise ValueError
  end.

(** Sorting in ascending order (on values that are not NaN); values that
    compare equal keep their order. *)
Fixpoint insert_sorted (x : F) (l : list F) : list F :=
  match l with
  | [] => [x]
  | y :: l' => if fleb x y then x :: l else y :: insert_sorted x l'
  end.

Definition sort (l : list F) : list F := fold_right insert_sorted [] l.

(** The order the sort follows, and the lists it is meant for: those
    without NaN. *)
Definition fle (x y : F) : Prop := fleb x y = true.

Definition all_numbers (l : list F) : Prop :=
  Forall (fun x => fis_nan x = false) l.

(** The sum of a run of values that lie next to one another in memory,
    as NumPy's pairwise summation adds them: fewer than 8 values one after
    the other from [0.0]; up to 128 values in eight running sums, added two
    by two at the end, then the values left over; more than 128 values in
    two halves, the first a multiple of 8 long. *)
Definition add8 (r blk : list F) : list F :=
  map (fun p => fadd (fst p) (snd p)) (combine r blk).

Definition tree8 (r : list F) : F :=
  match r with
  | [r0; r1; r2; r3; r4; r5; r6; r7] =>
      fadd (fadd (fadd r0 r1) (fadd r2 r3)) (fadd (fadd r4 r5) (fadd r6 r7))
  | _ => fnan
  end.

Definition sum_block (l : list F) : F :=
  let full := length l / 8 in
  let r := fold_left add8 (chunks (full - 1) 8 (skipn 8 l)) (firstn 8 l) in
  fold_left fadd (skipn (8 * full) l) (tree8 r).

Fixpoint pairwise_sum (fuel : nat) (l : list F) : F :=
  let n := length l in
  if n <? 8 then fold_left fadd l f0
  else if n <=? 128 then sum_block l
  else
    match fuel with
    | O => sum_block l
    | S fuel' =>
        let n2 := n / 2 - (n / 2) mod 8 in
        fadd (pairwise_sum fuel' (firstn n2 l))
             (pairwise_sum fuel' (skipn n2 l))
    end.

(** [np.sum] along the axis that is contiguous in memory: the reduction
    starts from the identity [0.0] and adds the pairwise sum of the values
    to it ([-0.0] alone comes back as [0.0]). *)
Definition sum (l : list F) : F := fadd f0 (pairwise_sum (length l) l).

(** [np.mean] of a one-dimensional array: the sum over the count ([0/0]
    for no value). *)
Definition np_mean (l : list F) : F :=
  fdiv (sum l) (fof_Z (Z.of_nat (length l))).

(** [np.mean(a, axis=0)] at one column of an array with [ncols] columns.
    The rows are added to the running sums one after the other from
    [0.0]; with a single column the values lie next to one another and are
    added as [np.sum] adds them. *)
Definition np_mean_axis0 (ncols : nat) (column : list F) : F :=
  fdiv (if ncols =? 1 then sum column else fold_left fadd column f0)
       (fof_Z (Z.of_nat (length column))).

(** [np.nanmean] along the contiguous axis: NaN counts as 0 in the sum
    and is left out of the count. *)
Definition np_nanmean (l : list F) : F :=
  fdiv (sum (map (fun x => if fis_nan x then f0 else x) l))
       (fof_Z (Z.of_nat (length (filter notnan l)))).

(** [np.median] on sorted values without NaN: the mean of the middle
    value, or of the two middle values; NaN for no value. *)
Definition median_sorted (s : list F) : F :=
  let n := length s in
  if n =? 0 then fnan
  else if Nat.odd n then np_mean [nth (n / 2) s fnan]
  else np_mean [nth (n / 2 - 1) s fnan; nth (n / 2) s fnan].

(** The median [np.nanmedian] takes along an axis of fewer than 600
    values, on the sorted values that are not NaN: half the sum of the low
    and the high middle value, which are the same value when the count is
    odd, added one after the other from [0.0]; NaN for no value. *)
Definition median_low_high (s : list F) : F :=
  let n := length s in
  if n =? 0 then fnan
  else
    let high := nth (n / 2) s fnan in
    let low := if Nat.odd n then high else nth (n / 2 - 1) s fnan in
    fdiv (fold_left fadd [low; high] f0) f2.

(** [np.median] of a one-dimensional array: NaN as soon as one value is
    NaN. *)
Definition np_median (l : list F) : F :=
  if existsb fis_nan l then fnan else median_sorted (sort l).

(** [np.nanmedian] of a one-dimensional array: [np.median] of the values
    that are not NaN; NaN when there is none. *)
Definition np_nanmedian (l : list F) : F :=
  median_sorted (sort (filter notnan l)).

(** [np.nanmedian(a, axis=1)] on one row of a two-dimensional array: the
    masked median for a row of fewer than 600 values, the one-dimensional
    median of the row otherwise. *)
Definition np_nanmedian_axis (r : list F) : F :=
  if length r <? 600 then median_low_high (sort (filter notnan r))
  else np_nanmedian r.

(** [a.min()]: raises on an empty array; NaN wins. *)
Definition fmin (x y : F) : F :=
  if fis_nan x then x else if fis_nan y then y
  else if fleb x y then x else y.

Definition np_min (l : list F) : result F :=
  match l with
  | [] => Raise ValueError
  | x :: l' => Ok (fold_left fmin l' x)
  end.

(** A sorted sequence without the values equal to the one before them:
    the first of every run of equal values is kept. *)
Fixpoint dedup_after (prev : F) (l : list F) : list F :=
  match l with
  | [] => []
  | y :: l' =>
      if feqb prev y then dedup_after y l' else y :: dedup_after y l'
  end.

Definition dedup (l : list F) : list F :=
  match l with
  | [] => []
  | x :: l' => x :: dedup_after x l'
  end.

(** [np.unique]: the distinct values in ascending order, a single NaN last
    when there is one.  Of [0.0] and [-0.0], which compare equal, the one
    the sort puts first is kept. *)
Definition np_unique (l : list F) : list F :=
  dedup (sort (filter notnan l))
  ++ (if existsb fis_nan l then [fnan] else []).

(** [np.meshgrid(x, y)]: two arrays of shape [(len y, len x)]; the first
    repeats [x] on every row, the second repeats [y] down every column. *)
Definition np_meshgrid (x y : list F) : ndarray2 * ndarray2 :=
  (mk2 (length y) (length x) (concat (map (fun _ => x) y)),
   mk2 (length y) (length x) (concat (map (fun v => map (fun _ => v) x) y))).

(* ================================================================= *)
(** ** utils/utils.py *)

(** The shapes the two binners ask of [reshape], once the unknown
    dimension is resolved: [(N // b, b)] for a series of [N] values,
    [(W, T // b, b)] for a grid of shape [(W, T)]. *)
Definition series_shape (n : nat) (b : Z) : list Z :=
  [(Z.of_nat n / b)%Z; b].

Definition bin_shape (flux_data : ndarray2) (b : Z) : list Z :=
  [Z.of_nat (nrows flux_data); (Z.of_nat (ncols flux_data) / b)%Z; b].

(** [median_bin(input_array, bin_size)] *)
Definition median_bin (input_array : list F) (bin_size : Z)
  : result (list F) :=
  if (bin_size =? 0)%Z then Raise ZeroDivisionError
  else
    let end_index :=
      (bin_size * (Z.of_nat (length input_array) / bin_size))%Z in
    let sliced := py_slice_to end_index input_array in
    shp <- np_reshape (length sliced) [(-1)%Z; bin_size] ;;
    match shp with
    | [r; c] => Ok (map np_nanmedian_axis (chunks r c sliced))
    | _ => Raise ValueError
    end.

(** [bin_flux_array(flux_data, bin_size)] *)
Definition bin_flux_array (flux_data : ndarray2) (bin_size : pyval)
  : result ndarray2 :=
  b <- py_int bin_size ;;
  let num_wavelengths := nrows flux_data in
  let num_timepoints := ncols flux_data in
  if (b =? 0)%Z then Raise ZeroDivisionError
  else
    let binned_timepoints := (Z.of_nat num_timepoints / b)%Z in
    let sliced := slice_cols flux_data (binned_timepoints * b) in
    shp <- np_reshape (nrows sliced * ncols sliced)
             [Z.of_nat num_wavelengths; binned_timepoints; b] ;;
    match shp with
    | [d0; d1; d2] =>
        Ok (mk2 d0 d1 (map np_nanmean (chunks (d0 * d1) d2 (flat sliced))))
    | _ => Raise ValueError
    end.

(* ================================================================= *)
(** ** models/data_processor.py *)

(** An array of any dimensionality: its shape and its row-major buffer. *)
Record ndarray : Type := mkarr {
  dims : list nat;
  buf : list F
}.

(** The 1D case: every element over the nan-aware median of the array. *)
Definition normalize_1d (l : list F) : list F :=
  let median_spectrum := np_nanmedian l in
  map (fun x => fdiv x median_spectrum) l.

(** One row of the 2D case: every element over the nan-aware median
    taken along the row ([axis=1, keepdims=True], broadcast along the
    row). *)
Definition normalize_row (r : list F) : list F :=
  let median_spectrum := np_nanmedian_axis r in
  map (fun x => fdiv x median_spectrum) r.

Definition normalize_2d (a : ndarray2) : ndarray2 :=
  mk2 (nrows a) (ncols a) (concat (map normalize_row (rows a))).

(** [normalize_spectrum(spectral_data)] *)
Definition normalize_spectrum (spectral_data : ndarray) : result ndarray :=
  match dims spectral_data with
  | [n] => Ok (mkarr [n] (normalize_1d (buf spectral_data)))
  | [w; t] =>
      let out := normalize_2d (mk2 w t (buf spectral_data)) in
      Ok (mkarr [nrows out; ncols out] (flat out))
  | _ => Raise ValueError
  end.

(* ================================================================= *)
(** ** models/data_loader.py *)

(** One row of the MIRI table: the columns the extraction reads. *)
Record miri_row : Type := mkrow {
  wla : F;
  wlb : F;
  fluxa : F;
  fluxb : F;
  MJD : F
}.

(** The table: parallel columns of equal length, kept row by row. *)
Definition miri_table : Type := list miri_row.

(** [column.reshape(u, -1)] *)
Definition reshape_rows (u : nat) (column : list F) : result ndarray2 :=
  shp <- np_reshape (length column) [Z.of_nat u; (-1)%Z] ;;
  match shp with
  | [r; c] => Ok (mk2 r c column)
  | _ => Raise ValueError
  end.

(** [extract_miri_data(miri_table)] *)
Definition extract_miri_data (t : miri_table)
  : result (list F * list F * list F * ndarray2 * ndarray2) :=
  let wavelengths_a := map wla t in
  let wavelengths_b := map wlb t in
  let spectra_a := map fluxa t in
  let spectra_b := map fluxb t in
  let modified_julian_dates := map MJD t in
  let unique_wavelengths_a := np_unique wavelengths_a in
  let unique_wavelengths_b := np_unique wavelengths_b in
  let unique_times := np_unique modified_julian_dates in
  spectra_a_2d <- reshape_rows (length unique_wavelengths_a) spectra_a ;;
  spectra_b_2d <- reshape_rows (length unique_wavelengths_b) spectra_b ;;
  Ok (unique_times, unique_wavelengths_a, unique_wavelengths_b,
      spectra_a_2d, spectra_b_2d).

(* ================================================================= *)
(** ** models/lightcurve_plotter.py *)

(** The wavelength ranges of the two compounds, in micrometres. *)
Definition ch4_range : F * F := (fdec 214 100, fdec 25 10).
Definition co_range : F * F := (fdec 45 10, fdec 505 100).

(** [(x >= lo) & (x <= hi)] *)
Definition in_range (rng : F * F) (x : F) : bool :=
  fleb (fst rng) x && fleb x (snd rng).

(** A two-dimensional boolean array. *)
Record mask2 : Type := mkmask {
  mrows : nat;
  mcols : nat;
  mflat : list bool
}.

Definition mshape (m : mask2) : nat * nat := (mrows m, mcols m).

Definition band_mask (rng : F * F) (wavelength_grid : ndarray2) : mask2 :=
  mkmask (nrows wavelength_grid) (ncols wavelength_grid)
         (map (in_range rng) (flat wavelength_grid)).

(** [(times - times.min()) * 24] *)
Definition to_hours (times : list F) : result (list F) :=
  tmin <- np_min times ;;
  Ok (map (fun t => fmul (fsub t tmin) f24) times).

(** The variability of a binned flux grid, in percent:
    [np.where(np.isfinite(flux), ((flux / median) - 1) * 100, np.nan)]
    with the nan-aware median of each row. *)
Definition variability (flux_data : ndarray2) : ndarray2 :=
  mk2 (nrows flux_data) (ncols flux_data)
      (concat (map (fun r =>
                      let median_flux := np_nanmedian_axis r in
                      map (fun x => if np_isfinite x
                                    then fmul (fsub (fdiv x median_flux) f1) f100
                                    else fnan) r)
                   (rows flux_data))).

(** The z grid of a plot type, before the trim: the variability, the
    flux itself, or [ValueError] for any other plot type. *)
Definition z_of_mode (plot_type : string) (flux_data : ndarray2)
  : result ndarray2 :=
  if String.eqb plot_type "variability" then Ok (variability flux_data)
  else if String.eqb plot_type "flux" then Ok flux_data
  else Raise ValueError.

(** What the map hands to the renderer: the three grids and the two band
    masks. *)
Record map_grids : Type := mkgrids {
  time_grid : ndarray2;
  wavelength_grid : ndarray2;
  z_data : ndarray2;
  ch4_mask : mask2;
  co_mask : mask2
}.

(** A plotting call that does not raise either returns early, after
    logging an error and without a figure, or builds its figure. *)
Inductive plotted (A : Type) : Type :=
| NoPlot (logged : string)
| Plot (a : A).
Arguments NoPlot {A} logged.
Arguments Plot {A} a.

(** The leading wavelength rows the map leaves out. *)
Definition leading_trim : nat := 60.

(** [plot_enhanced_lightcurve_map(flux_data, wavelengths, times, title,
    bin_size, output_file, max_frames, plot_type)], up to the grids and
    masks its surfaces are built from.  The [except] clause logs and
    raises again, so an exception goes through unchanged. *)
Definition plot_enhanced_lightcurve_map
    (flux_data : ndarray2) (wavelengths times : list F)
    (bin_size : pyval) (plot_type : string)
  : result (plotted map_grids) :=
  bin_size <- py_int bin_size ;;
  flux_data <- bin_flux_array flux_data (PyInt bin_size) ;;
  times <- py_stride times bin_size ;;
  let num_times := ncols flux_data in
  if num_times =? 0
  then Ok (NoPlot "No time points available after binning. Unable to create plot.")
  else
    time_hours <- to_hours times ;;
    let (time_grid, wavelength_grid) := np_meshgrid time_hours wavelengths in
    let time_grid := slice_cols time_grid (Z.of_nat num_times) in
    let wavelength_grid := slice_cols wavelength_grid (Z.of_nat num_times) in
    z_data <- z_of_mode plot_type flux_data ;;
    let wavelength_grid := drop_rows leading_trim wavelength_grid in
    let time_grid := drop_rows leading_trim time_grid in
    let z_data := drop_rows leading_trim z_data in
    if negb (existsb np_isfinite (flat z_data))
    then Ok (NoPlot "No finite values in z_data after slicing. Unable to create plot.")
    else
      Ok (Plot (mkgrids time_grid wavelength_grid z_data
                        (band_mask ch4_range wavelength_grid)
                        (band_mask co_range wavelength_grid))).

(** [np.where(cond)[0]]: the indices of the wavelengths in the range. *)
Definition band_indices (rng : F * F) (wavelengths : list F) : list nat :=
  filter (fun i => in_range rng (nth i wavelengths fnan))
         (seq 0 (length wavelengths)).

(** [np.mean(flux_data[indices, :], axis=0)]: one mean per time bin, over
    the selected rows; an index past the last row raises. *)
Definition band_mean (flux_data : ndarray2) (indices : list nat)
  : result (list F) :=
  if forallb (fun i => i <? nrows flux_data) indices
  then Ok (map (fun t => np_mean_axis0 (ncols flux_data)
                           (map (fun w => get2 flux_data w t) indices))
               (seq 0 (ncols flux_data)))
  else Raise IndexError.

(** [lightcurve / np.median(lightcurve)] *)
Definition normalize_lightcurve (lightcurve : list F) : list F :=
  let m := np_median lightcurve in
  map (fun x => fdiv x m) lightcurve.

(** [plot_specific_wavelength_lightcurves(flux_data, wavelengths, times,
    title, output_file, bin_size)], up to the hours axis and the two
    series its traces are built from. *)
Definition plot_specific_wavelength_lightcurves
    (flux_data : ndarray2) (wavelengths times : list F) (bin_size : pyval)
  : result (list F * list F * list F) :=
  bin_size <- py_int bin_size ;;
  flux_data <- bin_flux_array flux_data (PyInt bin_size) ;;
  times <- py_stride times bin_size ;;
  time_hours <- to_hours times ;;
  let ch4_indices := band_indices ch4_range wavelengths in
  let co_indices := band_indices co_range wavelengths in
  ch4_lightcurve <- band_mean flux_data ch4_indices ;;
  co_lightcurve <- band_mean flux_data co_indices ;;
  let ch4_lightcurve := normalize_lightcurve ch4_lightcurve in
  let co_lightcurve := normalize_lightcurve co_lightcurve in
  Ok (time_hours, ch4_lightcurve, co_lightcurve).

End Pipeline.

Arguments pyval F : clear implicits.
Arguments ndarray2 F : clear implicits.
Arguments ndarray F : clear implicits.
Arguments miri_row F : clear implicits.
Arguments miri_table F : clear implicits.
Arguments map_grids F : clear implicits.
Arguments NoPlot {A} logged.
Arguments Plot {A} a.

(* ================================================================= *)
(** ** app.py *)

(** File names are UTF-8 text, byte by byte. *)

(** [c in s] for one character. *)
Fixpoint has_char (c : ascii) (s : string) : bool :=
  match s with
  | EmptyString => false
  | String d s' => Ascii.eqb c d || has_char c s'
  end.

(** [s.rsplit('.', 1)[1]]: the text after the last dot of a name that has
    one. *)
Fixpoint after_last_dot (s : string) : string :=
  match s with
  | EmptyString => EmptyString
  | String c s' =>
      if has_char "." s' then after_last_dot s'
      else if Ascii.eqb c "." then s' else EmptyString
  end.

Definition lower_letter (c : ascii) : ascii :=
  let n := nat_of_ascii c in
  if (65 <=? n) && (n <=? 90) then ascii_of_nat (n + 32) else c.

(** [s.lower()], as far as ASCII letters go: the letters A to Z, and the two
    characters outside ASCII whose lowercase holds an ASCII letter (U+0130,
    bytes C4 B0, gives i followed by U+0307; the Kelvin sign U+212A, bytes
    E2 84 AA, gives k).  Every other byte is kept: the lowercase of the
    other characters holds no ASCII letter, and the functions below only
    look for ASCII words. *)
Fixpoint lower (s : string) : string :=
  match s with
  | EmptyString => EmptyString
  | String c s1 =>
      match s1 with
      | String c2 s2 =>
          if (nat_of_ascii c =? 196) && (nat_of_ascii c2 =? 176)
          then String "i" (String (ascii_of_nat 204)
                                  (String (ascii_of_nat 135) (lower s2)))
          else
            match s2 with
            | String c3 s3 =>
                if (nat_of_ascii c =? 226) && (nat_of_ascii c2 =? 132)
                   && (nat_of_ascii c3 =? 170)
                then String "k" (lower s3)
                else String (lower_letter c) (lower s1)
            | EmptyString => String (lower_letter c) (lower s1)
            end
      | EmptyString => String (lower_letter c) EmptyString
      end
  end.

(** [hay.startswith(needle)] *)
Fixpoint starts_with (needle hay : string) : bool :=
  match needle with
  | EmptyString => true
  | String c n' =>
      match hay with
      | EmptyString => false
      | String d h' => Ascii.eqb c d && starts_with n' h'
      end
  end.

(** [needle in hay] *)
Fixpoint contains (needle hay : string) : bool :=
  starts_with needle hay
  || match hay with
     | EmptyString => false
     | String _ h' => contains needle h'
     end.

(** The word occurs in the lowered name. *)
Definition occurs (word filename : string) : Prop :=
  exists pre post, lower filename = (pre ++ word ++ post)%string.

(** [app.config['ALLOWED_EXTENSIONS']] *)
Definition ALLOWED_EXTENSIONS : list string := ["fits"%string].

(** [allowed_file(filename)] *)
Definition allowed_file (filename : string) : bool :=
  has_char "." filename
  && existsb (String.eqb (lower (after_last_dot filename))) ALLOWED_EXTENSIONS.

(** What the upload route answers: back to the form with a flashed
    message, the file stored under a name and a redirection to its
    visualization, or the form itself. *)
Inductive upload_response : Type :=
| UploadRedirect (flashed : string)
| UploadStored (stored_as : string)
| UploadForm.

(** [upload_file()], on the method of the request and the name of its
    ['file'] part ([None]: no such part; [Some None]: a part without a
    name).  [secure_filename] is werkzeug's. *)
Definition upload_file (secure_filename : string -> string)
    (method : string) (file : option (option string)) : upload_response :=
  if String.eqb method "POST" then
    match file with
    | None => UploadRedirect "No file part"
    | Some filename =>
        if match filename with
           | Some name => String.eqb name ""
           | None => false
           end
        then UploadRedirect "No selected file"
        else
          match filename with
          | Some name =>
              if allowed_file name then UploadStored (secure_filename name)
              else UploadForm
          | None => UploadForm
          end
    end
  else UploadForm.

Section Visualize.

Context {F : Type} {FO : FloatOps F}.

(** The shape a consumer unpacks as [(rows, columns)]: an array that is
    not two-dimensional raises. *)
Definition as_grid (a : ndarray F) : result (ndarray2 F) :=
  match dims a with
  | [w; t] => Ok (mk2 w t (buf a))
  | _ => Raise ValueError
  end.

Definition of_grid (a : ndarray2 F) : ndarray F :=
  mkarr [nrows a; ncols a] (flat a).

(** The three artifacts of a visualization. *)
Record plots : Type := mkplots {
  variability_plot : plotted (map_grids F);
  flux_plot : plotted (map_grids F);
  specific_lightcurves : list F * list F * list F
}.

(** What the visualization route answers: back to the upload form, the
    page with its plots, or the status 500. *)
Inductive visualize_response : Type :=
| VisualizeRedirect (flashed : string)
| VisualizePage (p : plots)
| VisualizeError.

(** The three plotting calls of [visualize], bins of 25. *)
Definition generate_plots (flux_data : ndarray2 F) (wavelengths times : list F)
  : result plots :=
  variability_plot <-
    plot_enhanced_lightcurve_map flux_data wavelengths times (PyInt 25)
      "variability" ;;
  flux_plot <-
    plot_enhanced_lightcurve_map flux_data wavelengths times (PyInt 25)
      "flux" ;;
  specific_lightcurves <-
    plot_specific_wavelength_lightcurves flux_data wavelengths times
      (PyInt 25) ;;
  Ok (mkplots variability_plot flux_plot specific_lightcurves).

(** The MIRI branch: channel A of the table, normalized. *)
Definition miri_inputs (miri_table : miri_table F)
  : result (ndarray2 F * list F * list F) :=
  extracted <- extract_miri_data miri_table ;;
  let '(times, wavelengths, _, spectra, _) := extracted in
  flux_data <- normalize_spectrum (of_grid spectra) ;;
  flux_data <- as_grid flux_data ;;
  Ok (flux_data, times, wavelengths).

(** The [try] of [visualize]: the page when the plots went through, the
    status 500 when anything was raised. *)
Definition respond (r : result plots) : visualize_response :=
  match r with
  | Ok p => VisualizePage p
  | Raise _ => VisualizeError
  end.

(** [visualize(filename)].  The arrays behind the configured NIRSpec paths
    (flux, dates, wavelengths, as [load_nirspec_data] returns them) and the
    table behind the configured MIRI path are arguments. *)
Definition visualize (filename : string)
    (nirspec : ndarray2 F * list F * list F) (miri : miri_table F)
  : visualize_response :=
  if contains "nirspec" (lower filename) then
    let '(flux_data, times, wavelengths) := nirspec in
    respond (generate_plots flux_data wavelengths times)
  else if contains "miri" (lower filename) then
    respond (inputs <- miri_inputs miri ;;
             let '(flux_data, times, wavelengths) := inputs in
             generate_plots flux_data wavelengths times)
  else VisualizeRedirect "Unsupported file type".

End Visualize.

Arguments plots F : clear implicits.
Arguments visualize_response F : clear implicits.

(** [m[w, t]] for a mask. *)
Definition mget (m : mask2) (w t : nat) : bool :=
  nth (w * mcols m + t) (mflat m) false.

(* ================================================================= *)
(** ** Sample inputs (binary64) *)

(** A series with missing values: its windows of two are [1, NaN],
    [3, 4], [NaN, NaN], and a trailing 7. *)
Definition sample_series : list float :=
  [1; nan; 3; 4; nan; nan; 7]%float.

(** A grid of two wavelengths and five times. *)
Definition sample_flux : ndarray2 float :=
  mk2 2 5 [1; 2; 3; 4; 9;
           5; 6; 7; 8; 9]%float.

(** A grid of 61 wavelengths (1.00 to 4.00 micrometres, every 0.05) and
    five times, the flux growing with both. *)
Definition sample_wavelengths : list float :=
  map (fun k => fdec (Z.of_nat (100 + 5 * k)) 100) (seq 0 61).

Definition sample_times : list float := [0; 1; 2; 3; 4]%float.

Definition sample_wide_flux : ndarray2 float :=
  mk2 61 5
      (concat (map (fun k => map (fun t => fof_Z (Z.of_nat (10 * k + t + 1)))
                                 (seq 0 5))
                   (seq 0 61))).

(** The grids the map builds from them with bins of two, in each mode. *)
Definition no_grids : map_grids float :=
  mkgrids (mk2 0 0 []) (mk2 0 0 []) (mk2 0 0 [])
          (mkmask 0 0 []) (mkmask 0 0 []).

Definition sample_flux_map : map_grids float :=
  Eval vm_compute in
    match plot_enhanced_lightcurve_map sample_wide_flux sample_wavelengths
            sample_times (PyInt 2) "flux" with
    | Ok (Plot g) => g
    | _ => no_grids
    end.

Definition sample_variability_map : map_grids float :=
  Eval vm_compute in
    match plot_enhanced_lightcurve_map sample_wide_flux sample_wavelengths
            sample_times (PyInt 2) "variability" with
    | Ok (Plot g) => g
    | _ => no_grids
    end.

(** Two wavelengths, 2.3 micrometres (in the CH4 range) and 4.8 (in the CO
    range), for [sample_flux]. *)
Definition sample_band_wavelengths : list float := [fdec 23 10; fdec 48 10].

(** One CH4 wavelength observed three times, the second observation
    missing. *)
Definition gap_flux : ndarray2 float := mk2 1 3 [1; nan; 3]%float.
Definition gap_wavelengths : list float := [fdec 23 10].
Definition gap_times : list float := [0; 1; 2]%float.

(** The hours axis and the two light curves of [sample_flux] with bins of
    two. *)
Definition sample_lightcurves : list float * list float * list float :=
  Eval vm_compute in
    match plot_specific_wavelength_lightcurves sample_flux
            sample_band_wavelengths sample_times (PyInt 2) with
    | Ok r => r
    | Raise _ => ([], [], [])
    end.

(** A table of four rows: two distinct wavelengths in channel A, three in
    channel B.  Columns: wla, wlb, fluxa, fluxb, MJD. *)
Definition uneven_table : miri_table float :=
  [mkrow 1 1 10 50 0;
   mkrow 1 2 20 60 1;
   mkrow 2 3 30 70 0;
   mkrow 2 3 40 80 1]%float.

(** The same rows with two distinct wavelengths in both channels. *)
Definition even_table : miri_table float :=
  [mkrow 1 5 10 50 0;
   mkrow 1 5 20 60 1;
   mkrow 2 6 30 70 0;
   mkrow 2 6 40 80 1]%float.

(** The array [1.0, 3.1] in binary64. *)
(** 1e308, the binary64 value nearest to it. *)
Definition huge : float := 0x1.1ccf385ebc8ap+1023%float.


(* ================================================================= *)
(** ** Lists seen as flat buffers *)

Section Buffers.

Context {A : Type}.
Implicit Types (l : list A) (ls : list (list A)).

Lemma chunks_length r c l : length (chunks r c l) = r.
Proof.
  revert l; induction r as [|r IH]; intros l; simpl; [reflexivity|].
  now rewrite IH.
Qed.

Lemma chunks_nth r c l i :
  i < r -> nth i (chunks r c l) [] = firstn c (skipn (i * c) l).
Proof.
  revert l i; induction r as [|r IH]; intros l i Hi; [lia|].
  destruct i as [|i]; simpl; [reflexivity|].
  rewrite IH by lia.
  now rewrite skipn_skipn, (Nat.add_comm (i * c) c).
Qed.

Lemma chunks_Forall_length r c l :
  r * c <= length l -> Forall (fun ch => length ch = c) (chunks r c l).
Proof.
  revert l; induction r as [|r IH]; intros l Hl; simpl; constructor.
  - rewrite length_firstn. simpl in Hl. lia.
  - apply IH. rewrite length_skipn. simpl in Hl. lia.
Qed.


Lemma concat_length_uniform c ls :
  Forall (fun ch => length ch = c) ls -> length (concat ls) = length ls * c.
Proof.
  induction 1 as [|ch ls Hch _ IH]; simpl; [reflexivity|].
  rewrite length_app, IH, Hch. reflexivity.
Qed.

(** Skipping whole rows of a buffer of uniform rows, then [k] more
    elements of the next one. *)
Lemma skipn_concat_uniform c ls w k :
  Forall (fun ch => length ch = c) ls -> w < length ls -> k <= c ->
  skipn (w * c + k) (concat ls)
  = skipn k (nth w ls []) ++ concat (skipn (S w) ls).
Proof.
  intros Hls; revert w; induction Hls as [|ch ls Hch _ IH]; intros w Hw Hk;
    simpl in Hw; [lia|].
  destruct w as [|w]; simpl.
  - rewrite skipn_app, Hch.
    replace (k - c) with 0 by lia. reflexivity.
  - rewrite skipn_app, Hch.
    rewrite (skipn_all2 ch) by lia. simpl.
    replace (c + w * c + k - c) with (w * c + k) by lia.
    apply IH; lia.
Qed.

(** A window that lies inside one row of a buffer of uniform rows. *)
Lemma window_concat_uniform c ls w k n :
  Forall (fun ch => length ch = c) ls -> w < length ls -> k + n <= c ->
  firstn n (skipn (w * c + k) (concat ls))
  = firstn n (skipn k (nth w ls [])).
Proof.
  intros Hls Hw Hk.
  rewrite (skipn_concat_uniform c ls w k) by (auto; lia).
  rewrite firstn_app.
  assert (Hlen : length (nth w ls []) = c).
  { rewrite Forall_forall in Hls. apply Hls, nth_In, Hw. }
  rewrite length_skipn, Hlen.
  replace (n - (c - k)) with 0 by lia.
  now rewrite firstn_O, app_nil_r.
Qed.

Lemma window_firstn n k m l :
  k + n <= m -> firstn n (skipn k (firstn m l)) = firstn n (skipn k l).
Proof.
  intros H.
  rewrite skipn_firstn_comm, firstn_firstn.
  f_equal. lia.
Qed.

End Buffers.

(* ================================================================= *)
(** ** Reshape *)

Lemma filter_negative_of_nat (ds : list nat) :
  filter (fun d => (d <? 0)%Z) (map Z.of_nat ds) = [].
Proof.
  induction ds as [|d ds IH]; simpl; [reflexivity|].
  destruct (Z.ltb_spec (Z.of_nat d) 0); [lia | exact IH].
Qed.

Lemma filter_known_of_nat (ds : list nat) :
  filter (fun d => (0 <=? d)%Z) (map Z.of_nat ds) = map Z.of_nat ds.
Proof.
  induction ds as [|d ds IH]; simpl; [reflexivity|].
  destruct (Z.leb_spec 0 (Z.of_nat d)); [now rewrite IH | lia].
Qed.

Lemma prodZ_of_nat (ds : list nat) :
  prodZ (map Z.of_nat ds) = Z.of_nat (fold_right Nat.mul 1 ds).
Proof.
  induction ds as [|d ds IH]; simpl; [reflexivity|].
  rewrite IH. lia.
Qed.

Lemma map_to_nat_of_nat (ds : list nat) :
  map Z.to_nat (map Z.of_nat ds) = ds.
Proof.
  induction ds as [|d ds IH]; simpl; [reflexivity|].
  now rewrite IH, Nat2Z.id.
Qed.

(** A shape without a zero is never too big for a reshape. *)
Lemma too_big_no_zero (dims : list Z) :
  Forall (fun d => d <> 0%Z) dims -> too_big dims = false.
Proof.
  intros H. unfold too_big.
  replace (existsb (Z.eqb 0) dims) with false; [reflexivity|].
  symmetry. induction H as [|d dims Hd _ IH]; [reflexivity|].
  cbn [existsb]. rewrite IH.
  destruct (Z.eqb_spec 0 d); [congruence|reflexivity].
Qed.

(** A reshape to known dimensions goes through exactly when their product
    is the size and the shape is not too big. *)
Lemma np_reshape_known (size : nat) (ds : list nat) :
  np_reshape size (map Z.of_nat ds)
  = if fold_right Nat.mul 1 ds =? size
    then if too_big (map Z.of_nat ds) then Raise ValueError else Ok ds
    else Raise ValueError.
Proof.
  unfold np_reshape.
  rewrite filter_negative_of_nat, filter_known_of_nat, prodZ_of_nat,
    map_to_nat_of_nat. cbn [length].
  destruct (Nat.eqb_spec (fold_right Nat.mul 1 ds) size) as [E|E];
    destruct (Z.eqb_spec (Z.of_nat (fold_right Nat.mul 1 ds)) (Z.of_nat size));
    try reflexivity; lia.
Qed.

(** [reshape(u, -1)]: the column count is inferred when [u] is not zero
    and divides the size. *)
Lemma np_reshape_rows_unknown (size u : nat) :
  np_reshape size [Z.of_nat u; (-1)%Z]
  = if (u =? 0) || negb (size mod u =? 0) then Raise ValueError
    else if too_big [Z.of_nat u; Z.of_nat (size / u)] then Raise ValueError
    else Ok [u; size / u].
Proof.
  unfold np_reshape. cbn [filter map].
  replace (Z.of_nat u <? 0)%Z with false by (symmetry; apply Z.ltb_ge; lia).
  replace (0 <=? Z.of_nat u)%Z with true by (symmetry; apply Z.leb_le; lia).
  change (-1 <? 0)%Z with true. change (0 <=? -1)%Z with false.
  cbn [length prodZ fold_right]. rewrite Z.mul_1_r.
  destruct (Nat.eqb_spec u 0) as [E|E].
  - subst. reflexivity.
  - destruct (Z.eqb_spec (Z.of_nat u) 0); [lia|]. cbn [orb].
    rewrite <- Nat2Z.inj_mod.
    destruct (Nat.eqb_spec (size mod u) 0) as [M|M];
      destruct (Z.eqb_spec (Z.of_nat (size mod u)) 0); try lia; cbn [negb];
      [|reflexivity].
    rewrite <- Nat2Z.inj_div.
    destruct (too_big [Z.of_nat u; Z.of_nat (size / u)]); [reflexivity|].
    now rewrite !Nat2Z.id.
Qed.

(** [reshape(-1, b)]: the row count is inferred when [b] is not zero and
    divides the size. *)
Lemma np_reshape_cols_unknown (size b : nat) :
  np_reshape size [(-1)%Z; Z.of_nat b]
  = if (b =? 0) || negb (size mod b =? 0) then Raise ValueError
    else if too_big [Z.of_nat (size / b); Z.of_nat b] then Raise ValueError
    else Ok [size / b; b].
Proof.
  unfold np_reshape. cbn [filter map].
  replace (Z.of_nat b <? 0)%Z with false by (symmetry; apply Z.ltb_ge; lia).
  replace (0 <=? Z.of_nat b)%Z with true by (symmetry; apply Z.leb_le; lia).
  change (-1 <? 0)%Z with true. change (0 <=? -1)%Z with false.
  cbn [length prodZ fold_right]. rewrite Z.mul_1_r.
  destruct (Nat.eqb_spec b 0) as [E|E].
  - subst. reflexivity.
  - destruct (Z.eqb_spec (Z.of_nat b) 0); [lia|]. cbn [orb].
    rewrite <- Nat2Z.inj_mod.
    destruct (Nat.eqb_spec (size mod b) 0) as [M|M];
      destruct (Z.eqb_spec (Z.of_nat (size mod b)) 0); try lia; cbn [negb];
      [|reflexivity].
    rewrite <- Nat2Z.inj_div.
    destruct (too_big [Z.of_nat (size / b); Z.of_nat b]); [reflexivity|].
    now rewrite !Nat2Z.id.
Qed.

Lemma py_stop_of_nat (len k : nat) : py_stop len (Z.of_nat k) = Nat.min k len.
Proof.
  unfold py_stop.
  destruct (Z.ltb_spec (Z.of_nat k) 0); lia.
Qed.

(* ================================================================= *)
(** ** The binner *)

Section BinnerFacts.

Context {F : Type} {FO : FloatOps F}.

Lemma rows_nth (a : ndarray2 F) (w : nat) :
  w < nrows a -> nth w (rows a) [] = row a w.
Proof. intros Hw. unfold rows, row. now apply chunks_nth. Qed.

Lemma rows_uniform (a : ndarray2 F) :
  wf2 a -> Forall (fun r => length r = ncols a) (rows a).
Proof. intros Hwf. apply chunks_Forall_length. rewrite Hwf. lia. Qed.

Lemma row_length (a : ndarray2 F) (w : nat) :
  wf2 a -> w < nrows a -> length (row a w) = ncols a.
Proof.
  intros Hwf Hw. unfold row.
  rewrite length_firstn, length_skipn, Hwf. nia.
Qed.

Lemma filter_notnan_all_nan (l : list F) :
  forallb fis_nan l = true -> filter notnan l = [].
Proof.
  induction l as [|x l IH]; cbn [forallb filter]; [reflexivity|].
  intros H. apply andb_prop in H as [Hx Hl]. unfold notnan at 1.
  rewrite Hx. cbn [negb]. now apply IH.
Qed.

Lemma np_nanmedian_axis_all_nan (l : list F) :
  forallb fis_nan l = true -> np_nanmedian_axis l = fnan.
Proof.
  intros H. unfold np_nanmedian_axis, np_nanmedian.
  rewrite (filter_notnan_all_nan l H).
  now destruct (length l <? 600).
Qed.

(** What the series binner does for a positive bin size. *)
Lemma median_bin_positive (x : list F) (b : nat) :
  0 < b ->
  median_bin x (Z.of_nat b)
  = if too_big (series_shape (length x) (Z.of_nat b)) then Raise ValueError
    else Ok (map np_nanmedian_axis
               (chunks (length x / b) b (firstn (length x / b * b) x))).
Proof.
  intros Hb.
  set (q := length x / b).
  assert (Hq : q * b <= length x).
  { unfold q. rewrite Nat.mul_comm. apply Nat.Div0.mul_div_le. }
  unfold median_bin, series_shape.
  destruct (Z.eqb_spec (Z.of_nat b) 0) as [E|_]; [lia|].
  rewrite <- Nat2Z.inj_div, <- Nat2Z.inj_mul. fold q.
  unfold py_slice_to. rewrite py_stop_of_nat, Nat.min_l by lia.
  rewrite length_firstn, Nat.min_l by lia.
  rewrite np_reshape_cols_unknown.
  destruct (Nat.eqb_spec b 0) as [E|_]; [lia|].
  rewrite (Nat.mul_comm b q), Nat.Div0.mod_mul, Nat.div_mul by lia.
  cbn [Nat.eqb negb orb].
  now destruct (too_big [Z.of_nat q; Z.of_nat b]).
Qed.

Lemma median_bin_windows (x : list F) (b : nat) :
  0 < b -> too_big (series_shape (length x) (Z.of_nat b)) = false ->
  exists out,
    median_bin x (Z.of_nat b) = Ok out
    /\ length out = length x / b
    /\ forall i, i < length x / b ->
         nth i out fnan = np_nanmedian_axis (window b i x).
Proof.
  intros Hb Hfit. rewrite (median_bin_positive x b Hb), Hfit.
  set (q := length x / b).
  assert (Hq : q * b <= length x).
  { unfold q. rewrite Nat.mul_comm. apply Nat.Div0.mul_div_le. }
  eexists; split; [reflexivity|]. split.
  - now rewrite length_map, chunks_length.
  - intros i Hi.
    rewrite (nth_indep _ fnan (np_nanmedian_axis [])) by
      (now rewrite length_map, chunks_length).
    rewrite (map_nth np_nanmedian_axis), chunks_nth by exact Hi.
    unfold window. f_equal.
    apply (window_firstn b (i * b) (q * b) x). nia.
Qed.

(** What the grid binner does for a positive bin size. *)
Lemma bin_flux_array_positive (flux : ndarray2 F) (b : nat) :
  0 < b ->
  bin_flux_array flux (PyInt (Z.of_nat b))
  = if too_big (bin_shape flux (Z.of_nat b)) then Raise ValueError
    else Ok (mk2 (nrows flux) (ncols flux / b)
               (map np_nanmean
                  (chunks (nrows flux * (ncols flux / b)) b
                     (flat (slice_cols flux
                              (Z.of_nat (ncols flux / b * b))))))).
Proof.
  intros Hb.
  set (W := nrows flux). set (T := ncols flux). set (q := T / b).
  assert (Hq : q * b <= T).
  { unfold q. rewrite Nat.mul_comm. apply Nat.Div0.mul_div_le. }
  unfold bin_flux_array, bin_shape. cbn [py_int bind].
  destruct (Z.eqb_spec (Z.of_nat b) 0) as [E|_]; [lia|].
  rewrite <- Nat2Z.inj_div, <- Nat2Z.inj_mul. fold T q W.
  assert (Hc : ncols (slice_cols flux (Z.of_nat (q * b))) = q * b).
  { unfold slice_cols. cbn [ncols]. rewrite py_stop_of_nat. fold T. lia. }
  rewrite Hc.
  change (nrows (slice_cols flux (Z.of_nat (q * b)))) with W.
  change [Z.of_nat W; Z.of_nat q; Z.of_nat b] with (map Z.of_nat [W; q; b]).
  rewrite np_reshape_known. cbn [fold_right].
  replace (W * (q * (b * 1)) =? W * (q * b)) with true
    by (symmetry; apply Nat.eqb_eq; lia).
  now destruct (too_big (map Z.of_nat [W; q; b])).
Qed.

(** The values of the binned grid, window by window. *)
Lemma binned_values (flux : ndarray2 F) (b : nat) :
  0 < b -> wf2 flux ->
  let out := mk2 (nrows flux) (ncols flux / b)
               (map np_nanmean
                  (chunks (nrows flux * (ncols flux / b)) b
                     (flat (slice_cols flux
                              (Z.of_nat (ncols flux / b * b)))))) in
  wf2 out
  /\ forall w i, w < nrows flux -> i < ncols flux / b ->
       get2 out w i = np_nanmean (window b i (row flux w)).
Proof.
  intros Hb Hwf.
  set (W := nrows flux). set (T := ncols flux). set (q := T / b).
  assert (Hq : q * b <= T).
  { unfold q. rewrite Nat.mul_comm. apply Nat.Div0.mul_div_le. }
  cbv zeta. split.
  { unfold wf2. cbn [flat nrows ncols].
    now rewrite length_map, chunks_length. }
  intros w i Hw Hi. unfold get2. cbn [flat ncols].
  assert (Hidx : w * q + i < W * q) by nia.
  rewrite (nth_indep _ fnan (np_nanmean [])) by
    (now rewrite length_map, chunks_length).
  rewrite (map_nth np_nanmean), chunks_nth by exact Hidx.
  f_equal. unfold window.
  replace ((w * q + i) * b) with (w * (q * b) + i * b) by lia.
  unfold slice_cols. rewrite py_stop_of_nat. fold T.
  rewrite Nat.min_l by lia. cbn [flat].
  rewrite (window_concat_uniform (q * b)).
  - rewrite (nth_indep _ [] (firstn (q * b) [])) by
      (rewrite length_map; unfold rows; now rewrite chunks_length).
    rewrite (map_nth (firstn (q * b))), rows_nth by exact Hw.
    apply window_firstn. nia.
  - apply Forall_forall. intros r Hr.
    apply in_map_iff in Hr as (r0 & <- & Hr0).
    pose proof (rows_uniform flux Hwf) as Hu.
    rewrite Forall_forall in Hu. rewrite length_firstn, (Hu r0 Hr0).
    fold T. lia.
  - rewrite length_map. unfold rows. now rewrite chunks_length.
  - nia.
Qed.

Lemma bin_flux_array_windows (flux : ndarray2 F) (b : nat) :
  0 < b -> wf2 flux -> too_big (bin_shape flux (Z.of_nat b)) = false ->
  exists out,
    bin_flux_array flux (PyInt (Z.of_nat b)) = Ok out
    /\ shape out = (nrows flux, ncols flux / b)
    /\ wf2 out
    /\ forall w i, w < nrows flux -> i < ncols flux / b ->
         get2 out w i = np_nanmean (window b i (row flux w)).
Proof.
  intros Hb Hwf Hfit. rewrite (bin_flux_array_positive flux b Hb), Hfit.
  destruct (binned_values flux b Hb Hwf) as [H1 H2].
  eexists; split; [reflexivity|]. split; [reflexivity|]. now split.
Qed.

(** With at least one full bin, and at least one row for a grid, the shape
    asked of the reshape holds no zero: it is never too big. *)
Lemma series_shape_fits (n b : nat) :
  0 < b -> b <= n -> too_big (series_shape n (Z.of_nat b)) = false.
Proof.
  intros Hb Hn. apply too_big_no_zero. unfold series_shape.
  rewrite <- Nat2Z.inj_div.
  assert (0 < n / b) by (apply Nat.div_str_pos; lia).
  repeat constructor; lia.
Qed.

Lemma bin_shape_fits (flux : ndarray2 F) (b : nat) :
  0 < b -> b <= ncols flux -> 0 < nrows flux ->
  too_big (bin_shape flux (Z.of_nat b)) = false.
Proof.
  intros Hb Hn HW. apply too_big_no_zero. unfold bin_shape.
  rewrite <- Nat2Z.inj_div.
  assert (0 < ncols flux / b) by (apply Nat.div_str_pos; lia).
  repeat constructor; lia.
Qed.

(** C1, as the code has it. For every positive [b] whose shape NumPy can
    build: on a series of length [N], [median_bin] returns [N / b] values,
    the [i]-th being what [np.nanmedian] gives along the window
    [i*b, (i+1)*b) (the remainder is dropped, and a window of NaN only
    gives NaN); on a grid of shape [(W, T)], [bin_flux_array] returns a
    grid of shape [(W, T / b)] whose [(w, i)] value is the nan-aware mean
    of the same window of row [w].  A shape that is too big makes either
    binner raise [ValueError]; with at least one full bin (and one row) the
    shape is never too big. *)
Theorem binner_windows (b : nat) (x : list F) (flux : ndarray2 F) :
  0 < b -> wf2 flux ->
  (too_big (series_shape (length x) (Z.of_nat b)) = false ->
   exists out,
     median_bin x (Z.of_nat b) = Ok out
     /\ length out = length x / b
     /\ (forall i, i < length x / b ->
           nth i out fnan = np_nanmedian_axis (window b i x))
     /\ (forall i, i < length x / b ->
           forallb fis_nan (window b i x) = true -> nth i out fnan = fnan))
  /\ (too_big (bin_shape flux (Z.of_nat b)) = false ->
      exists out,
        bin_flux_array flux (PyInt (Z.of_nat b)) = Ok out
        /\ shape out = (nrows flux, ncols flux / b)
        /\ wf2 out
        /\ forall w i, w < nrows flux -> i < ncols flux / b ->
             get2 out w i = np_nanmean (window b i (row flux w)))
  /\ (too_big (series_shape (length x) (Z.of_nat b)) = true ->
      median_bin x (Z.of_nat b) = Raise ValueError)
  /\ (too_big (bin_shape flux (Z.of_nat b)) = true ->
      bin_flux_array flux (PyInt (Z.of_nat b)) = Raise ValueError)
  /\ (b <= length x ->
      too_big (series_shape (length x) (Z.of_nat b)) = false)
  /\ (b <= ncols flux -> 0 < nrows flux ->
      too_big (bin_shape flux (Z.of_nat b)) = false).
Proof.
  intros Hb Hwf. repeat split.
  - intros Hfit.
    destruct (median_bin_windows x b Hb Hfit) as (out & Hout & Hlen & Hnth).
    exists out. repeat split; try assumption.
    intros i Hi Hnan. rewrite Hnth by exact Hi.
    now apply np_nanmedian_axis_all_nan.
  - now apply bin_flux_array_windows.
  - intros Hbig. now rewrite median_bin_positive, Hbig.
  - intros Hbig. now rewrite bin_flux_array_positive, Hbig.
  - now apply series_shape_fits.
  - now apply bin_shape_fits.
Qed.

End BinnerFacts.

Lemma binner_windows_witness :
  0 < 2 /\ wf2 sample_flux
  /\ (exists out,
        median_bin sample_series 2 = Ok out
        /\ length out = 3
        /\ (forall i, i < 3 ->
              nth i out nan = np_nanmedian_axis (window 2 i sample_series))
        /\ (forall i, i < 3 ->
              forallb PrimFloat.is_nan (window 2 i sample_series) = true ->
              nth i out nan = nan))
  /\ (exists out,
        bin_flux_array sample_flux (PyInt 2) = Ok out
        /\ shape out = (2, 2)
        /\ wf2 out
        /\ forall w i, w < 2 -> i < 2 ->
             get2 out w i = np_nanmean (window 2 i (row sample_flux w))).
Proof.
  split; [lia|]. split; [reflexivity|].
  destruct (binner_windows 2 sample_series sample_flux
              (Nat.lt_0_succ 1) (eq_refl : wf2 sample_flux))
    as (H1 & H2 & _).
  split; [exact (H1 eq_refl)|exact (H2 eq_refl)].
Defined.

(* ================================================================= *)
(** ** Strides *)

Lemma stride_aux_length {A : Type} (step skip : nat) (l : list A) :
  0 < step ->
  length (stride_aux step skip l) = (length l + step - 1 - skip) / step.
Proof.
  intros Hs. revert skip; induction l as [|x l IH]; intros skip.
  - cbn [stride_aux length]. symmetry. apply Nat.div_small. lia.
  - destruct skip as [|k]; cbn [stride_aux length].
    + rewrite IH.
      replace (length l + step - 1 - (step - 1)) with (length l) by lia.
      replace (S (length l) + step - 1 - 0) with (length l + 1 * step) by lia.
      rewrite Nat.div_add by lia. lia.
    + rewrite IH. f_equal. lia.
Qed.

(** [len(l[::b])] is the ceiling of [len(l) / b]. *)
Lemma py_stride_length {A : Type} (l : list A) (b : nat) :
  0 < b ->
  exists out, py_stride l (Z.of_nat b) = Ok out
              /\ length out = (length l + b - 1) / b.
Proof.
  intros Hb. unfold py_stride.
  destruct (Z.eqb_spec (Z.of_nat b) 0); [lia|].
  destruct (Z.ltb_spec 0 (Z.of_nat b)); [|lia].
  eexists; split; [reflexivity|].
  rewrite Nat2Z.id, stride_aux_length by exact Hb.
  f_equal. lia.
Qed.

Lemma ceil_ge_floor (n b : nat) : 0 < b -> n / b <= (n + b - 1) / b.
Proof. intros Hb. apply Nat.Div0.div_le_mono. lia. Qed.

Section BinSize.

Context {F : Type} {FO : FloatOps F}.

(** The binner reads [bin_size] through [int()] only. *)
Lemma bin_flux_array_int (flux : ndarray2 F) (v : pyval F) (b : Z) :
  py_int v = Ok b -> bin_flux_array flux v = bin_flux_array flux (PyInt b).
Proof. intros H. unfold bin_flux_array. now rewrite H. Qed.

Lemma bin_flux_array_int_raises (flux : ndarray2 F) (v : pyval F) (e : exn) :
  py_int v = Raise e -> bin_flux_array flux v = Raise e.
Proof. intros H. unfold bin_flux_array. now rewrite H. Qed.

(** A zero or negative bin size makes the binner raise: the division by
    zero, or a reshape to negative dimensions. *)
Lemma bin_flux_array_nonpositive (flux : ndarray2 F) (b : Z) :
  (b <= 0)%Z -> raises (bin_flux_array flux (PyInt b)).
Proof.
  intros Hb. unfold bin_flux_array. simpl.
  destruct (Z.eqb_spec b 0) as [E|E]; [now exists ZeroDivisionError|].
  set (T := Z.of_nat (ncols flux)). set (q := (T / b)%Z).
  assert (HT : (0 <= T)%Z) by (unfold T; lia).
  pose proof (Z.div_mod T b E) as Hdm. fold q in Hdm.
  pose proof (Z.mod_neg_bound T b ltac:(lia)) as Hr.
  assert (Hq : (q <= 0)%Z) by nia.
  unfold np_reshape. cbn [filter].
  destruct (Z.ltb_spec (Z.of_nat (nrows flux)) 0) as [Hn|_]; [lia|].
  destruct (Z.leb_spec 0 (Z.of_nat (nrows flux))) as [_|Hn]; [|lia].
  destruct (Z.ltb_spec b 0) as [_|Hn]; [|lia].
  destruct (Z.leb_spec 0 b) as [Hn|_]; [lia|].
  destruct (Z.ltb_spec q 0) as [Hneg|Hnn].
  - destruct (Z.leb_spec 0 q) as [Hn|_]; [lia|].
    cbn. now exists ValueError.
  - assert (q = 0%Z) by lia.
    destruct (Z.leb_spec 0 q) as [_|Hn]; [|lia].
    cbn [length prodZ fold_right bind].
    replace (Z.of_nat (nrows flux) * (q * 1))%Z with 0%Z by lia.
    cbn. now exists ValueError.
Qed.

(** The binner succeeds exactly when [int(bin_size)] is a positive
    integer and the shape it asks for is not too big. *)
Lemma bin_flux_array_succeeds_iff (flux : ndarray2 F) (v : pyval F) :
  succeeds (bin_flux_array flux v)
  <-> exists b, py_int v = Ok b /\ (0 < b)%Z
                /\ too_big (bin_shape flux b) = false.
Proof.
  split.
  - intros [out Hout].
    destruct (py_int v) as [b|e] eqn:Hv.
    + exists b. split; [reflexivity|].
      rewrite (bin_flux_array_int flux v b Hv) in Hout.
      destruct (Z.ltb_spec 0 b) as [Hb|Hb].
      * split; [exact Hb|].
        rewrite <- (Z2Nat.id b) in Hout |- * by lia.
        rewrite bin_flux_array_positive in Hout by lia.
        destruct (too_big (bin_shape flux (Z.of_nat (Z.to_nat b))));
          [discriminate|reflexivity].
      * destruct (bin_flux_array_nonpositive flux b Hb) as [e He].
        congruence.
    + rewrite (bin_flux_array_int_raises flux v e Hv) in Hout. discriminate.
  - intros (b & Hv & Hb & Hfit).
    rewrite (bin_flux_array_int flux v b Hv).
    rewrite <- (Z2Nat.id b) in Hfit |- * by lia.
    rewrite bin_flux_array_positive, Hfit by lia.
    eexists; reflexivity.
Qed.


End BinSize.
(* ================================================================= *)
(** ** The map builder *)

Lemma nth_concat_uniform {A : Type} (c : nat) (ls : list (list A))
    (w t : nat) (d : A) :
  Forall (fun ch => length ch = c) ls -> w < length ls -> t < c ->
  nth (w * c + t) (concat ls) d = nth t (nth w ls []) d.
Proof.
  intros Hls; revert w; induction Hls as [|ch ls Hch _ IH]; intros w Hw Ht;
    simpl in Hw; [lia|].
  destruct w as [|w]; simpl.
  - apply app_nth1. lia.
  - rewrite app_nth2 by lia. rewrite Hch.
    replace (c + w * c + t - c) with (w * c + t) by lia.
    apply IH; lia.
Qed.

Section MapBuilder.

Context {F : Type} {FO : FloatOps F}.

Lemma get2_row (a : ndarray2 F) (w t : nat) :
  t < ncols a -> nth t (row a w) fnan = get2 a w t.
Proof.
  intros Ht. unfold row, get2.
  rewrite nth_firstn.
  destruct (Nat.ltb_spec t (ncols a)); [|lia].
  now rewrite nth_skipn.
Qed.

Lemma get2_drop_rows (k : nat) (a : ndarray2 F) (w t : nat) :
  get2 (drop_rows k a) w t = get2 a (w + k) t.
Proof.
  unfold get2, drop_rows. cbn [ncols flat].
  rewrite nth_skipn. f_equal. lia.
Qed.

Lemma wf2_drop_rows (k : nat) (a : ndarray2 F) :
  wf2 a -> wf2 (drop_rows k a).
Proof.
  unfold wf2, drop_rows. cbn [nrows ncols flat]. intros H.
  rewrite length_skipn, H. nia.
Qed.

(** An array rebuilt row by row, each row keeping [c] values. *)
Lemma wf2_rowwise (a : ndarray2 F) (c : nat) (g : list F -> list F) :
  (forall r, In r (rows a) -> length (g r) = c) ->
  wf2 (mk2 (nrows a) c (concat (map g (rows a)))).
Proof.
  intros Hg. unfold wf2. cbn [nrows ncols flat].
  rewrite (concat_length_uniform c).
  - rewrite length_map. unfold rows. now rewrite chunks_length.
  - apply Forall_forall. intros r Hr.
    apply in_map_iff in Hr as (r0 & <- & Hr0). now apply Hg.
Qed.

Lemma get2_rowwise (a : ndarray2 F) (c : nat) (g : list F -> list F)
    (w t : nat) :
  (forall r, In r (rows a) -> length (g r) = c) ->
  w < nrows a -> t < c ->
  get2 (mk2 (nrows a) c (concat (map g (rows a)))) w t
  = nth t (g (row a w)) fnan.
Proof.
  intros Hg Hw Ht. unfold get2. cbn [ncols flat].
  rewrite (nth_concat_uniform c).
  - rewrite (nth_indep _ [] (g [])) by
      (rewrite length_map; unfold rows; now rewrite chunks_length).
    now rewrite map_nth, rows_nth.
  - apply Forall_forall. intros r Hr.
    apply in_map_iff in Hr as (r0 & <- & Hr0). now apply Hg.
  - rewrite length_map. unfold rows. now rewrite chunks_length.
  - exact Ht.
Qed.

Lemma rows_In_length (a : ndarray2 F) (r : list F) :
  wf2 a -> In r (rows a) -> length r = ncols a.
Proof.
  intros Hwf Hr. pose proof (rows_uniform a Hwf) as Hu.
  rewrite Forall_forall in Hu. now apply Hu.
Qed.

Lemma wf2_slice_cols (a : ndarray2 F) (k : nat) :
  wf2 a -> wf2 (slice_cols a (Z.of_nat k)).
Proof.
  intros Hwf. unfold slice_cols. apply wf2_rowwise.
  intros r Hr. rewrite length_firstn, (rows_In_length a r Hwf Hr).
  rewrite py_stop_of_nat. lia.
Qed.

Lemma shape_slice_cols (a : ndarray2 F) (k : nat) :
  shape (slice_cols a (Z.of_nat k)) = (nrows a, Nat.min k (ncols a)).
Proof. unfold shape, slice_cols. cbn [nrows ncols]. now rewrite py_stop_of_nat. Qed.

Lemma get2_slice_cols (a : ndarray2 F) (k w t : nat) :
  wf2 a -> w < nrows a -> t < k -> t < ncols a ->
  get2 (slice_cols a (Z.of_nat k)) w t = get2 a w t.
Proof.
  intros Hwf Hw Ht Htc. unfold slice_cols.
  rewrite get2_rowwise.
  - rewrite nth_firstn, py_stop_of_nat.
    destruct (Nat.ltb_spec t (Nat.min k (ncols a))); [|lia].
    now apply get2_row.
  - intros r Hr. rewrite length_firstn, (rows_In_length a r Hwf Hr).
    rewrite py_stop_of_nat. lia.
  - exact Hw.
  - rewrite py_stop_of_nat. lia.
Qed.

Lemma wf2_meshgrid (x y : list F) :
  wf2 (fst (np_meshgrid x y)) /\ wf2 (snd (np_meshgrid x y)).
Proof.
  unfold np_meshgrid, wf2. cbn [fst snd nrows ncols flat]. split.
  - rewrite (concat_length_uniform (length x)); [now rewrite length_map|].
    apply Forall_forall. intros r Hr.
    now apply in_map_iff in Hr as (v & <- & _).
  - rewrite (concat_length_uniform (length x)); [now rewrite length_map|].
    apply Forall_forall. intros r Hr.
    apply in_map_iff in Hr as (v & <- & _). now rewrite length_map.
Qed.

Lemma get2_meshgrid (x y : list F) (w t : nat) :
  w < length y -> t < length x ->
  get2 (fst (np_meshgrid x y)) w t = nth t x fnan
  /\ get2 (snd (np_meshgrid x y)) w t = nth w y fnan.
Proof.
  intros Hw Ht. unfold np_meshgrid, get2. cbn [fst snd ncols flat]. split.
  - rewrite (nth_concat_uniform (length x)); try assumption.
    + rewrite (nth_indep _ [] ((fun _ => x) fnan)) by now rewrite length_map.
      rewrite (map_nth (fun _ => x) y fnan). reflexivity.
    + apply Forall_forall. intros r Hr.
      now apply in_map_iff in Hr as (v & <- & _).
    + now rewrite length_map.
  - rewrite (nth_concat_uniform (length x)); try assumption.
    + rewrite (nth_indep _ [] ((fun v => map (fun _ => v) x) fnan))
        by now rewrite length_map.
      rewrite (map_nth (fun v => map (fun _ => v) x)). cbv beta.
      rewrite (nth_indep _ fnan ((fun _ : F => nth w y fnan) fnan))
        by now rewrite length_map.
      rewrite (map_nth (fun _ : F => nth w y fnan) x fnan). reflexivity.
    + apply Forall_forall. intros r Hr.
      apply in_map_iff in Hr as (v & <- & _). now rewrite length_map.
    + now rewrite length_map.
Qed.

Lemma wf2_variability (a : ndarray2 F) : wf2 a -> wf2 (variability a).
Proof.
  intros Hwf. unfold variability. apply wf2_rowwise.
  intros r Hr. rewrite length_map. now apply rows_In_length.
Qed.

(** The variability at [(w, t)]: the percent deviation from the nan-aware
    median of row [w] where the flux is finite, NaN elsewhere. *)
Lemma get2_variability (a : ndarray2 F) (w t : nat) :
  wf2 a -> w < nrows a -> t < ncols a ->
  get2 (variability a) w t
  = if np_isfinite (get2 a w t)
    then fmul (fsub (fdiv (get2 a w t) (np_nanmedian_axis (row a w))) f1) f100
    else fnan.
Proof.
  intros Hwf Hw Ht. unfold variability.
  rewrite get2_rowwise; try assumption.
  - set (h := fun x : F => if np_isfinite x
              then fmul (fsub (fdiv x (np_nanmedian_axis (row a w))) f1) f100
              else fnan).
    rewrite (nth_indep _ fnan (h fnan))
      by (rewrite length_map; now rewrite row_length).
    rewrite (map_nth h). unfold h. now rewrite get2_row.
  - intros r Hr. rewrite length_map. now apply rows_In_length.
Qed.

(** What a call that builds its figure went through, step by step. *)
Lemma plot_map_inv (flux : ndarray2 F) (wl times : list F) (v : pyval F)
    (pt : string) (g : map_grids F) :
  plot_enhanced_lightcurve_map flux wl times v pt = Ok (Plot g) ->
  exists b binned strided hours z,
    py_int v = Ok b
    /\ bin_flux_array flux (PyInt b) = Ok binned
    /\ py_stride times b = Ok strided
    /\ ncols binned <> 0
    /\ to_hours strided = Ok hours
    /\ ((pt = "variability"%string /\ z = variability binned)
        \/ (pt = "flux"%string /\ z = binned))
    /\ existsb np_isfinite (flat (drop_rows leading_trim z)) = true
    /\ time_grid g
       = drop_rows leading_trim
           (slice_cols (fst (np_meshgrid hours wl)) (Z.of_nat (ncols binned)))
    /\ wavelength_grid g
       = drop_rows leading_trim
           (slice_cols (snd (np_meshgrid hours wl)) (Z.of_nat (ncols binned)))
    /\ z_data g = drop_rows leading_trim z
    /\ ch4_mask g = band_mask ch4_range (wavelength_grid g)
    /\ co_mask g = band_mask co_range (wavelength_grid g).
Proof.
  unfold plot_enhanced_lightcurve_map. intros H.
  destruct (py_int v) as [b|e] eqn:Hb; cbn [bind] in H; [|discriminate].
  destruct (bin_flux_array flux (PyInt b)) as [binned|e] eqn:Hbin;
    cbn [bind] in H; [|discriminate].
  destruct (py_stride times b) as [strided|e] eqn:Hst;
    cbn [bind] in H; [|discriminate].
  destruct (Nat.eqb_spec (ncols binned) 0) as [E|E]; [discriminate|].
  destruct (to_hours strided) as [hours|e] eqn:Hh;
    cbn [bind] in H; [|discriminate].
  destruct (np_meshgrid hours wl) as [tg wg] eqn:Hm.
  destruct (z_of_mode pt binned) as [z|e] eqn:Hz; cbn [bind] in H;
    [|discriminate].
  destruct (existsb np_isfinite (flat (drop_rows leading_trim z))) eqn:Hfin;
    cbn [negb] in H; [|discriminate].
  injection H as <-.
  exists b, binned, strided, hours, z. rewrite Hm.
  cbn [fst snd time_grid wavelength_grid z_data ch4_mask co_mask].
  repeat split; try reflexivity; try assumption.
  unfold z_of_mode in Hz.
  destruct (String.eqb_spec pt "variability") as [->|_].
  - left. split; [reflexivity|]. now injection Hz as <-.
  - destruct (String.eqb_spec pt "flux") as [->|_]; [|discriminate].
    right. split; [reflexivity|]. now injection Hz as <-.
Qed.

End MapBuilder.

Section MapFacts.

Context {F : Type} {FO : FloatOps F}.

(** A successful binning had a positive bin size, and its grid has the
    shape [(W, T / b)]. *)
Lemma bin_flux_array_ok (flux binned : ndarray2 F) (b : Z) :
  bin_flux_array flux (PyInt b) = Ok binned ->
  (0 < b)%Z
  /\ shape binned = (nrows flux, ncols flux / Z.to_nat b)
  /\ (wf2 flux -> wf2 binned).
Proof.
  intros H.
  assert (Hb : (0 < b)%Z).
  { destruct (Z.ltb_spec 0 b) as [Hb|Hb]; [exact Hb|].
    destruct (bin_flux_array_nonpositive flux b Hb) as [e He]. congruence. }
  split; [exact Hb|].
  rewrite <- (Z2Nat.id b) in H by lia.
  rewrite bin_flux_array_positive in H by lia.
  destruct (too_big (bin_shape flux (Z.of_nat (Z.to_nat b))));
    [discriminate|].
  injection H as <-. split; [reflexivity|].
  intros Hwf. now apply (binned_values flux (Z.to_nat b)); [lia|].
Qed.

(** A successful binning asked for a shape that is not too big, and its
    values are the nan-aware means of the windows. *)
Lemma bin_flux_array_ok_values (flux binned : ndarray2 F) (b : Z) :
  bin_flux_array flux (PyInt b) = Ok binned -> wf2 flux ->
  too_big (bin_shape flux b) = false
  /\ forall w i, w < nrows flux -> i < ncols flux / Z.to_nat b ->
       get2 binned w i = np_nanmean (window (Z.to_nat b) i (row flux w)).
Proof.
  intros H Hwf.
  destruct (bin_flux_array_ok flux binned b H) as (Hb & _ & _).
  rewrite <- (Z2Nat.id b) in H |- * by lia.
  rewrite bin_flux_array_positive in H by lia.
  destruct (too_big (bin_shape flux (Z.of_nat (Z.to_nat b))));
    [discriminate|].
  injection H as <-. split; [reflexivity|].
  rewrite Nat2Z.id.
  now apply (binned_values flux (Z.to_nat b)); [lia|].
Qed.

Lemma to_hours_length (times hours : list F) :
  to_hours times = Ok hours -> length hours = length times.
Proof.
  unfold to_hours. destruct (np_min times) as [m|e]; cbn [bind];
    [|discriminate].
  intros H. injection H as <-. now rewrite length_map.
Qed.

Lemma to_hours_nonempty (times : list F) :
  times <> [] -> succeeds (to_hours times).
Proof.
  intros H. destruct times as [|t times]; [congruence|].
  unfold to_hours. cbn [np_min bind]. eexists; reflexivity.
Qed.

Lemma shape_drop_rows (k : nat) (a : ndarray2 F) :
  shape (drop_rows k a) = (nrows a - k, ncols a).
Proof. reflexivity. Qed.

(** The grids of a figure, given the pairing of the axes with the flux
    grid: their shapes, their buffers, and their values. *)
Lemma plot_map_grids (flux : ndarray2 F) (wl times : list F) (v : pyval F)
    (pt : string) (g : map_grids F) :
  wf2 flux -> length wl = nrows flux -> length times = ncols flux ->
  plot_enhanced_lightcurve_map flux wl times v pt = Ok (Plot g) ->
  exists b binned strided hours,
    py_int v = Ok b /\ (0 < b)%Z
    /\ bin_flux_array flux (PyInt b) = Ok binned
    /\ py_stride times b = Ok strided
    /\ to_hours strided = Ok hours
    /\ shape binned = (nrows flux, ncols flux / Z.to_nat b)
    /\ wf2 binned
    /\ ((pt = "variability"%string
         /\ z_data g = drop_rows leading_trim (variability binned))
        \/ (pt = "flux"%string /\ z_data g = drop_rows leading_trim binned))
    /\ existsb np_isfinite (flat (z_data g)) = true
    /\ shape (time_grid g) = (nrows flux - leading_trim, ncols flux / Z.to_nat b)
    /\ shape (wavelength_grid g)
       = (nrows flux - leading_trim, ncols flux / Z.to_nat b)
    /\ shape (z_data g) = (nrows flux - leading_trim, ncols flux / Z.to_nat b)
    /\ mshape (ch4_mask g)
       = (nrows flux - leading_trim, ncols flux / Z.to_nat b)
    /\ mshape (co_mask g)
       = (nrows flux - leading_trim, ncols flux / Z.to_nat b)
    /\ wf2 (time_grid g) /\ wf2 (wavelength_grid g) /\ wf2 (z_data g)
    /\ length (mflat (ch4_mask g)) = length (flat (wavelength_grid g))
    /\ length (mflat (co_mask g)) = length (flat (wavelength_grid g))
    /\ (forall w t, w + leading_trim < nrows flux ->
                    t < ncols flux / Z.to_nat b ->
          get2 (time_grid g) w t = nth t hours fnan
          /\ get2 (wavelength_grid g) w t = nth (w + leading_trim) wl fnan).
Proof.
  intros Hwf Hwl Htimes H.
  apply plot_map_inv in H
    as (b & binned & strided & hours & z & Hb & Hbin & Hst & Hne & Hh & Hz
        & Hfin & Htg & Hwg & Hzd & Hch4 & Hco).
  destruct (bin_flux_array_ok flux binned b Hbin) as (Hpos & Hshape & Hwfb).
  specialize (Hwfb Hwf).
  injection Hshape as Hrows Hcols.
  set (B := Z.to_nat b) in *.
  assert (HB : 0 < B) by (unfold B; lia).
  assert (Hlen : length hours = (ncols flux + B - 1) / B).
  { destruct (py_stride_length times B HB) as (out & Hout & Hl).
    unfold B in Hout. rewrite Z2Nat.id in Hout by lia.
    rewrite (to_hours_length strided hours Hh).
    rewrite Hout in Hst. injection Hst as <-. now rewrite Hl, Htimes. }
  pose proof (ceil_ge_floor (ncols flux) B HB) as Hceil.
  destruct (wf2_meshgrid hours wl) as [Hwft Hwfw].
  assert (Hts : shape (time_grid g) = (nrows flux - leading_trim, ncols flux / B)).
  { rewrite Htg, shape_drop_rows. unfold slice_cols. cbn [nrows ncols np_meshgrid fst].
    rewrite py_stop_of_nat, Hcols, Hwl, Hlen. f_equal. lia. }
  assert (Hws : shape (wavelength_grid g)
                = (nrows flux - leading_trim, ncols flux / B)).
  { rewrite Hwg, shape_drop_rows. unfold slice_cols. cbn [nrows ncols np_meshgrid snd].
    rewrite py_stop_of_nat, Hcols, Hwl, Hlen. f_equal. lia. }
  assert (Hzwf : wf2 z /\ shape z = (nrows flux, ncols flux / B)).
  { destruct Hz as [[_ ->]|[_ ->]].
    - split; [now apply wf2_variability|].
      unfold shape, variability. cbn [nrows ncols]. now rewrite Hrows, Hcols.
    - split; [assumption|]. unfold shape. now rewrite Hrows, Hcols. }
  destruct Hzwf as [Hzwf Hzs]. injection Hzs as Hzr Hzc.
  exists b, binned, strided, hours.
  repeat match goal with |- _ /\ _ => split end; try assumption.
  - unfold shape. now rewrite Hrows, Hcols.
  - destruct Hz as [[-> ->]|[-> ->]]; [left|right]; now split.
  - now rewrite Hzd.
  - rewrite Hzd, shape_drop_rows. now rewrite Hzr, Hzc.
  - rewrite Hch4. unfold mshape, band_mask. cbn [mrows mcols]. exact Hws.
  - rewrite Hco. unfold mshape, band_mask. cbn [mrows mcols]. exact Hws.
  - rewrite Htg. now apply wf2_drop_rows, wf2_slice_cols.
  - rewrite Hwg. now apply wf2_drop_rows, wf2_slice_cols.
  - rewrite Hzd. now apply wf2_drop_rows.
  - rewrite Hch4. unfold band_mask. cbn [mflat]. now rewrite length_map.
  - rewrite Hco. unfold band_mask. cbn [mflat]. now rewrite length_map.
  - intros w t Hw Ht. fold B in Ht.
    rewrite Htg, Hwg, !get2_drop_rows.
    assert (Hmr : nrows (fst (np_meshgrid hours wl)) = length wl) by reflexivity.
    assert (Hmc : ncols (fst (np_meshgrid hours wl)) = length hours) by reflexivity.
    assert (Hmr' : nrows (snd (np_meshgrid hours wl)) = length wl) by reflexivity.
    assert (Hmc' : ncols (snd (np_meshgrid hours wl)) = length hours) by reflexivity.
    rewrite !get2_slice_cols; try assumption; try lia.
    apply get2_meshgrid; lia.
Qed.


(** C8. In flux mode the z grid is the binned flux grid without its first
    [leading_trim] rows, every value unchanged; the time and wavelength
    grids lose the same rows. *)
Theorem flux_map_unchanged (flux : ndarray2 F) (wl times : list F)
    (v : pyval F) (g : map_grids F) :
  wf2 flux -> length wl = nrows flux -> length times = ncols flux ->
  plot_enhanced_lightcurve_map flux wl times v "flux" = Ok (Plot g) ->
  exists b binned strided hours,
    py_int v = Ok b
    /\ bin_flux_array flux (PyInt b) = Ok binned
    /\ py_stride times b = Ok strided
    /\ to_hours strided = Ok hours
    /\ z_data g = drop_rows leading_trim binned
    /\ shape (z_data g) = (nrows binned - leading_trim, ncols binned)
    /\ shape (time_grid g) = (nrows binned - leading_trim, ncols binned)
    /\ shape (wavelength_grid g) = (nrows binned - leading_trim, ncols binned)
    /\ (forall w t, w + leading_trim < nrows binned -> t < ncols binned ->
          get2 (z_data g) w t = get2 binned (w + leading_trim) t
          /\ get2 (time_grid g) w t = nth t hours fnan
          /\ get2 (wavelength_grid g) w t = nth (w + leading_trim) wl fnan).
Proof.
  intros Hwf Hwl Htimes H.
  apply (plot_map_grids flux wl times v "flux" g Hwf Hwl Htimes) in H
    as (b & binned & strided & hours & Hb & Hpos & Hbin & Hst & Hh & Hshape
        & Hwfb & Hz & _ & Hts & Hws & Hzs & _ & _ & _ & _ & _ & _ & _ & Hget).
  injection Hshape as Hrows Hcols.
  destruct Hz as [[Hpt _]|[_ Hzd]]; [discriminate|].
  exists b, binned, strided, hours.
  rewrite Hrows, Hcols.
  repeat match goal with |- _ /\ _ => split end; try assumption.
  intros w t Hw Ht. split.
  - now rewrite Hzd, get2_drop_rows.
  - now apply Hget.
Qed.

(** C10. With more than [leading_trim] wavelengths and a positive bin
    size, the time grid, the wavelength grid, the z grid and the two band
    masks of a figure all have the shape [(W - leading_trim, T / b)],
    whether or not [b] divides [T]; their buffers have that many values. *)
Theorem map_grids_same_shape (flux : ndarray2 F) (wl times : list F)
    (b : nat) (pt : string) (g : map_grids F) :
  wf2 flux -> leading_trim < nrows flux ->
  length wl = nrows flux -> length times = ncols flux -> 0 < b ->
  plot_enhanced_lightcurve_map flux wl times (PyInt (Z.of_nat b)) pt
  = Ok (Plot g) ->
  shape (time_grid g) = (nrows flux - leading_trim, ncols flux / b)
  /\ shape (wavelength_grid g) = (nrows flux - leading_trim, ncols flux / b)
  /\ shape (z_data g) = (nrows flux - leading_trim, ncols flux / b)
  /\ mshape (ch4_mask g) = (nrows flux - leading_trim, ncols flux / b)
  /\ mshape (co_mask g) = (nrows flux - leading_trim, ncols flux / b)
  /\ wf2 (time_grid g) /\ wf2 (wavelength_grid g) /\ wf2 (z_data g)
  /\ length (mflat (ch4_mask g)) = (nrows flux - leading_trim) * (ncols flux / b)
  /\ length (mflat (co_mask g)) = (nrows flux - leading_trim) * (ncols flux / b).
Proof.
  intros Hwf HW Hwl Htimes Hb H.
  apply (plot_map_grids flux wl times _ pt g Hwf Hwl Htimes) in H
    as (b' & binned & strided & hours & Hb' & Hpos & Hbin & Hst & Hh & Hshape
        & Hwfb & Hz & _ & Hts & Hws & Hzs & Hc4 & Hco & Hwt & Hww & Hwz
        & Hl4 & Hlo & _).
  cbn [py_int] in Hb'. injection Hb' as <-. rewrite Nat2Z.id in *.
  repeat match goal with |- _ /\ _ => split end; try assumption.
  - rewrite Hl4, Hww. now injection Hws as -> ->.
  - rewrite Hlo, Hww. now injection Hws as -> ->.
Qed.

End MapFacts.

(* ================================================================= *)
(** ** Bad bin sizes and empty maps *)

Section EarlyReturns.

Context {F : Type} {FO : FloatOps F}.

(** The run of the map builder once the binning went through with at
    least one time bin. *)
Lemma plot_map_run (flux binned : ndarray2 F) (wl times : list F)
    (v : pyval F) (pt : string) (b : Z) :
  py_int v = Ok b -> bin_flux_array flux (PyInt b) = Ok binned ->
  length times = ncols flux -> ncols binned <> 0 ->
  exists strided hours,
    py_stride times b = Ok strided
    /\ to_hours strided = Ok hours
    /\ plot_enhanced_lightcurve_map flux wl times v pt
       = (z <- z_of_mode pt binned ;;
          let wg := drop_rows leading_trim
                      (slice_cols (snd (np_meshgrid hours wl))
                                  (Z.of_nat (ncols binned))) in
          let tg := drop_rows leading_trim
                      (slice_cols (fst (np_meshgrid hours wl))
                                  (Z.of_nat (ncols binned))) in
          if existsb np_isfinite (flat (drop_rows leading_trim z))
          then Ok (Plot (mkgrids tg wg (drop_rows leading_trim z)
                                 (band_mask ch4_range wg)
                                 (band_mask co_range wg)))
          else Ok (NoPlot "No finite values in z_data after slicing. Unable to create plot.")).
Proof.
  intros Hb Hbin Htimes Hne.
  destruct (bin_flux_array_ok flux binned b Hbin) as (Hpos & Hshape & _).
  injection Hshape as _ Hcols.
  destruct (py_stride_length times (Z.to_nat b) ltac:(lia))
    as (strided & Hst & Hlen).
  rewrite Z2Nat.id in Hst by lia.
  assert (Hs : strided <> []).
  { intros ->. cbn [length] in Hlen.
    pose proof (ceil_ge_floor (ncols flux) (Z.to_nat b) ltac:(lia)).
    rewrite Htimes in Hlen. lia. }
  destruct (to_hours_nonempty strided Hs) as [hours Hh].
  exists strided, hours. split; [exact Hst|]. split; [exact Hh|].
  unfold plot_enhanced_lightcurve_map.
  rewrite Hb. cbn [bind]. rewrite Hbin. cbn [bind]. rewrite Hst. cbn [bind].
  destruct (Nat.eqb_spec (ncols binned) 0) as [E|_]; [contradiction|].
  rewrite Hh. cbn [bind].
  destruct (np_meshgrid hours wl) as [tg wg]. cbn [fst snd].
  destruct (z_of_mode pt binned) as [z|e]; cbn [bind]; [|reflexivity].
  now destruct (existsb np_isfinite (flat (drop_rows leading_trim z))).
Qed.

(** C6, as the code has it. When the binned flux grid has no time bin, and
    when no finite value is left in the z grid after the leading trim, the
    map builder logs an error and returns without a figure: it does not
    raise. *)
Theorem empty_map_returns_early (flux binned : ndarray2 F)
    (wl times : list F) (v : pyval F) (pt : string) (b : Z) :
  py_int v = Ok b -> bin_flux_array flux (PyInt b) = Ok binned ->
  length times = ncols flux ->
  (ncols binned = 0 ->
   plot_enhanced_lightcurve_map flux wl times v pt
   = Ok (NoPlot "No time points available after binning. Unable to create plot."))
  /\ (ncols binned <> 0 ->
      forall z, z_of_mode pt binned = Ok z ->
        existsb np_isfinite (flat (drop_rows leading_trim z)) = false ->
        plot_enhanced_lightcurve_map flux wl times v pt
        = Ok (NoPlot "No finite values in z_data after slicing. Unable to create plot.")).
Proof.
  intros Hb Hbin Htimes. split.
  - intros Hz.
    destruct (bin_flux_array_ok flux binned b Hbin) as (Hpos & _ & _).
    destruct (py_stride_length times (Z.to_nat b) ltac:(lia))
      as (strided & Hst & _).
    rewrite Z2Nat.id in Hst by lia.
    unfold plot_enhanced_lightcurve_map.
    rewrite Hb. cbn [bind]. rewrite Hbin. cbn [bind]. rewrite Hst. cbn [bind].
    now rewrite Hz.
  - intros Hne z Hz Hfin.
    destruct (plot_map_run flux binned wl times v pt b Hb Hbin Htimes Hne)
      as (strided & hours & _ & _ & ->).
    rewrite Hz. cbn [bind]. now rewrite Hfin.
Qed.

(** With at least one time bin, a plot type the builder knows and a finite
    value left after the trim, the figure is built. *)
Lemma plot_map_builds (flux binned z : ndarray2 F) (wl times : list F)
    (v : pyval F) (pt : string) (b : Z) :
  py_int v = Ok b -> bin_flux_array flux (PyInt b) = Ok binned ->
  length times = ncols flux -> ncols binned <> 0 ->
  z_of_mode pt binned = Ok z ->
  existsb np_isfinite (flat (drop_rows leading_trim z)) = true ->
  exists g,
    plot_enhanced_lightcurve_map flux wl times v pt = Ok (Plot g)
    /\ z_data g = drop_rows leading_trim z.
Proof.
  intros Hb Hbin Htimes Hne Hz Hfin.
  destruct (plot_map_run flux binned wl times v pt b Hb Hbin Htimes Hne)
    as (strided & hours & _ & _ & ->).
  rewrite Hz. cbn [bind]. rewrite Hfin.
  eexists. split; reflexivity.
Qed.

(** The map builder raises when the binner does: when [int(bin_size)]
    raises or is not positive, and when the shape asked for is too big. *)
Lemma plot_map_bad_bin_size (flux : ndarray2 F) (wl times : list F)
    (v : pyval F) (pt : string) :
  ~ (exists b, py_int v = Ok b /\ (0 < b)%Z
               /\ too_big (bin_shape flux b) = false) ->
  raises (plot_enhanced_lightcurve_map flux wl times v pt).
Proof.
  intros H. unfold plot_enhanced_lightcurve_map.
  destruct (py_int v) as [b|e] eqn:Hb; cbn [bind]; [|now exists e].
  destruct (bin_flux_array flux (PyInt b)) as [binned|e] eqn:Hbin;
    cbn [bind]; [|now exists e].
  exfalso. apply H.
  destruct (proj1 (bin_flux_array_succeeds_iff flux (PyInt b)))
    as (b' & Hb' & Hpos & Hfit); [now exists binned|].
  cbn [py_int] in Hb'. injection Hb' as <-. now exists b.
Qed.



End EarlyReturns.

(* ================================================================= *)
(** ** The table extractor *)

Section TableExtractor.

Context {F : Type} {FO : FloatOps F}.

Lemma insert_sorted_length (x : F) (l : list F) :
  length (insert_sorted x l) = S (length l).
Proof.
  induction l as [|y l IH]; simpl; [reflexivity|].
  destruct (fleb x y); simpl; [reflexivity|]. now rewrite IH.
Qed.

Lemma sort_length (l : list F) : length (sort l) = length l.
Proof.
  induction l as [|x l IH]; simpl; [reflexivity|].
  now rewrite insert_sorted_length, IH.
Qed.

Lemma dedup_nonempty (l : list F) : l <> [] -> dedup l <> [].
Proof. destruct l; [congruence|discriminate]. Qed.

Lemma filter_notnan_id (l : list F) :
  existsb fis_nan l = false -> filter notnan l = l.
Proof.
  induction l as [|x l IH]; simpl; [reflexivity|].
  intros H. apply orb_false_elim in H as [Hx Hl].
  unfold notnan at 1. rewrite Hx. simpl. now rewrite IH.
Qed.

(** A column that is not empty has at least one distinct value. *)
Lemma np_unique_nonempty (l : list F) : l <> [] -> np_unique l <> [].
Proof.
  intros Hl. unfold np_unique.
  destruct (existsb fis_nan l) eqn:Hn.
  - intros H. apply app_eq_nil in H as [_ H]. discriminate.
  - rewrite app_nil_r, filter_notnan_id by exact Hn.
    apply dedup_nonempty. intros H.
    apply (f_equal (@length F)) in H. rewrite sort_length in H.
    destruct l; [congruence|discriminate].
Qed.

(** [column.reshape(u, -1)] goes through exactly when [u] is not zero and
    divides the length of the column; the grid then has the shape
    [(u, len / u)] and the column as its buffer.  (For a column without a
    value, which in the extraction has no distinct value either, the
    shape [(u, 0)] could be too big.) *)
Lemma reshape_rows_exact (u : nat) (column : list F) :
  (column = [] -> u = 0) ->
  reshape_rows u column
  = if (u =? 0) || negb (length column mod u =? 0) then Raise ValueError
    else Ok (mk2 u (length column / u) column).
Proof.
  intros Hc. unfold reshape_rows. rewrite np_reshape_rows_unknown.
  destruct (Nat.eqb_spec u 0) as [E|E]; cbn [orb]; [reflexivity|].
  destruct (Nat.eqb_spec (length column mod u) 0) as [M|M]; cbn [negb];
    [|reflexivity].
  rewrite too_big_no_zero; [reflexivity|].
  assert (Hl : length column <> 0).
  { intros H. apply length_zero_iff_nil in H. auto. }
  assert (0 < length column / u).
  { pose proof (Nat.div_mod_eq (length column) u).
    destruct (length column / u); lia. }
  repeat constructor; lia.
Qed.

Lemma reshape_rows_succeeds (u : nat) (column : list F) :
  (column = [] -> u = 0) ->
  succeeds (reshape_rows u column) <-> u <> 0 /\ length column mod u = 0.
Proof.
  intros Hc. rewrite reshape_rows_exact by exact Hc.
  destruct (Nat.eqb_spec u 0) as [E|E]; cbn [orb].
  - split; [intros [a Ha]; discriminate | intros [H _]; contradiction].
  - destruct (Nat.eqb_spec (length column mod u) 0) as [M|M]; cbn [negb].
    + split; [now split | intros _; eexists; reflexivity].
    + split; [intros [a Ha]; discriminate | intros [_ H]; contradiction].
Qed.

Lemma reshape_rows_ok (u : nat) (column : list F) (a : ndarray2 F) :
  reshape_rows u column = Ok a ->
  shape a = (u, length column / u) /\ flat a = column /\ wf2 a.
Proof.
  unfold reshape_rows. rewrite np_reshape_rows_unknown.
  destruct (Nat.eqb_spec u 0) as [E|E]; cbn [orb bind]; [discriminate|].
  destruct (Nat.eqb_spec (length column mod u) 0) as [M|M]; cbn [negb bind];
    [|discriminate].
  destruct (too_big [Z.of_nat u; Z.of_nat (length column / u)]);
    cbn [bind]; [discriminate|].
  intros H. injection H as <-. repeat split.
  unfold wf2. cbn [nrows ncols flat].
  pose proof (Nat.div_mod_eq (length column) u). lia.
Qed.

Lemma reshape_rows_raises (u : nat) (column : list F) (e : exn) :
  reshape_rows u column = Raise e -> e = ValueError.
Proof.
  unfold reshape_rows. rewrite np_reshape_rows_unknown.
  destruct ((u =? 0) || negb (length column mod u =? 0)); cbn [bind];
    [now intros [= <-]|].
  destruct (too_big [Z.of_nat u; Z.of_nat (length column / u)]);
    cbn [bind]; [now intros [= <-]|discriminate].
Qed.

(** A table without rows has no distinct value in any column. *)
Lemma column_nil_unique (f : miri_row F -> F) (g : miri_row F -> F)
    (t : miri_table F) :
  map f t = [] -> length (np_unique (map g t)) = 0.
Proof. intros H. apply map_eq_nil in H. now subst. Qed.

(** C4, as the code has it. With [R] rows and [U] distinct wavelengths in
    a channel, the reshape of the channel's flux column goes through
    exactly when [U] divides [R] (a table without rows has no wavelength
    and is refused); the grid then has the shape [(U, R / U)] and holds
    the column value for value.  The extraction succeeds exactly when the
    reshape goes through for both channels, and raises [ValueError]
    otherwise. *)
Theorem extract_succeeds_iff_exact (t : miri_table F) :
  let R := length t in
  let Ua := length (np_unique (map wla t)) in
  let Ub := length (np_unique (map wlb t)) in
  (t <> [] -> Ua <> 0 /\ Ub <> 0)
  /\ (succeeds (reshape_rows Ua (map fluxa t)) <-> Ua <> 0 /\ R mod Ua = 0)
  /\ (succeeds (reshape_rows Ub (map fluxb t)) <-> Ub <> 0 /\ R mod Ub = 0)
  /\ (succeeds (extract_miri_data t)
      <-> (Ua <> 0 /\ R mod Ua = 0) /\ (Ub <> 0 /\ R mod Ub = 0))
  /\ (forall ut ua ub A B,
        extract_miri_data t = Ok (ut, ua, ub, A, B) ->
        ut = np_unique (map MJD t)
        /\ ua = np_unique (map wla t) /\ ub = np_unique (map wlb t)
        /\ shape A = (Ua, R / Ua) /\ flat A = map fluxa t /\ wf2 A
        /\ shape B = (Ub, R / Ub) /\ flat B = map fluxb t /\ wf2 B)
  /\ (forall e, extract_miri_data t = Raise e -> e = ValueError).
Proof.
  intros R Ua Ub.
  assert (HRa : length (map fluxa t) = R) by apply length_map.
  assert (HRb : length (map fluxb t) = R) by apply length_map.
  split.
  { intros Ht. split; intros H; apply length_zero_iff_nil in H;
      revert H; apply np_unique_nonempty; intros H;
      apply map_eq_nil in H; contradiction. }
  assert (Hca : map fluxa t = [] -> Ua = 0) by apply column_nil_unique.
  assert (Hcb : map fluxb t = [] -> Ub = 0) by apply column_nil_unique.
  split; [rewrite reshape_rows_succeeds, HRa by exact Hca; reflexivity|].
  split; [rewrite reshape_rows_succeeds, HRb by exact Hcb; reflexivity|].
  unfold extract_miri_data. fold Ua Ub.
  split; [|split].
  - rewrite <- HRa at 1. rewrite <- HRb.
    rewrite <- (reshape_rows_succeeds Ua) by exact Hca.
    rewrite <- (reshape_rows_succeeds Ub) by exact Hcb.
    destruct (reshape_rows Ua (map fluxa t)) as [A|e]; cbn [bind].
    + destruct (reshape_rows Ub (map fluxb t)) as [B|e]; cbn [bind].
      * split; [intros _; split; eexists; reflexivity|].
        intros _; eexists; reflexivity.
      * split; [intros [a Ha]; discriminate|].
        intros [_ [a Ha]]; discriminate.
    + split; [intros [a Ha]; discriminate|].
      intros [[a Ha] _]; discriminate.
  - intros ut ua ub A B H.
    destruct (reshape_rows Ua (map fluxa t)) as [A'|e] eqn:HA; cbn [bind] in H;
      [|discriminate].
    destruct (reshape_rows Ub (map fluxb t)) as [B'|e] eqn:HB; cbn [bind] in H;
      [|discriminate].
    injection H as <- <- <- <- <-.
    apply reshape_rows_ok in HA as (HA1 & HA2 & HA3).
    apply reshape_rows_ok in HB as (HB1 & HB2 & HB3).
    rewrite HRa in HA1. rewrite HRb in HB1.
    repeat split; assumption.
  - intros e H.
    destruct (reshape_rows Ua (map fluxa t)) as [A'|e'] eqn:HA; cbn [bind] in H.
    + destruct (reshape_rows Ub (map fluxb t)) as [B'|e''] eqn:HB;
        cbn [bind] in H; [discriminate|].
      injection H as <-. now apply reshape_rows_raises in HB.
    + injection H as <-. now apply reshape_rows_raises in HA.
Qed.

End TableExtractor.

(* ================================================================= *)
(** ** The band light curves *)

(** The ceiling and the floor of [n / b] agree exactly when [b] divides
    [n]. *)
Lemma ceil_eq_floor_iff (n b : nat) :
  0 < b -> ((n + b - 1) / b = n / b <-> n mod b = 0).
Proof.
  intros Hb.
  pose proof (Nat.div_mod_eq n b) as Hn.
  pose proof (Nat.mod_upper_bound n b ltac:(lia)) as Hr.
  destruct (Nat.eq_dec (n mod b) 0) as [E|E].
  - split; [intros _; exact E|intros _].
    symmetry. apply (Nat.div_unique _ _ _ (b - 1)); lia.
  - split; [|intros; contradiction]. intros H. exfalso.
    assert (Hc : (n + b - 1) / b = S (n / b)).
    { symmetry. apply (Nat.div_unique _ _ _ (n mod b - 1)); nia. }
    lia.
Qed.

Section Lightcurves.

Context {F : Type} {FO : FloatOps F}.

(** Without NaN the plain median is the nan-aware one. *)
Lemma np_median_no_nan (l : list F) :
  existsb fis_nan l = false -> np_median l = np_nanmedian l.
Proof.
  intros H. unfold np_median, np_nanmedian.
  now rewrite H, filter_notnan_id.
Qed.

(** With a NaN the plain median is NaN. *)
Lemma np_median_nan (l : list F) :
  existsb fis_nan l = true -> np_median l = fnan.
Proof. intros H. unfold np_median. now rewrite H. Qed.

Lemma band_mean_nth (binned : ndarray2 F) (idx : list nat) (s : list F)
    (t : nat) :
  band_mean binned idx = Ok s -> t < ncols binned ->
  nth t s fnan
  = np_mean_axis0 (ncols binned) (map (fun w => get2 binned w t) idx).
Proof.
  unfold band_mean.
  destruct (forallb (fun i => i <? nrows binned) idx); [|discriminate].
  intros H Ht. injection H as <-.
  set (h := fun t => np_mean_axis0 (ncols binned)
                       (map (fun w => get2 binned w t) idx)).
  rewrite (nth_indep _ fnan (h 0)) by now rewrite length_map, length_seq.
  rewrite (map_nth h), seq_nth by exact Ht. reflexivity.
Qed.

Lemma band_mean_length (binned : ndarray2 F) (idx : list nat) (s : list F) :
  band_mean binned idx = Ok s -> length s = ncols binned.
Proof.
  unfold band_mean.
  destruct (forallb (fun i => i <? nrows binned) idx); [|discriminate].
  intros H. injection H as <-. now rewrite length_map, length_seq.
Qed.

(** The strided time axis has as many values as the binned grid has time
    bins exactly when the bin size divides the number of times. *)
Lemma strided_matches_bins_iff (flux binned : ndarray2 F)
    (times strided : list F) (b : nat) :
  0 < b -> length times = ncols flux ->
  bin_flux_array flux (PyInt (Z.of_nat b)) = Ok binned ->
  py_stride times (Z.of_nat b) = Ok strided ->
  length strided = (ncols flux + b - 1) / b
  /\ ncols binned = ncols flux / b
  /\ (length strided = ncols binned <-> ncols flux mod b = 0).
Proof.
  intros Hb Htimes Hbin Hst.
  destruct (bin_flux_array_ok flux binned _ Hbin) as (_ & Hshape & _).
  injection Hshape as _ ->. rewrite Nat2Z.id.
  destruct (py_stride_length times b Hb) as (out & Hout & Hlen).
  rewrite Hout in Hst. injection Hst as <-.
  rewrite Hlen, Htimes. repeat split; try apply ceil_eq_floor_iff; auto.
Qed.

End Lightcurves.

(* ================================================================= *)
(** ** The normalizer *)

Lemma chunks_of_concat {A : Type} (c : nat) (ls : list (list A)) :
  Forall (fun ch => length ch = c) ls ->
  chunks (length ls) c (concat ls) = ls.
Proof.
  induction 1 as [|ch ls Hch _ IH]; simpl; [reflexivity|].
  rewrite firstn_app, skipn_app, Hch, Nat.sub_diag.
  rewrite firstn_all2, skipn_all2 by lia. simpl.
  now rewrite app_nil_r, IH.
Qed.

Section Normalizer.

Context {F : Type} {FO : FloatOps F}.

(** The rows of an array rebuilt row by row. *)
Lemma rows_rowwise (a : ndarray2 F) (c : nat) (g : list F -> list F) :
  (forall r, In r (rows a) -> length (g r) = c) ->
  rows (mk2 (nrows a) c (concat (map g (rows a)))) = map g (rows a).
Proof.
  intros Hg. unfold rows at 1. cbn [nrows ncols flat].
  replace (nrows a) with (length (map g (rows a)))
    by (rewrite length_map; unfold rows; apply chunks_length).
  apply chunks_of_concat, Forall_forall. intros r Hr.
  apply in_map_iff in Hr as (r0 & <- & Hr0). now apply Hg.
Qed.

Lemma normalize_1d_length (l : list F) : length (normalize_1d l) = length l.
Proof. unfold normalize_1d. apply length_map. Qed.

Lemma normalize_row_length (r : list F) : length (normalize_row r) = length r.
Proof. unfold normalize_row. apply length_map. Qed.

Lemma wf2_normalize_2d (a : ndarray2 F) : wf2 a -> wf2 (normalize_2d a).
Proof.
  intros Hwf. unfold normalize_2d. apply wf2_rowwise.
  intros r Hr. rewrite normalize_row_length. now apply rows_In_length.
Qed.

Lemma row_normalize_2d (a : ndarray2 F) (w : nat) :
  wf2 a -> w < nrows a -> row (normalize_2d a) w = normalize_row (row a w).
Proof.
  intros Hwf Hw.
  rewrite <- (rows_nth (normalize_2d a) w) by exact Hw.
  unfold normalize_2d. rewrite rows_rowwise.
  - rewrite (nth_indep _ [] (normalize_row []))
      by (rewrite length_map; unfold rows; now rewrite chunks_length).
    rewrite (map_nth normalize_row), rows_nth by exact Hw. reflexivity.
  - intros r Hr. rewrite normalize_row_length. now apply rows_In_length.
Qed.

End Normalizer.

(* ================================================================= *)
(** ** Division and addition in binary64 *)

Lemma div_eucl_exact (a b : Z) :
  (0 < b)%Z -> Z.div_eucl (a * b) b = (a, 0%Z).
Proof.
  intros Hb.
  generalize (Z.div_eucl_eq (a * b) b ltac:(lia))
             (Z.mod_pos_bound (a * b) b Hb).
  unfold Z.modulo. destruct (Z.div_eucl (a * b) b) as [q r].
  intros Heq Hr.
  assert (q = a) by nia. subst q. f_equal. lia.
Qed.

Lemma shr_fexp_exact (m : positive) (e : Z) :
  fexp 53 1024 (Zdigits2 (Zpos m) + e) = e ->
  shr_fexp 53 1024 (Zpos m) e loc_Exact
  = ({| shr_m := Zpos m; shr_r := false; shr_s := false |}, e).
Proof.
  intros H. unfold shr_fexp. rewrite H, Z.sub_diag. reflexivity.
Qed.

Lemma bounded_canonical (m : positive) (e : Z) :
  bounded 53 1024 m e = true ->
  fexp 53 1024 (Zdigits2 (Zpos m) + e) = e /\ (e <= 971)%Z.
Proof.
  unfold bounded, canonical_mantissa. intros H.
  apply andb_prop in H as [H1 H2].
  apply Z.eqb_eq in H1. apply Z.leb_le in H2. split; [exact H1|exact H2].
Qed.

(** A value that is a binary64 number already is not rounded. *)
Lemma binary_round_aux_canonical (s : bool) (m : positive) (e : Z) :
  bounded 53 1024 m e = true ->
  binary_round_aux 53 1024 s (Zpos m) e loc_Exact = S754_finite s m e.
Proof.
  intros H. apply bounded_canonical in H as [Hc He].
  unfold binary_round_aux. rewrite (shr_fexp_exact m e Hc).
  cbn [shr_m loc_of_shr_record round_nearest_even].
  rewrite (shr_fexp_exact m e Hc). cbn [shr_m].
  replace (e <=? 1024 - 53)%Z with true by (symmetry; apply Z.leb_le; lia).
  reflexivity.
Qed.

(** Nor is twice the mantissa of a normal number at the exponent below. *)
Lemma binary_round_aux_doubled (s : bool) (m : positive) (e : Z) :
  bounded 53 1024 m e = true ->
  Zpos (digits2_pos m) = 53%Z ->
  binary_round_aux 53 1024 s (Zpos m~0) (e - 1) loc_Exact
  = S754_finite s m e.
Proof.
  intros H Hd. apply bounded_canonical in H as [Hc He].
  assert (Hlow : (-1074 <= e)%Z).
  { revert Hc. unfold fexp, emin. lia. }
  unfold binary_round_aux.
  assert (Hs : shr_fexp 53 1024 (Zpos m~0) (e - 1) loc_Exact
               = ({| shr_m := Zpos m; shr_r := false; shr_s := false |}, e)).
  { unfold shr_fexp. cbn [Zdigits2 digits2_pos]. rewrite Pos2Z.inj_succ, Hd.
    replace (fexp 53 1024 (Z.succ 53 + (e - 1)) - (e - 1))%Z with 1%Z
      by (unfold fexp, emin; lia).
    cbn. f_equal. lia. }
  rewrite Hs. cbn [shr_m loc_of_shr_record round_nearest_even].
  rewrite (shr_fexp_exact m e Hc). cbn [shr_m].
  replace (e <=? 1024 - 53)%Z with true by (symmetry; apply Z.leb_le; lia).
  reflexivity.
Qed.

(** The quotient of a binary64 number by 1.0, before rounding. *)
Lemma SFdiv_core_one (m : positive) (e : Z) :
  bounded 53 1024 m e = true ->
  SFdiv_core_binary 53 1024 (Zpos m) e 4503599627370496 (-52)
  = (if (Zpos (digits2_pos m) =? 53)%Z && (-1074 <? e)%Z
     then (Zpos m~0, (e - 1)%Z, loc_Exact) else (Zpos m, e, loc_Exact)).
Proof.
  intros H. apply bounded_canonical in H as [Hc He].
  unfold SFdiv_core_binary.
  change (Zdigits2 4503599627370496) with 53%Z.
  cbn [Zdigits2] in *.
  set (d := Zpos (digits2_pos m)) in *.
  assert (Hd : (0 < d)%Z) by (unfold d; lia).
  destruct ((d =? 53)%Z && (-1074 <? e)%Z) eqn:Hcase.
  - apply andb_prop in Hcase as [H1 H2].
    apply Z.eqb_eq in H1. apply Z.ltb_lt in H2.
    replace (Z.min (fexp 53 1024 (d + e - (53 + -52))) (e - -52))
      with (e - 1)%Z by (unfold fexp, emin; lia).
    replace (e - -52 - (e - 1))%Z with 53%Z by lia.
    rewrite Z.shiftl_mul_pow2 by lia.
    change (2 ^ 53)%Z with (2 * 4503599627370496)%Z.
    rewrite Z.mul_assoc, div_eucl_exact by lia.
    replace (Z.pos m * 2)%Z with (Zpos m~0) by lia.
    reflexivity.
  - assert (He' : e = (-1074)%Z).
    { apply andb_false_iff in Hcase as [H1 | H1].
      - apply Z.eqb_neq in H1. revert Hc. unfold fexp, emin. lia.
      - apply Z.ltb_ge in H1. revert Hc. unfold fexp, emin. lia. }
    assert (Hd' : (d <= 53)%Z) by (revert Hc; unfold fexp, emin; lia).
    replace (Z.min (fexp 53 1024 (d + e - (53 + -52))) (e - -52))
      with e by (unfold fexp, emin; lia).
    replace (e - -52 - e)%Z with 52%Z by lia.
    rewrite Z.shiftl_mul_pow2 by lia.
    change (2 ^ 52)%Z with 4503599627370496%Z.
    rewrite div_eucl_exact by lia.
    reflexivity.
Qed.

Lemma SFdiv_one (x : spec_float) :
  SpecFloat.valid_binary 53 1024 x = true ->
  SpecFloat.SFdiv 53 1024 x (S754_finite false 4503599627370496 (-52)) = x.
Proof.
  destruct x as [s | s | | s m e]; intros H; cbn [SpecFloat.SFdiv].
  - now rewrite xorb_false_r.
  - now rewrite xorb_false_r.
  - reflexivity.
  - cbn [SpecFloat.valid_binary] in H. rewrite xorb_false_r.
    rewrite (SFdiv_core_one m e H).
    destruct ((Zpos (digits2_pos m) =? 53)%Z && (-1074 <? e)%Z) eqn:Hcase.
    + apply andb_prop in Hcase as [H1 _]. apply Z.eqb_eq in H1.
      now apply binary_round_aux_doubled.
    + now apply binary_round_aux_canonical.
Qed.

(** Every binary64 value over 1.0 is itself. *)
Lemma b64_div_one (x : float) : (x / 1)%float = x.
Proof.
  apply Prim2SF_inj. rewrite div_spec.
  change (Prim2SF 1) with (S754_finite false 4503599627370496 (-52)).
  apply SFdiv_one. apply Prim2SF_valid.
Qed.

(** Every binary64 value over NaN is NaN. *)
Lemma b64_div_nan (x : float) : (x / nan)%float = nan.
Proof.
  apply Prim2SF_inj. rewrite div_spec.
  change (Prim2SF nan) with S754_nan.
  destruct (Prim2SF x); reflexivity.
Qed.

(** Adding a binary64 value to 0.0 gives the value, 0.0 for -0.0. *)
Lemma b64_zero_add (x : float) :
  (0 + x)%float = if PrimFloat.eqb x 0 then 0%float else x.
Proof.
  rewrite FloatAxioms.eqb_spec.
  change (Prim2SF 0) with (S754_zero false).
  destruct (Prim2SF x) as [s|s| |s m e] eqn:Hx.
  - cbn. apply Prim2SF_inj. rewrite FloatAxioms.add_spec, Hx.
    change (Prim2SF 0) with (S754_zero false). now destruct s.
  - cbn. apply Prim2SF_inj. rewrite FloatAxioms.add_spec, Hx.
    change (Prim2SF 0) with (S754_zero false). now destruct s.
  - cbn. apply Prim2SF_inj. rewrite FloatAxioms.add_spec, Hx. reflexivity.
  - replace (SFeqb (S754_finite s m e) (S754_zero false)) with false
      by now destruct s.
    apply Prim2SF_inj. rewrite FloatAxioms.add_spec, Hx. reflexivity.
Qed.

Lemma b64_zero_add_twice (x : float) : (0 + (0 + x))%float = (0 + x)%float.
Proof.
  rewrite (b64_zero_add x).
  destruct (PrimFloat.eqb x 0) eqn:E; [reflexivity|].
  rewrite b64_zero_add, E. reflexivity.
Qed.

(* ================================================================= *)
(** ** The normalizer in binary64 *)






(* ================================================================= *)
(** ** The properties on the sample inputs *)

Lemma sample_wide_flux_wf : wf2 sample_wide_flux.
Proof. vm_compute. reflexivity. Qed.

Lemma sample_variability_map_ok :
  plot_enhanced_lightcurve_map sample_wide_flux sample_wavelengths
    sample_times (PyInt 2) "variability"
  = Ok (Plot sample_variability_map).
Proof. vm_compute. reflexivity. Qed.

Lemma sample_flux_map_ok :
  plot_enhanced_lightcurve_map sample_wide_flux sample_wavelengths
    sample_times (PyInt 2) "flux"
  = Ok (Plot sample_flux_map).
Proof. vm_compute. reflexivity. Qed.


Lemma flux_map_unchanged_witness :
  exists b binned,
    py_int (PyInt 2) = Ok b
    /\ bin_flux_array sample_wide_flux (PyInt b) = Ok binned
    /\ z_data sample_flux_map = drop_rows leading_trim binned.
Proof.
  destruct (flux_map_unchanged sample_wide_flux sample_wavelengths
              sample_times (PyInt 2) sample_flux_map
              sample_wide_flux_wf eq_refl eq_refl sample_flux_map_ok)
    as (b & binned & strided & hours & H1 & H2 & _ & _ & H5 & _).
  exists b, binned. auto.
Defined.

Lemma map_grids_same_shape_witness :
  shape (time_grid sample_flux_map) = (1, 2)
  /\ shape (wavelength_grid sample_flux_map) = (1, 2)
  /\ shape (z_data sample_flux_map) = (1, 2)
  /\ mshape (ch4_mask sample_flux_map) = (1, 2)
  /\ mshape (co_mask sample_flux_map) = (1, 2).
Proof.
  destruct (map_grids_same_shape sample_wide_flux sample_wavelengths
              sample_times 2 "flux" sample_flux_map
              sample_wide_flux_wf (Nat.lt_succ_diag_r 60) eq_refl eq_refl
              (Nat.lt_0_succ 1) sample_flux_map_ok)
    as (H1 & H2 & H3 & H4 & H5 & _).
  repeat split; assumption.
Defined.

Lemma empty_map_returns_early_witness :
  plot_enhanced_lightcurve_map sample_flux sample_band_wavelengths
    sample_times (PyInt 7) "flux"
  = Ok (NoPlot "No time points available after binning. Unable to create plot.").
Proof.
  exact (proj1 (empty_map_returns_early sample_flux (mk2 2 0 [])
                  sample_band_wavelengths sample_times (PyInt 7) "flux" 7
                  eq_refl eq_refl eq_refl) eq_refl).
Defined.

(** Against C6 as stated: with bins wider than the time axis, and with
    fewer wavelengths than the trim, the map builder returns without a
    figure; it does not raise. *)
Lemma empty_map_does_not_raise :
  plot_enhanced_lightcurve_map sample_flux sample_band_wavelengths
    sample_times (PyInt 7) "flux"
  = Ok (NoPlot "No time points available after binning. Unable to create plot.")
  /\ plot_enhanced_lightcurve_map sample_flux sample_band_wavelengths
       sample_times (PyInt 2) "flux"
     = Ok (NoPlot "No finite values in z_data after slicing. Unable to create plot.")
  /\ ~ raises (plot_enhanced_lightcurve_map sample_flux
                 sample_band_wavelengths sample_times (PyInt 7) "flux")
  /\ ~ raises (plot_enhanced_lightcurve_map sample_flux
                 sample_band_wavelengths sample_times (PyInt 2) "flux").
Proof.
  assert (H7 : plot_enhanced_lightcurve_map sample_flux
                 sample_band_wavelengths sample_times (PyInt 7) "flux"
               = Ok (NoPlot "No time points available after binning. Unable to create plot."))
    by (vm_compute; reflexivity).
  assert (H2 : plot_enhanced_lightcurve_map sample_flux
                 sample_band_wavelengths sample_times (PyInt 2) "flux"
               = Ok (NoPlot "No finite values in z_data after slicing. Unable to create plot."))
    by (vm_compute; reflexivity).
  repeat split; try assumption.
  - rewrite H7. intros [e He]. discriminate.
  - rewrite H2. intros [e He]. discriminate.
Qed.


(** C7 at a failing input: with one observation missing, the CH4 series
    is [1, NaN, 3]; over its nan-aware median, as the normalizer's 1D case
    divides, it would be [0.5, NaN, 1.5]; the light curve the code returns
    is NaN throughout. *)
Theorem lightcurve_not_nan_aware :
  exists binned s,
    bin_flux_array gap_flux (PyInt 1) = Ok binned
    /\ band_mean binned (band_indices ch4_range gap_wavelengths) = Ok s
    /\ s = [1; nan; 3]%float
    /\ normalize_1d s = [0.5; nan; 1.5]%float
    /\ plot_specific_wavelength_lightcurves gap_flux gap_wavelengths
         gap_times (PyInt 1)
       = Ok ([0; 24; 48]%float, [nan; nan; nan]%float, [nan; nan; nan]%float)
    /\ [nan; nan; nan]%float <> normalize_1d s.
Proof.
  exists gap_flux, [1; nan; 3]%float.
  repeat split; try (vm_compute; reflexivity).
  vm_compute. discriminate.
Qed.

Lemma sample_lightcurves_ok :
  plot_specific_wavelength_lightcurves sample_flux sample_band_wavelengths
    sample_times (PyInt 2)
  = Ok (fst (fst sample_lightcurves), snd (fst sample_lightcurves),
        snd sample_lightcurves).
Proof. vm_compute. reflexivity. Qed.

(** C2 at a failing input: five times and bins of two.  The binned flux
    grid has two time bins, the strided time axis three values; the hours
    axis handed to the light-curve traces has three values for series of
    two. *)
Theorem binned_times_outnumber_bins :
  exists binned strided hours ch4 co,
    bin_flux_array sample_flux (PyInt 2) = Ok binned
    /\ py_stride sample_times 2 = Ok strided
    /\ ncols binned = length sample_times / 2
    /\ ncols binned = 2
    /\ length strided = 3
    /\ plot_specific_wavelength_lightcurves sample_flux
         sample_band_wavelengths sample_times (PyInt 2)
       = Ok (hours, ch4, co)
    /\ length hours = 3 /\ length ch4 = 2 /\ length co = 2.
Proof.
  do 5 eexists.
  split; [vm_compute; reflexivity|].
  split; [vm_compute; reflexivity|].
  split; [reflexivity|]. split; [reflexivity|]. split; [reflexivity|].
  split; [vm_compute; reflexivity|].
  repeat split.
Qed.



(** Against C1 as stated, in binary64.  The bin sizes 2^60 and 2^59 are
    positive integers, and the binners raise on the six values of
    [sample_series] and on the two rows of [sample_flux]: the shapes
    (0, 2^60) and (2, 0, 2^59) are too big.  And the one value 1e308, in a
    bin of one, comes back as infinity: along an axis the median is half
    the sum of the middle value with itself. *)
Lemma binner_refuses_huge_bins :
  median_bin sample_series (2 ^ 60) = Raise ValueError
  /\ bin_flux_array sample_flux (PyInt (2 ^ 59)) = Raise ValueError
  /\ median_bin [huge] 1 = Ok [infinity]
  /\ np_isfinite huge = true
  /\ ~ succeeds (median_bin sample_series (2 ^ 60))
  /\ ~ succeeds (bin_flux_array sample_flux (PyInt (2 ^ 59))).
Proof.
  assert (H1 : median_bin sample_series (2 ^ 60) = Raise ValueError)
    by (vm_compute; reflexivity).
  assert (H2 : bin_flux_array sample_flux (PyInt (2 ^ 59))
               = Raise ValueError)
    by (vm_compute; reflexivity).
  split; [exact H1|]. split; [exact H2|].
  split; [vm_compute; reflexivity|]. split; [vm_compute; reflexivity|].
  split; intros [a Ha]; congruence.
Qed.

(** In binary64 too, on a sample with three values. *)
Example normalize_twice_three_values :
  np_nanmedian (normalize_1d (normalize_1d [f1; fdec 31 10; fdec 77 10]))
  = 1%float.
Proof. vm_compute. reflexivity. Qed.

(** The scenarios of the specification: a grid of two wavelengths and four
    times binned by two, with its time axis; an array normalized by its
    median 4. *)
Example scenario_binned_flux :
  bin_flux_array (mk2 2 4 [1; 2; 3; 4; 5; 6; 7; 8]%float) (PyInt 2)
  = Ok (mk2 2 2 [1.5; 3.5; 5.5; 7.5]%float).
Proof. vm_compute. reflexivity. Qed.

Example scenario_binned_times :
  (strided <- py_stride [0; 1; 2; 3]%float 2 ;;
   hours <- to_hours strided ;;
   Ok (strided, hours))
  = Ok ([0; 2]%float, [0; 48]%float).
Proof. vm_compute. reflexivity. Qed.

Example scenario_normalize :
  normalize_spectrum (mkarr [4] [2; 4; 4; 10]%float)
  = Ok (mkarr [4] [0.5; 1; 1; 2.5]%float).
Proof. vm_compute. reflexivity. Qed.

(** [int()] on text. *)
Example int_of_string_samples :
  map int_of_string [" 25 "; "-7"; "+1_000"; "2.5"; "1__0"; "- 5"; ""]%string
  = [Some 25; Some (-7); Some 1000; None; None; None; None]%Z.
Proof. vm_compute. reflexivity. Qed.

(** A fullwidth digit two and a no-break space are read; a digit after the
    separator U+001C is not. *)
Example int_of_string_past_ascii :
  map int_of_string
    [String (ascii_of_nat 239) (String (ascii_of_nat 188)
       (String (ascii_of_nat 146) EmptyString));
     String (ascii_of_nat 194) (String (ascii_of_nat 160) "7");
     String (ascii_of_nat 28) "2"]
  = [Some 2; Some 7; None]%Z.
Proof. vm_compute. reflexivity. Qed.

(** The band limits are the literals of the sources. *)
Example band_limits :
  (@ch4_range float _, @co_range float _)
  = ((0x1.11eb851eb851fp+1, 2.5), (4.5, 0x1.4333333333333p+2))%float.
Proof. vm_compute. reflexivity. Qed.

(** Against C4 as stated: in [uneven_table] the two distinct wavelengths
    of channel A divide the four rows, and the extraction fails all the
    same, on channel B. *)
Lemma extract_needs_both_channels :
  length uneven_table = 4
  /\ length (np_unique (map wla uneven_table)) = 2
  /\ 4 mod 2 = 0
  /\ length (np_unique (map wlb uneven_table)) = 3
  /\ extract_miri_data uneven_table = Raise ValueError
  /\ ~ succeeds (extract_miri_data uneven_table).
Proof.
  assert (H : extract_miri_data uneven_table = Raise ValueError)
    by (vm_compute; reflexivity).
  repeat split; try (vm_compute; reflexivity).
  rewrite H. intros [a Ha]. discriminate.
Qed.

(** The extraction of [even_table]: two grids of shape (2, 2). *)
Example extract_even_table :
  extract_miri_data even_table
  = Ok ([0; 1], [1; 2], [5; 6],
        mk2 2 2 [10; 20; 30; 40], mk2 2 2 [50; 60; 70; 80])%float.
Proof. vm_compute. reflexivity. Qed.

(* ================================================================= *)
(** ** When the plotting functions raise *)

Lemma stride_aux_nonempty {A : Type} (step : nat) (l : list A) :
  l <> [] -> stride_aux step 0 l <> [].
Proof. destruct l; [congruence|discriminate]. Qed.

Lemma stride_aux_nil_iff {A : Type} (step : nat) (l : list A) :
  stride_aux step 0 l = [] <-> l = [].
Proof.
  split; [|now intros ->].
  destruct l; [reflexivity|discriminate].
Qed.

(** The [i]-th value of a stride is the value [i * step] places on. *)
Lemma stride_aux_nth {A : Type} (step skip i : nat) (l : list A) (d : A) :
  0 < step ->
  nth i (stride_aux step skip l) d = nth (skip + i * step) l d.
Proof.
  intros Hs. revert skip i; induction l as [|x l IH]; intros skip i.
  - cbn [stride_aux]. now destruct i, (skip + _).
  - destruct skip as [|k]; cbn [stride_aux].
    + destruct i as [|i]; [reflexivity|].
      cbn [nth]. rewrite IH.
      replace (0 + S i * step) with (S (step - 1 + i * step)) by lia.
      reflexivity.
    + rewrite IH. reflexivity.
Qed.

Lemma stride_aux_In {A : Type} (step skip : nat) (l : list A) (x : A) :
  In x (stride_aux step skip l) -> In x l.
Proof.
  revert skip; induction l as [|y l IH]; intros skip; cbn [stride_aux];
    [auto|].
  destruct skip as [|k].
  - intros [<-|H]; [now left|right; eauto].
  - intros H. right. eauto.
Qed.

Section Raising.

Context {F : Type} {FO : FloatOps F}.

Lemma to_hours_raises_iff (times : list F) :
  raises (to_hours times) <-> times = [].
Proof.
  unfold to_hours. destruct times as [|t times]; cbn [np_min bind].
  - split; [reflexivity|intros _; now exists ValueError].
  - split; [intros [e He]; discriminate|discriminate].
Qed.

Lemma z_of_mode_raises_iff (pt : string) (binned : ndarray2 F) :
  raises (z_of_mode pt binned)
  <-> pt <> "variability"%string /\ pt <> "flux"%string.
Proof.
  unfold z_of_mode.
  destruct (String.eqb_spec pt "variability") as [->|Hv].
  - split; [intros [e He]; discriminate|intros [H _]; congruence].
  - destruct (String.eqb_spec pt "flux") as [->|Hf].
    + split; [intros [e He]; discriminate|intros [_ H]; congruence].
    + split; [now split|intros _; now exists ValueError].
Qed.

(** When the steps of the map builder raise, up to the masks: when
    [int(bin_size)] is not a positive integer or asks for a shape that is
    too big and, with a good bin size and at least one time bin, when the
    time axis is empty (the minimum of no value) or the plot type is
    unknown. *)
Lemma plot_map_raises_iff (flux : ndarray2 F) (wl times : list F)
    (v : pyval F) (pt : string) :
  raises (plot_enhanced_lightcurve_map flux wl times v pt)
  <-> (~ exists b, py_int v = Ok b /\ (0 < b)%Z
                   /\ too_big (bin_shape flux b) = false)
      \/ (exists b, py_int v = Ok b /\ (0 < b)%Z
                    /\ too_big (bin_shape flux b) = false
                    /\ ncols flux / Z.to_nat b <> 0
                    /\ (times = []
                        \/ (pt <> "variability"%string
                            /\ pt <> "flux"%string))).
Proof.
  destruct (py_int v) as [b|e] eqn:Hb.
  2:{ split.
      - intros _. left. intros (b & H & _). discriminate.
      - intros _. unfold plot_enhanced_lightcurve_map. rewrite Hb.
        now exists e. }
  destruct (Z.ltb_spec 0 b) as [Hpos|Hneg].
  2:{ split.
      - intros _. left. intros (b' & H & Hb' & _). injection H as <-. lia.
      - intros _. apply plot_map_bad_bin_size.
        intros (b' & H & Hb' & _). rewrite Hb in H. injection H as <-. lia. }
  destruct (too_big (bin_shape flux b)) eqn:Hbig.
  { split.
    - intros _. left. intros (b' & H & _ & Hb'). injection H as <-.
      congruence.
    - intros _. apply plot_map_bad_bin_size.
      intros (b' & H & _ & Hb'). rewrite Hb in H. injection H as <-.
      congruence. }
  assert (Hbin : bin_flux_array flux (PyInt b)
                 = Ok (mk2 (nrows flux) (ncols flux / Z.to_nat b)
                         (map np_nanmean
                            (chunks (nrows flux * (ncols flux / Z.to_nat b))
                               (Z.to_nat b)
                               (flat (slice_cols flux
                                  (Z.of_nat (ncols flux / Z.to_nat b
                                             * Z.to_nat b)))))))).
  { rewrite <- (Z2Nat.id b) in Hbig |- * at 1 by lia.
    rewrite bin_flux_array_positive by lia.
    rewrite Hbig. reflexivity. }
  set (binned := mk2 _ _ _) in Hbin.
  assert (Hst : py_stride times b = Ok (stride_aux (Z.to_nat b) 0 times)).
  { unfold py_stride.
    destruct (Z.eqb_spec b 0); [lia|].
    destruct (Z.ltb_spec 0 b); [reflexivity|lia]. }
  unfold plot_enhanced_lightcurve_map.
  rewrite Hb. cbn [bind]. rewrite Hbin. cbn [bind]. rewrite Hst. cbn [bind].
  change (ncols binned) with (ncols flux / Z.to_nat b).
  destruct (Nat.eqb_spec (ncols flux / Z.to_nat b) 0) as [E|E].
  - split; [intros [e He]; discriminate|].
    intros [H|(b' & H & _ & _ & Hn & _)].
    + exfalso. apply H. now exists b.
    + injection H as <-. contradiction.
  - pose proof (to_hours_raises_iff (stride_aux (Z.to_nat b) 0 times)) as Hh.
    rewrite stride_aux_nil_iff in Hh.
    pose proof (z_of_mode_raises_iff pt binned) as Hz.
    destruct (to_hours (stride_aux (Z.to_nat b) 0 times)) as [hours|e];
      cbn [bind].
    + destruct (np_meshgrid hours wl) as [tg wg].
      destruct (z_of_mode pt binned) as [z|e]; cbn [bind].
      * split.
        -- intros [e He].
           destruct (existsb np_isfinite (flat (drop_rows leading_trim z)));
             discriminate.
        -- intros [H|(b' & _ & _ & _ & _ & [Ht|Hp])].
           ++ exfalso. apply H. now exists b.
           ++ apply Hh in Ht. destruct Ht. discriminate.
           ++ apply Hz in Hp. destruct Hp. discriminate.
      * split; [|intros _; now exists e].
        intros _. right. exists b. repeat split; try assumption.
        right. apply Hz. now exists e.
    + split; [|intros _; now exists e].
      intros _. right. exists b. repeat split; try assumption.
      left. apply Hh. now exists e.
Qed.

(** X1. When the map builder raises.  On axes that match the flux grid,
    the map builder raises, rendering aside, exactly when [int(bin_size)]
    is not a positive integer, when the shape (W, T // b, b) it asks of
    [reshape] is too big, or when there is at least one time bin and the
    plot type is neither variability nor flux.  Without a time bin it
    returns early even for an unknown plot type: the type is looked at
    after the guard. *)
Theorem map_builder_raises_iff (flux : ndarray2 F) (wl times : list F)
    (v : pyval F) (pt : string) :
  length wl = nrows flux -> length times = ncols flux ->
  raises (plot_enhanced_lightcurve_map flux wl times v pt)
  <-> (~ exists b, py_int v = Ok b /\ (0 < b)%Z
                   /\ too_big (bin_shape flux b) = false)
      \/ (exists b, py_int v = Ok b /\ (0 < b)%Z
                    /\ too_big (bin_shape flux b) = false
                    /\ ncols flux / Z.to_nat b <> 0
                    /\ pt <> "variability"%string /\ pt <> "flux"%string).
Proof.
  intros _ Htimes. rewrite plot_map_raises_iff. split.
  - intros [H|(b & Hb & Hpos & Hbig & Hn & [Ht|Hp])].
    + now left.
    + exfalso. apply Hn. rewrite <- Htimes, Ht. apply Nat.Div0.div_0_l.
    + right. exists b. tauto.
  - intros [H|(b & Hb & Hpos & Hbig & Hn & Hp)]; [now left|].
    right. exists b. tauto.
Qed.

(** X2. Grids below the trim.  With no more wavelength rows than the trim
    leaves out, the map builder never builds a figure, whatever the
    other arguments: nothing is left of the z grid. *)
Theorem no_figure_below_trim (flux : ndarray2 F) (wl times : list F)
    (v : pyval F) (pt : string) (g : map_grids F) :
  wf2 flux -> nrows flux <= leading_trim ->
  plot_enhanced_lightcurve_map flux wl times v pt <> Ok (Plot g).
Proof.
  intros Hwf HW H.
  apply plot_map_inv in H
    as (b & binned & strided & hours & z & _ & Hbin & _ & _ & _ & Hz
        & Hfin & _).
  destruct (bin_flux_array_ok flux binned b Hbin) as (_ & Hshape & Hwfb).
  specialize (Hwfb Hwf). injection Hshape as Hrows _.
  assert (Hzwf : wf2 z /\ nrows z = nrows flux).
  { destruct Hz as [[_ ->]|[_ ->]].
    - split; [now apply wf2_variability|exact Hrows].
    - now split. }
  destruct Hzwf as [Hzwf Hzr].
  unfold drop_rows in Hfin. cbn [flat] in Hfin.
  rewrite skipn_all2 in Hfin by (rewrite Hzwf, Hzr; unfold leading_trim in *; nia).
  discriminate.
Qed.

End Raising.

(* ================================================================= *)
(** ** The hours axis and the band series *)

Lemma py_stride_positive {A : Type} (l : list A) (b : Z) :
  (0 < b)%Z -> py_stride l b = Ok (stride_aux (Z.to_nat b) 0 l).
Proof.
  intros Hb. unfold py_stride.
  destruct (Z.eqb_spec b 0); [lia|].
  destruct (Z.ltb_spec 0 b); [reflexivity|lia].
Qed.

Section Series.

Context {F : Type} {FO : FloatOps F}.

Lemma band_indices_In (rng : F * F) (wl : list F) (i : nat) :
  In i (band_indices rng wl)
  <-> i < length wl /\ in_range rng (nth i wl fnan) = true.
Proof.
  unfold band_indices. rewrite filter_In, in_seq. intuition lia.
Qed.

Lemma band_mean_raises_iff (binned : ndarray2 F) (idx : list nat) :
  raises (band_mean binned idx) <-> exists i, In i idx /\ nrows binned <= i.
Proof.
  unfold band_mean.
  destruct (forallb (fun i => i <? nrows binned) idx) eqn:E.
  - split; [intros [e He]; discriminate|].
    intros (i & Hi & Hn). rewrite forallb_forall in E.
    apply E in Hi. apply Nat.ltb_lt in Hi. lia.
  - split; [|intros _; now exists IndexError].
    intros _.
    assert (H : ~ Forall (fun i => i < nrows binned) idx).
    { intros H. rewrite Forall_forall in H.
      assert (E' : forallb (fun i => i <? nrows binned) idx = true).
      { apply forallb_forall. intros i Hi. apply Nat.ltb_lt. now apply H. }
      congruence. }
    apply neg_Forall_Exists_neg in H; [|intros i; apply Compare_dec.lt_dec].
    apply Exists_exists in H as (i & Hi & Hn). exists i. split; [exact Hi|lia].
Qed.

Lemma lightcurves_inv (flux : ndarray2 F) (wl times : list F) (v : pyval F)
    (hours ch4 co : list F) :
  plot_specific_wavelength_lightcurves flux wl times v = Ok (hours, ch4, co) ->
  exists b binned s4 so,
    py_int v = Ok b /\ (0 < b)%Z
    /\ bin_flux_array flux (PyInt b) = Ok binned
    /\ shape binned = (nrows flux, ncols flux / Z.to_nat b)
    /\ to_hours (stride_aux (Z.to_nat b) 0 times) = Ok hours
    /\ band_mean binned (band_indices ch4_range wl) = Ok s4
    /\ band_mean binned (band_indices co_range wl) = Ok so
    /\ ch4 = normalize_lightcurve s4 /\ co = normalize_lightcurve so.
Proof.
  unfold plot_specific_wavelength_lightcurves. intros H.
  destruct (py_int v) as [b|e] eqn:Hb; cbn [bind] in H; [|discriminate].
  destruct (bin_flux_array flux (PyInt b)) as [binned|e] eqn:Hbin;
    cbn [bind] in H; [|discriminate].
  destruct (bin_flux_array_ok flux binned b Hbin) as (Hpos & Hshape & _).
  rewrite (py_stride_positive times b Hpos) in H. cbn [bind] in H.
  destruct (to_hours (stride_aux (Z.to_nat b) 0 times)) as [hrs|e] eqn:Hh;
    cbn [bind] in H; [|discriminate].
  destruct (band_mean binned (band_indices ch4_range wl)) as [s4|e] eqn:H4;
    cbn [bind] in H; [|discriminate].
  destruct (band_mean binned (band_indices co_range wl)) as [so|e] eqn:Ho;
    cbn [bind] in H; [|discriminate].
  injection H as <- <- <-.
  exists b, binned, s4, so. repeat split; assumption || reflexivity.
Qed.

(** With a good bin size, the steps of the light-curve function raise
    when the time axis is empty and when a band wavelength has no row in
    the flux grid. *)
Lemma lightcurves_raise_positive (flux : ndarray2 F) (wl times : list F)
    (v : pyval F) (b : Z) :
  py_int v = Ok b -> (0 < b)%Z -> too_big (bin_shape flux b) = false ->
  raises (plot_specific_wavelength_lightcurves flux wl times v)
  <-> times = []
      \/ (exists i, i < length wl /\ nrows flux <= i
                    /\ (in_range ch4_range (nth i wl fnan) = true
                        \/ in_range co_range (nth i wl fnan) = true)).
Proof.
  intros Hb Hpos Hbig. unfold plot_specific_wavelength_lightcurves.
  rewrite Hb. cbn [bind].
  assert (Hbin : exists binned, bin_flux_array flux (PyInt b) = Ok binned
                                /\ nrows binned = nrows flux).
  { rewrite <- (Z2Nat.id b) in Hbig |- * by lia.
    rewrite bin_flux_array_positive by lia. rewrite Hbig.
    eexists. split; reflexivity. }
  destruct Hbin as (binned & -> & Hrows). cbn [bind].
  rewrite (py_stride_positive times b Hpos). cbn [bind].
  pose proof (to_hours_raises_iff (stride_aux (Z.to_nat b) 0 times)) as Hh.
  rewrite stride_aux_nil_iff in Hh.
  pose proof (band_mean_raises_iff binned (band_indices ch4_range wl)) as H4.
  pose proof (band_mean_raises_iff binned (band_indices co_range wl)) as Ho.
  rewrite Hrows in H4, Ho.
  destruct (to_hours (stride_aux (Z.to_nat b) 0 times)) as [hours|e];
    cbn [bind].
  2:{ split; [|intros _; now exists e].
      intros _. left. apply Hh. now exists e. }
  assert (Ht : times <> []).
  { intros E. apply Hh in E. destruct E. discriminate. }
  destruct (band_mean binned (band_indices ch4_range wl)) as [s4|e];
    cbn [bind].
  2:{ split; [|intros _; now exists e].
      intros _. right.
      destruct (proj1 H4) as (i & Hi & Hn); [now exists e|].
      apply band_indices_In in Hi as [Hi Hr].
      exists i. repeat split; auto. }
  destruct (band_mean binned (band_indices co_range wl)) as [so|e];
    cbn [bind].
  2:{ split; [|intros _; now exists e].
      intros _. right.
      destruct (proj1 Ho) as (i & Hi & Hn); [now exists e|].
      apply band_indices_In in Hi as [Hi Hr].
      exists i. repeat split; auto. }
  split; [intros [e He]; discriminate|].
  intros [H|(i & Hi & Hn & [Hr|Hr])].
  - contradiction.
  - destruct (proj2 H4) as [e He]; [|discriminate].
    exists i. split; [|exact Hn]. apply band_indices_In. now split.
  - destruct (proj2 Ho) as [e He]; [|discriminate].
    exists i. split; [|exact Hn]. apply band_indices_In. now split.
Qed.

(** X3. When the light-curve function raises.  Rendering aside, it
    raises exactly when [int(bin_size)] is not a positive integer, when
    the shape (W, T // b, b) it asks of [reshape] is too big, when the
    time axis is empty (the minimum of no value), and when a wavelength of
    one of the two bands sits at an index past the last row of the flux
    grid (the row selection).  Unlike the map builder it has no guard:
    without a time bin it goes on with empty series. *)
Theorem lightcurves_raise_iff (flux : ndarray2 F) (wl times : list F)
    (v : pyval F) :
  raises (plot_specific_wavelength_lightcurves flux wl times v)
  <-> (~ exists b, py_int v = Ok b /\ (0 < b)%Z
                   /\ too_big (bin_shape flux b) = false)
      \/ times = []
      \/ (exists i, i < length wl /\ nrows flux <= i
                    /\ (in_range ch4_range (nth i wl fnan) = true
                        \/ in_range co_range (nth i wl fnan) = true)).
Proof.
  destruct (py_int v) as [b|e] eqn:Hb.
  2:{ unfold plot_specific_wavelength_lightcurves. rewrite Hb. cbn [bind].
      split; [|intros _; now exists e].
      intros _. left. intros (b & H & _). discriminate. }
  destruct (Z.ltb_spec 0 b) as [Hpos|Hneg].
  - destruct (too_big (bin_shape flux b)) eqn:Hbig.
    + unfold plot_specific_wavelength_lightcurves. rewrite Hb. cbn [bind].
      pose proof (bin_flux_array_positive flux (Z.to_nat b) ltac:(lia)) as Hp.
      rewrite Z2Nat.id in Hp by lia. rewrite Hp, Hbig. cbn [bind].
      split; [|intros _; now exists ValueError].
      intros _. left. intros (b' & H & _ & Hb'). injection H as <-.
      congruence.
    + rewrite (lightcurves_raise_positive flux wl times v b Hb Hpos Hbig).
      split; [intros H; now right|].
      intros [H|H]; [|exact H].
      exfalso. apply H. now exists b.
  - unfold plot_specific_wavelength_lightcurves. rewrite Hb. cbn [bind].
    destruct (bin_flux_array_nonpositive flux b Hneg) as [e He].
    rewrite He. cbn [bind]. split; [|intros _; now exists e].
    intros _. left. intros (b' & H & Hb' & _). injection H as <-. lia.
Qed.

(** The minimum of a value followed by values it is at most, none of
    them NaN, is that value. *)
Lemma fold_fmin_first (x : F) (l : list F) :
  fis_nan x = false ->
  Forall (fun y => fis_nan y = false /\ fleb x y = true) l ->
  fold_left fmin l x = x.
Proof.
  intros Hx H. induction H as [|y l [Hy Hle] _ IH]; [reflexivity|].
  cbn [fold_left]. unfold fmin at 2. now rewrite Hx, Hy, Hle.
Qed.

(** On ascending times without NaN, the hours of a stride are counted
    from the first time. *)
Lemma to_hours_stride (times hours : list F) (b : nat) :
  0 < b -> StronglySorted fle times -> all_numbers times ->
  to_hours (stride_aux b 0 times) = Ok hours ->
  length hours = (length times + b - 1) / b
  /\ forall i, i < length hours ->
       nth i hours fnan
       = fmul (fsub (nth (i * b) times fnan) (nth 0 times fnan)) f24.
Proof.
  intros Hb Hs Hn Hh.
  assert (Hlen : length hours = (length times + b - 1) / b).
  { rewrite (to_hours_length _ _ Hh), stride_aux_length by exact Hb.
    f_equal. lia. }
  split; [exact Hlen|].
  assert (Hmin : np_min (stride_aux b 0 times) = Ok (nth 0 times fnan)
                 \/ times = []).
  { destruct times as [|t0 times]; [now right|left].
    cbn [stride_aux np_min nth]. f_equal. apply fold_fmin_first.
    - now inversion Hn.
    - apply Forall_forall. intros y Hy. apply stride_aux_In in Hy.
      inversion Hs as [|? ? _ Hall]; subst.
      inversion Hn as [|? ? _ Hnn]; subst.
      rewrite Forall_forall in Hall, Hnn.
      split; [now apply Hnn|now apply Hall]. }
  destruct Hmin as [Hmin| ->]; [|cbn in Hh; discriminate].
  unfold to_hours in Hh. rewrite Hmin in Hh. cbn [bind] in Hh.
  injection Hh as <-. intros i Hi.
  set (h := fun t => fmul (fsub t (nth 0 times fnan)) f24).
  rewrite (nth_indep _ fnan (h fnan)) by exact Hi.
  rewrite (map_nth h (stride_aux b 0 times) fnan).
  unfold h. now rewrite stride_aux_nth.
Qed.

(** X4. The hours axis of the light curves.  On ascending times without
    NaN, the axis holds one value for every [bin_size] times, rounded up:
    the time that opens the bin, in hours after the first time.  Each
    series holds one value for every full bin of the flux grid, so the
    axis is one value longer than the series when the last bin is not
    full. *)
Theorem lightcurve_hours_axis (flux : ndarray2 F) (wl times : list F)
    (b : nat) (hours ch4 co : list F) :
  0 < b -> StronglySorted fle times -> all_numbers times ->
  length times = ncols flux ->
  plot_specific_wavelength_lightcurves flux wl times (PyInt (Z.of_nat b))
  = Ok (hours, ch4, co) ->
  length hours = (ncols flux + b - 1) / b
  /\ length ch4 = ncols flux / b /\ length co = ncols flux / b
  /\ (forall i, i < length hours ->
        nth i hours fnan
        = fmul (fsub (nth (i * b) times fnan) (nth 0 times fnan)) f24)
  /\ (length hours = length ch4 <-> ncols flux mod b = 0).
Proof.
  intros Hb Hs Hn Htimes H.
  apply lightcurves_inv in H
    as (b' & binned & s4 & so & Hb' & _ & _ & Hshape & Hh & H4 & Ho & -> & ->).
  cbn [py_int] in Hb'. injection Hb' as <-.
  rewrite Nat2Z.id in Hshape, Hh. injection Hshape as _ Hcols.
  destruct (to_hours_stride times hours b Hb Hs Hn Hh) as [Hlen Hval].
  unfold normalize_lightcurve. rewrite !length_map.
  rewrite (band_mean_length _ _ _ H4), (band_mean_length _ _ _ Ho), Hcols.
  rewrite Hlen, Htimes.
  repeat split; try reflexivity.
  - intros i Hi. apply Hval. rewrite Hlen, Htimes. exact Hi.
  - now apply ceil_eq_floor_iff.
  - now apply ceil_eq_floor_iff.
Qed.

(** X5. The time grid of a figure.  On ascending times without NaN, every
    row of the time grid is the same: bin [t] is placed at the time that
    opens it, in hours after the first time. *)
Theorem time_grid_opens_bins (flux : ndarray2 F) (wl times : list F)
    (b : nat) (pt : string) (g : map_grids F) :
  0 < b -> StronglySorted fle times -> all_numbers times ->
  wf2 flux -> length wl = nrows flux -> length times = ncols flux ->
  plot_enhanced_lightcurve_map flux wl times (PyInt (Z.of_nat b)) pt
  = Ok (Plot g) ->
  forall w t, w < nrows (time_grid g) -> t < ncols (time_grid g) ->
    get2 (time_grid g) w t
    = fmul (fsub (nth (t * b) times fnan) (nth 0 times fnan)) f24.
Proof.
  intros Hb Hs Hn Hwf Hwl Htimes H w t Hw Ht.
  apply (plot_map_grids flux wl times _ pt g Hwf Hwl Htimes) in H
    as (b' & binned & strided & hours & Hb' & Hpos & _ & Hst & Hh & _ & _ & _
        & _ & Htg & _ & _ & _ & _ & _ & _ & _ & _ & _ & Hget).
  cbn [py_int] in Hb'. injection Hb' as <-.
  rewrite Nat2Z.id in Htg, Hget.
  rewrite py_stride_positive in Hst by exact Hpos. injection Hst as <-.
  rewrite Nat2Z.id in Hh.
  injection Htg as Hr Hc. rewrite Hr in Hw. rewrite Hc in Ht.
  destruct (Hget w t) as [-> _]; [unfold leading_trim in *; lia|exact Ht|].
  destruct (to_hours_stride times hours b Hb Hs Hn Hh) as [Hlen Hval].
  apply Hval. rewrite Hlen, Htimes.
  pose proof (ceil_ge_floor (ncols flux) b Hb). lia.
Qed.

End Series.

(** X6. A band without a wavelength.  In binary64, when no wavelength lies
    in a band, every value of the band's light curve is NaN: the mean over
    no row is [0 / 0], and so is the median the series is divided by. *)
Theorem empty_band_all_nan (flux : ndarray2 float) (wl times : list float)
    (v : pyval float) (hours ch4 co : list float) :
  plot_specific_wavelength_lightcurves flux wl times v = Ok (hours, ch4, co) ->
  (band_indices ch4_range wl = [] ->
   Forall (fun x => PrimFloat.is_nan x = true) ch4)
  /\ (band_indices co_range wl = [] ->
      Forall (fun x => PrimFloat.is_nan x = true) co).
Proof.
  intros H.
  apply lightcurves_inv in H
    as (b & binned & s4 & so & _ & _ & _ & _ & _ & H4 & Ho & -> & ->).
  assert (Hempty : forall s, band_mean binned [] = Ok s ->
            Forall (fun x => PrimFloat.is_nan x = true)
                   (normalize_lightcurve s)).
  { assert (Hcell : forall n, @np_mean_axis0 float binary64 n [] = nan).
    { intros n. unfold np_mean_axis0. destruct (n =? 1)%nat; reflexivity. }
    intros s Hs. unfold band_mean in Hs. cbn [forallb] in Hs.
    injection Hs as <-.
    unfold normalize_lightcurve.
    apply Forall_forall. intros x Hx.
    apply in_map_iff in Hx as (y & <- & Hy).
    apply in_map_iff in Hy as (t & <- & Ht).
    set (m := np_median _).
    assert (Hm : m = nan).
    { unfold m. apply (@np_median_nan float binary64).
      apply existsb_exists. exists nan. split; [|reflexivity].
      apply in_map_iff. exists t. split; [apply Hcell|exact Ht]. }
    rewrite Hm.
    change (PrimFloat.is_nan
              (@np_mean_axis0 float binary64 (ncols binned) [] / nan)
            = true).
    rewrite Hcell. reflexivity. }
  split; intros E; [rewrite E in H4|rewrite E in Ho]; now apply Hempty.
Qed.

(** X20. A light curve and the NaN of its series.  Each light curve is
    its band series over [np.median] of the series, which is not
    nan-aware.  In binary64, when the series holds a NaN the whole light
    curve is NaN; when it holds none, the light curve is the series as
    the normalizer's 1D case normalizes it. *)
Theorem lightcurve_nan_spreads (flux : ndarray2 float)
    (wl times : list float) (v : pyval float) (hours ch4 co : list float) :
  plot_specific_wavelength_lightcurves flux wl times v = Ok (hours, ch4, co) ->
  exists b binned s4 so,
    py_int v = Ok b
    /\ bin_flux_array flux (PyInt b) = Ok binned
    /\ band_mean binned (band_indices ch4_range wl) = Ok s4
    /\ band_mean binned (band_indices co_range wl) = Ok so
    /\ ch4 = map (fun x => fdiv x (np_median s4)) s4
    /\ co = map (fun x => fdiv x (np_median so)) so
    /\ (existsb PrimFloat.is_nan s4 = true ->
        Forall (fun x => PrimFloat.is_nan x = true) ch4)
    /\ (existsb PrimFloat.is_nan so = true ->
        Forall (fun x => PrimFloat.is_nan x = true) co)
    /\ (existsb PrimFloat.is_nan s4 = false -> ch4 = normalize_1d s4)
    /\ (existsb PrimFloat.is_nan so = false -> co = normalize_1d so).
Proof.
  intros H.
  apply lightcurves_inv in H
    as (b & binned & s4 & so & Hb & _ & Hbin & _ & _ & H4 & Ho & -> & ->).
  exists b, binned, s4, so.
  assert (Hnan : forall s, existsb PrimFloat.is_nan s = true ->
            Forall (fun x => PrimFloat.is_nan x = true)
                   (normalize_lightcurve s)).
  { intros s Hs. unfold normalize_lightcurve.
    rewrite (@np_median_nan float binary64 s Hs).
    apply Forall_forall. intros x Hx.
    apply in_map_iff in Hx as (y & <- & _).
    cbn [fdiv fnan binary64]. now rewrite b64_div_nan. }
  assert (Hnone : forall s, existsb PrimFloat.is_nan s = false ->
            normalize_lightcurve s = normalize_1d s).
  { intros s Hs. unfold normalize_lightcurve, normalize_1d.
    unfold np_median, np_nanmedian. cbn [fis_nan binary64].
    rewrite Hs. now rewrite (@filter_notnan_id float binary64 s Hs). }
  repeat split; auto.
Qed.

(* ================================================================= *)
(** ** The band masks *)

Section Masks.

Context {F : Type} {FO : FloatOps F}.

Lemma mget_band_mask (rng : F * F) (wg : ndarray2 F) (w t : nat) :
  wf2 wg -> w < nrows wg -> t < ncols wg ->
  mget (band_mask rng wg) w t = in_range rng (get2 wg w t).
Proof.
  intros Hwf Hw Ht. unfold mget, band_mask, get2. cbn [mcols mflat].
  rewrite (nth_indep _ false (in_range rng fnan))
    by (rewrite length_map, Hwf; nia).
  apply map_nth.
Qed.

(** X7. The masks follow the wavelength axis.  In a figure, a position of
    a band mask is set exactly when the wavelength of its row, the one
    [leading_trim] places on in the wavelength axis, lies in the band, both
    ends included; the time of the position plays no part. *)
Theorem band_masks_follow_wavelengths (flux : ndarray2 F)
    (wl times : list F) (v : pyval F) (pt : string) (g : map_grids F) :
  wf2 flux -> length wl = nrows flux -> length times = ncols flux ->
  plot_enhanced_lightcurve_map flux wl times v pt = Ok (Plot g) ->
  forall w t, w < mrows (ch4_mask g) -> t < mcols (ch4_mask g) ->
    mget (ch4_mask g) w t
    = in_range ch4_range (nth (w + leading_trim) wl fnan)
    /\ mget (co_mask g) w t
       = in_range co_range (nth (w + leading_trim) wl fnan).
Proof.
  intros Hwf Hwl Htimes H w t Hw Ht.
  pose proof H as H'.
  apply plot_map_inv in H'
    as (b' & bn' & st' & h' & z' & _ & _ & _ & _ & _ & _ & _ & _ & _ & _
        & Hc4 & Hco).
  apply (plot_map_grids flux wl times v pt g Hwf Hwl Htimes) in H
    as (b & binned & strided & hours & _ & _ & _ & _ & _ & _
        & _ & _ & _ & _ & Hws & _ & Hm4 & _ & _ & Hww & _ & _ & _ & Hget).
  injection Hws as Hwr Hwc. injection Hm4 as Hmr Hmc.
  rewrite Hmr in Hw. rewrite Hmc in Ht.
  destruct (Hget w t) as [_ Hwg]; [unfold leading_trim in *; lia|exact Ht|].
  rewrite Hc4, Hco, !mget_band_mask, Hwg by (try assumption; lia).
  now split.
Qed.

End Masks.

(* ================================================================= *)
(** ** The bands and the windows in binary64 *)

(** No binary64 value is at most 2.5 and at least 4.5. *)
Lemma b64_between_bands (x : float) :
  PrimFloat.leb x 2.5 = true -> PrimFloat.leb 4.5 x = false.
Proof.
  rewrite !leb_spec.
  change (Prim2SF 2.5) with (S754_finite false 5629499534213120 (-51)).
  change (Prim2SF 4.5) with (S754_finite false 5066549580791808 (-50)).
  unfold SFleb, SFcompare.
  destruct (Prim2SF x) as [s|s| |s m e]; try reflexivity.
  - destruct s; [reflexivity|discriminate].
  - destruct s; [reflexivity|].
    destruct (Z.compare_spec e (-51)) as [->|Hlt|Hgt].
    + intros _. reflexivity.
    + intros _. destruct (Z.compare_spec (-50) e); try reflexivity; lia.
    + discriminate.
Qed.

Lemma b64_band_ends :
  snd (@ch4_range float binary64) = 2.5%float
  /\ fst (@co_range float binary64) = 4.5%float.
Proof. split; vm_compute; reflexivity. Qed.

(** No binary64 wavelength lies in both bands. *)
Lemma b64_bands_disjoint (x : float) :
  in_range ch4_range x = true -> in_range co_range x = false.
Proof.
  unfold in_range. destruct b64_band_ends as [-> ->].
  cbn [fleb binary64]. intros H.
  apply andb_true_iff in H as [_ H].
  now rewrite (b64_between_bands x H).
Qed.

Lemma mget_band_mask_any (rng : float * float) (wg : ndarray2 float)
    (w t : nat) :
  mget (band_mask rng wg) w t = true ->
  in_range rng (nth (w * ncols wg + t) (flat wg) nan) = true.
Proof.
  unfold mget, band_mask. cbn [mcols mflat].
  destruct (Nat.lt_ge_cases (w * ncols wg + t) (length (flat wg))) as [Hl|Hl].
  - rewrite (nth_indep _ false (in_range rng nan)) by now rewrite length_map.
    now rewrite (map_nth (in_range rng) (flat wg) nan).
  - rewrite nth_overflow by now rewrite length_map. discriminate.
Qed.

(** X8. The two bands never overlap.  In binary64 the upper end of the CH4
    range is 2.5 and the lower end of the CO range is 4.5, so no position
    of a figure is set in both masks, and no wavelength index is selected
    for both light curves. *)
Theorem bands_never_overlap (flux : ndarray2 float) (wl times : list float)
    (v : pyval float) (pt : string) (g : map_grids float) :
  plot_enhanced_lightcurve_map flux wl times v pt = Ok (Plot g) ->
  (forall w t, mget (ch4_mask g) w t && mget (co_mask g) w t = false)
  /\ (forall i, In i (band_indices ch4_range wl) ->
                ~ In i (band_indices co_range wl)).
Proof.
  intros H. split.
  - apply plot_map_inv in H
      as (b' & bn' & st' & h' & z' & _ & _ & _ & _ & _ & _ & _ & _ & _ & _
          & Hc4 & Hco).
    intros w t. rewrite Hc4, Hco.
    destruct (mget (band_mask ch4_range (wavelength_grid g)) w t) eqn:E4;
      [|reflexivity].
    destruct (mget (band_mask co_range (wavelength_grid g)) w t) eqn:Eo;
      [|reflexivity].
    apply mget_band_mask_any in E4. apply mget_band_mask_any in Eo.
    apply b64_bands_disjoint in E4. congruence.
  - intros i H4 Ho. unfold band_indices in H4, Ho.
    apply filter_In in H4 as [_ H4]. apply filter_In in Ho as [_ Ho].
    apply b64_bands_disjoint in H4. congruence.
Qed.


(** Adding zeros to zero gives zero, in whatever order [np.sum] adds
    them. *)
Local Abbreviation zeros := (Forall (fun x : float => x = 0%float)).

Lemma b64_sum_zeros (l : list float) :
  zeros l -> fold_left PrimFloat.add l 0%float = 0%float.
Proof.
  induction 1 as [|x l -> _ IH]; [reflexivity|].
  cbn [fold_left]. exact IH.
Qed.

Lemma zeros_firstn (k : nat) (l : list float) : zeros l -> zeros (firstn k l).
Proof.
  intros H. rewrite <- (firstn_skipn k l) in H.
  now apply Forall_app in H as [H _].
Qed.

Lemma zeros_skipn (k : nat) (l : list float) : zeros l -> zeros (skipn k l).
Proof.
  intros H. rewrite <- (firstn_skipn k l) in H.
  now apply Forall_app in H as [_ H].
Qed.

Lemma zeros_eq_repeat (l : list float) :
  zeros l -> l = repeat 0%float (length l).
Proof.
  induction 1 as [|x l -> _ IH]; [reflexivity|].
  cbn [length repeat]. now rewrite <- IH.
Qed.

Lemma chunks_zeros (r c : nat) (l : list float) :
  zeros l -> r * c <= length l ->
  Forall (fun ch => ch = repeat 0%float c) (chunks r c l).
Proof.
  revert l; induction r as [|r IH]; intros l Hz Hl; cbn [chunks];
    [constructor|].
  constructor.
  - rewrite (zeros_eq_repeat (firstn c l)) by now apply zeros_firstn.
    rewrite length_firstn. f_equal. lia.
  - apply IH; [now apply zeros_skipn|]. rewrite length_skipn. lia.
Qed.

Lemma fold_add8_zeros (cs : list (list float)) :
  Forall (fun ch => ch = repeat 0%float 8) cs ->
  fold_left add8 cs (repeat 0%float 8) = repeat 0%float 8.
Proof.
  induction 1 as [|ch cs -> _ IH]; [reflexivity|].
  cbn [fold_left]. exact IH.
Qed.

Lemma sum_block_zeros (l : list float) :
  zeros l -> 8 <= length l -> sum_block l = 0%float.
Proof.
  intros Hz Hl. unfold sum_block.
  pose proof (Nat.Div0.mul_div_le (length l) 8) as Hfull.
  assert (H1 : 1 <= length l / 8) by (apply Nat.div_le_lower_bound; lia).
  rewrite (zeros_eq_repeat (firstn 8 l)) by now apply zeros_firstn.
  rewrite length_firstn, Nat.min_l by exact Hl.
  rewrite fold_add8_zeros.
  - apply b64_sum_zeros. now apply zeros_skipn.
  - apply chunks_zeros; [now apply zeros_skipn|].
    rewrite length_skipn. lia.
Qed.

Lemma pairwise_sum_zeros (fuel : nat) (l : list float) :
  zeros l -> pairwise_sum fuel l = 0%float.
Proof.
  revert l; induction fuel as [|fuel IH]; intros l Hz; cbn [pairwise_sum].
  - destruct (Nat.ltb_spec (length l) 8); [now apply b64_sum_zeros|].
    destruct (length l <=? 128); now apply sum_block_zeros.
  - destruct (Nat.ltb_spec (length l) 8); [now apply b64_sum_zeros|].
    destruct (length l <=? 128); [now apply sum_block_zeros|].
    rewrite !IH by (apply zeros_firstn || apply zeros_skipn; exact Hz).
    reflexivity.
Qed.

Lemma sum_zeros (l : list float) : zeros l -> sum l = 0%float.
Proof.
  intros Hz. unfold sum. now rewrite pairwise_sum_zeros.
Qed.

(** The nan-aware mean of values that are all NaN (or of no value) is
    NaN. *)
Lemma b64_nanmean_all_nan (l : list float) :
  forallb PrimFloat.is_nan l = true ->
  PrimFloat.is_nan (np_nanmean l) = true.
Proof.
  intros H. unfold np_nanmean.
  assert (Hf : filter notnan l = []).
  { induction l as [|x l IH]; [reflexivity|].
    cbn [forallb] in H. apply andb_true_iff in H as [Hx Hl].
    cbn [filter]. unfold notnan at 1. cbn [fis_nan binary64].
    rewrite Hx. cbn [negb]. now apply IH. }
  rewrite Hf. cbn [length Z.of_nat].
  rewrite sum_zeros; [reflexivity|].
  clear Hf. induction l as [|x l IH]; [constructor|].
  cbn [forallb] in H. apply andb_true_iff in H as [Hx Hl].
  cbn [map]. constructor; [|now apply IH].
  cbn [fis_nan binary64]. rewrite Hx. reflexivity.
Qed.

(** X9. A window without a value.  In binary64, a time bin of a wavelength
    row whose values are all NaN is NaN in the binned grid: the nan-aware
    mean has nothing to average. *)
Theorem binned_window_without_value (flux out : ndarray2 float) (b w i : nat) :
  0 < b -> wf2 flux ->
  bin_flux_array flux (PyInt (Z.of_nat b)) = Ok out ->
  w < nrows flux -> i < ncols flux / b ->
  forallb PrimFloat.is_nan (window b i (row flux w)) = true ->
  PrimFloat.is_nan (get2 out w i) = true.
Proof.
  intros Hb Hwf Hout Hw Hi Hnan.
  destruct (bin_flux_array_ok_values flux out (Z.of_nat b) Hout Hwf)
    as [_ Hget].
  rewrite Nat2Z.id in Hget.
  rewrite (Hget w i Hw Hi). now apply b64_nanmean_all_nan.
Qed.

(* ================================================================= *)
(** ** File names *)

Section FileNames.

Local Open Scope string_scope.

Lemma starts_with_iff (needle hay : string) :
  starts_with needle hay = true <-> exists post, hay = needle ++ post.
Proof.
  revert hay; induction needle as [|c n IH]; intros hay; simpl.
  - split; [intros _; now exists hay|reflexivity].
  - destruct hay as [|d h].
    + split; [discriminate|intros [post H]; discriminate].
    + rewrite andb_true_iff, IH. split.
      * intros [Hc [post ->]]. apply Ascii.eqb_eq in Hc as ->. now exists post.
      * intros [post H]. injection H as -> ->. split.
        -- apply Ascii.eqb_refl.
        -- now exists post.
Qed.

(** [needle in hay] says that [hay] is some text, the needle, some text. *)
Lemma contains_iff (needle hay : string) :
  contains needle hay = true <-> exists pre post, hay = pre ++ needle ++ post.
Proof.
  induction hay as [|d h IH]; cbn [contains].
  - rewrite orb_false_r, starts_with_iff. split.
    + intros [post H]. now exists "", post.
    + intros (pre & post & H). destruct pre; [now exists post|discriminate].
  - rewrite orb_true_iff, starts_with_iff, IH. split.
    + intros [[post H]|(pre & post & ->)].
      * now exists "", post.
      * now exists (String d pre), post.
    + intros (pre & post & H). destruct pre as [|c pre]; simpl in H.
      * left. now exists post.
      * right. injection H as -> ->. now exists pre, post.
Qed.

Lemma has_char_app (c : ascii) (s1 s2 : string) :
  has_char c (s1 ++ s2) = has_char c s1 || has_char c s2.
Proof.
  induction s1 as [|d s1 IH]; simpl; [reflexivity|].
  now rewrite IH, orb_assoc.
Qed.

Lemma after_last_dot_app (stem ext : string) :
  has_char "." ext = false ->
  after_last_dot (stem ++ String "." ext) = ext.
Proof.
  intros He. induction stem as [|c stem IH]; cbn [append after_last_dot].
  - rewrite He. now rewrite Ascii.eqb_refl.
  - rewrite has_char_app. cbn [has_char]. rewrite Ascii.eqb_refl.
    cbn [orb]. rewrite orb_true_r. exact IH.
Qed.

Lemma after_last_dot_split (s : string) :
  has_char "." s = true ->
  exists stem, s = stem ++ String "." (after_last_dot s)
               /\ has_char "." (after_last_dot s) = false.
Proof.
  induction s as [|c s IH]; cbn [has_char after_last_dot]; [discriminate|].
  destruct (has_char "." s) eqn:Hs.
  - intros _. destruct (IH eq_refl) as (stem & Heq & Hnd).
    exists (String c stem). split; [|exact Hnd].
    cbn [append]. now rewrite <- Heq.
  - rewrite orb_false_r. intros Hc. rewrite Ascii.eqb_sym, Hc.
    apply Ascii.eqb_eq in Hc as <-.
    exists "". split; [reflexivity|exact Hs].
Qed.

Lemma ascii_of_code (c : ascii) (n : nat) :
  (nat_of_ascii c =? n)%nat = true -> c = ascii_of_nat n.
Proof.
  intros H. apply Nat.eqb_eq in H. rewrite <- H.
  symmetry. apply ascii_nat_embedding.
Qed.

Lemma lower_letter_dot (c : ascii) :
  Ascii.eqb "." (lower_letter c) = Ascii.eqb "." c.
Proof.
  unfold lower_letter.
  destruct ((65 <=? nat_of_ascii c)%nat && (nat_of_ascii c <=? 90)%nat) eqn:E;
    [|reflexivity].
  apply andb_prop in E as [E1 E2].
  apply Nat.leb_le in E1. apply Nat.leb_le in E2.
  destruct (Ascii.eqb_spec "."%char c) as [<-|_].
  - cbn in E1. lia.
  - destruct (Ascii.eqb_spec "."%char (ascii_of_nat (nat_of_ascii c + 32)))
      as [H|_]; [|reflexivity].
    apply (f_equal nat_of_ascii) in H.
    rewrite nat_ascii_embedding in H by lia. cbn in H. lia.
Qed.

(** The cases of [lower]: the two characters it rewrites, and any other
    byte. *)
Lemma lower_cases (P : string -> string -> Prop) :
  P "" "" ->
  (forall s, P s (lower s) ->
     P (String (ascii_of_nat 196) (String (ascii_of_nat 176) s))
       (String "i" (String (ascii_of_nat 204)
                           (String (ascii_of_nat 135) (lower s))))) ->
  (forall s, P s (lower s) ->
     P (String (ascii_of_nat 226)
               (String (ascii_of_nat 132) (String (ascii_of_nat 170) s)))
       (String "k" (lower s))) ->
  (forall c s, P s (lower s) ->
     P (String c s) (String (lower_letter c) (lower s))) ->
  forall s, P s (lower s).
Proof.
  intros Hnil Hi Hk Hc s.
  remember (String.length s) as n eqn:Hn.
  revert s Hn. induction n as [n IH] using lt_wf_ind. intros s Hn.
  assert (IHs : forall s', String.length s' < n -> P s' (lower s')).
  { intros s' Hs'. now apply (IH (String.length s')). }
  destruct s as [|c [|c2 s2]].
  - exact Hnil.
  - apply (Hc c ""), Hnil.
  - change (lower (String c (String c2 s2)))
      with (if (nat_of_ascii c =? 196)%nat && (nat_of_ascii c2 =? 176)%nat
            then String "i" (String (ascii_of_nat 204)
                                    (String (ascii_of_nat 135) (lower s2)))
            else
              match s2 with
              | String c3 s3 =>
                  if (nat_of_ascii c =? 226)%nat && (nat_of_ascii c2 =? 132)%nat
                     && (nat_of_ascii c3 =? 170)%nat
                  then String "k" (lower s3)
                  else String (lower_letter c) (lower (String c2 s2))
              | EmptyString => String (lower_letter c) (lower (String c2 s2))
              end).
    destruct ((nat_of_ascii c =? 196)%nat && (nat_of_ascii c2 =? 176)%nat)
      eqn:E1.
    + apply andb_prop in E1 as [Ec Ec2].
      apply ascii_of_code in Ec as ->. apply ascii_of_code in Ec2 as ->.
      apply Hi, IHs. subst. cbn. lia.
    + destruct s2 as [|c3 s3].
      * apply Hc, IHs. subst. cbn. lia.
      * destruct ((nat_of_ascii c =? 226)%nat && (nat_of_ascii c2 =? 132)%nat
                  && (nat_of_ascii c3 =? 170)%nat) eqn:E2.
        -- apply andb_prop in E2 as [E2 Ec3]. apply andb_prop in E2 as [Ec Ec2].
           apply ascii_of_code in Ec as ->. apply ascii_of_code in Ec2 as ->.
           apply ascii_of_code in Ec3 as ->.
           apply Hk, IHs. subst. cbn. lia.
        -- apply Hc, IHs. subst. cbn. lia.
Qed.

(** Lowering a name neither adds nor removes a dot. *)
Lemma lower_keeps_dots (s : string) :
  has_char "." (lower s) = has_char "." s.
Proof.
  apply (lower_cases (fun s l => has_char "." l = has_char "." s)).
  - reflexivity.
  - intros s' IH. cbn [has_char]. rewrite IH. reflexivity.
  - intros s' IH. cbn [has_char]. rewrite IH. reflexivity.
  - intros c s' IH. cbn [has_char]. now rewrite IH, lower_letter_dot.
Qed.

(** X10. Accepted names.  [allowed_file] accepts exactly the names made of
    some text, a dot and an extension that reads fits whatever the case
    of its letters; the text before the dot may be empty or hold dots. *)
Theorem allowed_file_iff (filename : string) :
  allowed_file filename = true
  <-> exists stem ext,
        filename = stem ++ "." ++ ext /\ lower ext = "fits".
Proof.
  unfold allowed_file, ALLOWED_EXTENSIONS. cbn [existsb].
  rewrite orb_false_r, andb_true_iff, String.eqb_eq. split.
  - intros [Hdot Hext].
    destruct (after_last_dot_split filename Hdot) as (stem & Heq & _).
    exists stem, (after_last_dot filename). now split.
  - intros (stem & ext & -> & Hext).
    assert (Hnd : has_char "." ext = false).
    { rewrite <- lower_keeps_dots, Hext. reflexivity. }
    change (stem ++ "." ++ ext) with (stem ++ String "." ext).
    split.
    + rewrite has_char_app. cbn [has_char]. rewrite Ascii.eqb_refl.
      cbn [orb]. apply orb_true_r.
    + now rewrite after_last_dot_app.
Qed.

Lemma allowed_file_empty : allowed_file "" = false.
Proof. reflexivity. Qed.

(** X11. What the upload route stores.  A file is stored exactly when the
    request is a POST whose ['file'] part has a name that [allowed_file]
    accepts; it is stored under [secure_filename] of that name.  Every
    other request stores nothing. *)
Theorem upload_stores_only_allowed (secure_filename : string -> string)
    (method : string) (file : option (option string)) (stored : string) :
  upload_file secure_filename method file = UploadStored stored
  <-> method = "POST"
      /\ exists name, file = Some (Some name)
                      /\ allowed_file name = true
                      /\ stored = secure_filename name.
Proof.
  unfold upload_file. split.
  - destruct (String.eqb_spec method "POST") as [->|_]; [|discriminate].
    destruct file as [[name|]|]; try discriminate.
    destruct (String.eqb name ""); [discriminate|].
    destruct (allowed_file name) eqn:Ha; [|discriminate].
    intros H. injection H as <-. split; [reflexivity|]. now exists name.
  - intros (-> & name & -> & Ha & ->). cbn.
    destruct (String.eqb_spec name "") as [->|_].
    + rewrite allowed_file_empty in Ha. discriminate.
    + now rewrite Ha.
Qed.

Section Dispatch.

Context {F : Type} {FO : FloatOps F}.

(** X12. Which instrument a name selects.  A name in which nirspec occurs,
    whatever the case of its letters, is processed with the NIRSpec arrays
    even if miri occurs in it too, and the MIRI table is not looked at; a
    name with miri and without nirspec is processed with the MIRI table;
    any other name is sent back to the upload form, and only such a
    name. *)
Theorem visualize_dispatch (filename : string)
    (nirspec : ndarray2 F * list F * list F) (miri : miri_table F) :
  (occurs "nirspec" filename ->
   visualize filename nirspec miri
   = respond (generate_plots (fst (fst nirspec)) (snd nirspec)
                             (snd (fst nirspec))))
  /\ (~ occurs "nirspec" filename -> occurs "miri" filename ->
      visualize filename nirspec miri
      = respond (inputs <- miri_inputs miri ;;
                 generate_plots (fst (fst inputs)) (snd inputs)
                                (snd (fst inputs))))
  /\ (visualize filename nirspec miri
      = VisualizeRedirect "Unsupported file type"
      <-> ~ occurs "nirspec" filename /\ ~ occurs "miri" filename).
Proof.
  unfold occurs, visualize.
  rewrite <- !contains_iff.
  destruct nirspec as [[flux times] wl]. cbn [fst snd].
  destruct (contains "nirspec" (lower filename)) eqn:Hn.
  - split; [intros _; reflexivity|].
    split; [intros H; now contradiction H|].
    split.
    + destruct (generate_plots flux wl times); discriminate.
    + intros [H _]. now contradiction H.
  - split; [discriminate|].
    destruct (contains "miri" (lower filename)) eqn:Hm.
    + split.
      * intros _ _. f_equal.
        destruct (miri_inputs miri) as [[[f t] w]|e]; reflexivity.
      * split.
        -- destruct (miri_inputs miri) as [[[f t] w]|e]; cbn [bind respond];
             [destruct (generate_plots f w t)|]; discriminate.
        -- intros [_ H]. now contradiction H.
    + split; [intros _; discriminate|].
      split; [intros _; split; discriminate|reflexivity].
Qed.

End Dispatch.

End FileNames.

(* ================================================================= *)
(** ** The normalizer's dimensions and the routes *)

Lemma bind_raises_iff {A B : Type} (r : result A) (k : A -> result B) :
  raises (bind r k) <-> raises r \/ exists a, r = Ok a /\ raises (k a).
Proof.
  destruct r as [a|e]; cbn [bind].
  - split.
    + intros H. right. now exists a.
    + intros [[e He]|(a' & Ha & H)]; [discriminate|].
      now injection Ha as <-.
  - split; [intros _; left; now exists e|intros _; now exists e].
Qed.

Lemma not_raises_ok {A : Type} (r : result A) :
  ~ raises r -> exists a, r = Ok a.
Proof.
  destruct r as [a|e]; [now exists a|].
  intros H. exfalso. apply H. now exists e.
Qed.

Section Routes.

Context {F : Type} {FO : FloatOps F}.

(** X13. The dimensions the normalizer takes.  It succeeds on arrays of one
    and of two dimensions and raises [ValueError] on every other; on
    success the shape is the input's, and so is the number of values. *)
Theorem normalize_spectrum_shape (sd : ndarray F) :
  (succeeds (normalize_spectrum sd)
   <-> length (dims sd) = 1 \/ length (dims sd) = 2)
  /\ (forall e, normalize_spectrum sd = Raise e -> e = ValueError)
  /\ (forall out, normalize_spectrum sd = Ok out ->
        length (buf sd) = fold_right Nat.mul 1 (dims sd) ->
        dims out = dims sd /\ length (buf out) = length (buf sd)).
Proof.
  unfold normalize_spectrum, succeeds.
  destruct (dims sd) as [|n [|t [|d ds]]] eqn:Hd; cbn [length].
  - repeat split; try (intros [H|H]; discriminate);
      try (intros [a Ha]; discriminate); try discriminate.
    intros e H. now injection H as <-.
  - repeat split; try (intros; eexists; reflexivity);
      try (intros; now left); try discriminate.
    + injection H as <-. reflexivity.
    + injection H as <-. cbn [buf]. apply normalize_1d_length.
  - repeat split; try (intros; eexists; reflexivity);
      try (intros; now right); try discriminate.
    + injection H as <-. reflexivity.
    + injection H as <-. cbn [buf fold_right] in *.
      assert (Hwf : wf2 (mk2 n t (buf sd)))
        by (unfold wf2; cbn [flat nrows ncols]; lia).
      apply wf2_normalize_2d in Hwf. unfold wf2 in Hwf.
      change (length (flat (normalize_2d (mk2 n t (buf sd))))
              = length (buf sd)).
      rewrite Hwf. cbn [nrows ncols normalize_2d]. lia.
  - repeat split; try (intros [H|H]; discriminate; lia);
      try (intros [a Ha]; discriminate); try discriminate.
    intros e H. now injection H as <-.
Qed.

Lemma extract_miri_data_exact (t : miri_table F) :
  extract_miri_data t
  = (let Ua := length (np_unique (map wla t)) in
     let Ub := length (np_unique (map wlb t)) in
     if (Ua =? 0) || negb (length t mod Ua =? 0) then Raise ValueError
     else if (Ub =? 0) || negb (length t mod Ub =? 0) then Raise ValueError
     else Ok (np_unique (map MJD t), np_unique (map wla t),
              np_unique (map wlb t),
              mk2 Ua (length t / Ua) (map fluxa t),
              mk2 Ub (length t / Ub) (map fluxb t))).
Proof.
  unfold extract_miri_data.
  rewrite (reshape_rows_exact _ (map fluxa t))
    by apply (column_nil_unique fluxa wla).
  rewrite (reshape_rows_exact _ (map fluxb t))
    by apply (column_nil_unique fluxb wlb).
  rewrite !length_map. cbv zeta.
  destruct ((length (np_unique (map wla t)) =? 0)
            || negb (length t mod length (np_unique (map wla t)) =? 0));
    cbn [bind]; [reflexivity|].
  destruct ((length (np_unique (map wlb t)) =? 0)
            || negb (length t mod length (np_unique (map wlb t)) =? 0));
    cbn [bind]; reflexivity.
Qed.

Lemma miri_inputs_exact (t : miri_table F) :
  miri_inputs t
  = (let Ua := length (np_unique (map wla t)) in
     let Ub := length (np_unique (map wlb t)) in
     if (Ua =? 0) || negb (length t mod Ua =? 0) then Raise ValueError
     else if (Ub =? 0) || negb (length t mod Ub =? 0) then Raise ValueError
     else Ok (normalize_2d (mk2 Ua (length t / Ua) (map fluxa t)),
              np_unique (map MJD t), np_unique (map wla t))).
Proof.
  unfold miri_inputs. rewrite extract_miri_data_exact. cbv zeta.
  destruct ((length (np_unique (map wla t)) =? 0)
            || negb (length t mod length (np_unique (map wla t)) =? 0));
    cbn [bind]; [reflexivity|].
  destruct ((length (np_unique (map wlb t)) =? 0)
            || negb (length t mod length (np_unique (map wlb t)) =? 0));
    cbn [bind]; reflexivity.
Qed.

Lemma unique_count_zero_iff (l : list F) :
  length (np_unique l) = 0 <-> l = [].
Proof.
  split.
  - intros H. destruct l as [|x l]; [reflexivity|].
    exfalso. apply (np_unique_nonempty (x :: l)); [discriminate|].
    now apply length_zero_iff_nil.
  - intros ->. reflexivity.
Qed.

(** X15. What the MIRI branch hands to the plots.  The branch fails exactly
    when the extraction fails: the normalizer adds no failure.  On
    success the flux grid has one row for each distinct wavelength of
    channel A, paired with the wavelength axis, and each row is the
    corresponding stretch of the flux column divided by the nan-aware
    median taken along it, as the normalizer's 2D case takes it; the times
    are the distinct dates. *)
Theorem miri_inputs_normalized (t : miri_table F) :
  let R := length t in
  let Ua := length (np_unique (map wla t)) in
  (succeeds (miri_inputs t) <-> succeeds (extract_miri_data t))
  /\ (forall flux times wl, miri_inputs t = Ok (flux, times, wl) ->
        t <> []
        /\ times = np_unique (map MJD t) /\ wl = np_unique (map wla t)
        /\ shape flux = (Ua, R / Ua) /\ wf2 flux /\ length wl = nrows flux
        /\ forall w, w < Ua ->
             row flux w
             = normalize_row (firstn (R / Ua)
                                (skipn (w * (R / Ua)) (map fluxa t)))).
Proof.
  intros R Ua. rewrite miri_inputs_exact, extract_miri_data_exact. cbv zeta.
  fold R Ua.
  destruct (Nat.eqb_spec Ua 0) as [E0|E0]; cbn [orb].
  { split; [split; intros [a Ha]; discriminate|discriminate]. }
  destruct (Nat.eqb_spec (R mod Ua) 0) as [Ea|Ea]; cbn [negb].
  2:{ split; [split; intros [a Ha]; discriminate|discriminate]. }
  destruct ((length (np_unique (map wlb t)) =? 0)
            || negb (R mod length (np_unique (map wlb t)) =? 0)).
  { split; [split; intros [a Ha]; discriminate|discriminate]. }
  split; [split; intros _; eexists; reflexivity|].
  intros flux times wl H. injection H as <- <- <-.
  assert (Hwf : wf2 (mk2 Ua (R / Ua) (map fluxa t))).
  { unfold wf2. cbn [flat nrows ncols]. rewrite length_map. fold R.
    pose proof (Nat.div_mod_eq R Ua). nia. }
  repeat split.
  - intros ->. now apply E0.
  - now apply wf2_normalize_2d.
  - intros w Hw. rewrite row_normalize_2d by assumption. reflexivity.
Qed.

(** The plots of [visualize] raise, up to the rendering, when the shape
    the binner asks of [reshape] is too big, when the time axis is empty
    or when a band wavelength has no row in the flux grid. *)
Lemma generate_plots_raises_iff (flux : ndarray2 F) (wl times : list F) :
  raises (generate_plots flux wl times)
  <-> too_big (bin_shape flux 25) = true
      \/ times = []
      \/ (exists i, i < length wl /\ nrows flux <= i
                    /\ (in_range ch4_range (nth i wl fnan) = true
                        \/ in_range co_range (nth i wl fnan) = true)).
Proof.
  unfold generate_plots.
  destruct (too_big (bin_shape flux 25)) eqn:Hbig.
  { split; [intros _; now left|intros _].
    apply bind_raises_iff. left. apply plot_map_raises_iff. left.
    intros (b & Hb & _ & Hfit). injection Hb as <-. congruence. }
  assert (Hmap : forall pt,
            pt = "variability"%string \/ pt = "flux"%string ->
            raises (plot_enhanced_lightcurve_map flux wl times (PyInt 25) pt)
            -> times = []).
  { intros pt Hpt H. apply plot_map_raises_iff in H.
    destruct H as [H|(b & _ & _ & _ & _ & [H|[H1 H2]])].
    - exfalso. apply H. exists 25%Z.
      split; [reflexivity|]. split; [lia|exact Hbig].
    - exact H.
    - destruct Hpt; contradiction. }
  assert (Hlc : raises (plot_specific_wavelength_lightcurves flux wl times
                          (PyInt 25))
                <-> times = []
                    \/ (exists i, i < length wl /\ nrows flux <= i
                          /\ (in_range ch4_range (nth i wl fnan) = true
                              \/ in_range co_range (nth i wl fnan) = true))).
  { apply (lightcurves_raise_positive flux wl times (PyInt 25) 25);
      [reflexivity|lia|exact Hbig]. }
  rewrite bind_raises_iff. split.
  - intros H. right. destruct H as [H|(p1 & _ & H)].
    + left. apply (Hmap "variability"%string); [now left|exact H].
    + apply bind_raises_iff in H as [H|(p2 & _ & H)].
      * left. apply (Hmap "flux"%string); [now right|exact H].
      * apply bind_raises_iff in H as [H|(p3 & _ & [e He])];
          [|discriminate].
        now apply Hlc.
  - intros [H|H]; [discriminate|]. apply Hlc in H.
    destruct (plot_enhanced_lightcurve_map flux wl times (PyInt 25)
                "variability") as [p1|e]; [|left; now exists e].
    right. exists p1. split; [reflexivity|].
    apply bind_raises_iff.
    destruct (plot_enhanced_lightcurve_map flux wl times (PyInt 25) "flux")
      as [p2|e]; [|left; now exists e].
    right. exists p2. split; [reflexivity|].
    apply bind_raises_iff. now left.
Qed.

Lemma generate_plots_paired (flux : ndarray2 F) (wl times : list F) :
  length wl = nrows flux ->
  (times = [] \/ too_big (bin_shape flux 25) = true ->
   respond (generate_plots flux wl times) = VisualizeError)
  /\ (times <> [] -> too_big (bin_shape flux 25) = false ->
      exists p, respond (generate_plots flux wl times) = VisualizePage p).
Proof.
  intros Hwl.
  pose proof (generate_plots_raises_iff flux wl times) as H.
  split.
  - intros Ht.
    assert (Hr : raises (generate_plots flux wl times)) by (apply H; tauto).
    destruct Hr as [e ->]. reflexivity.
  - intros Ht Hbig.
    destruct (not_raises_ok (generate_plots flux wl times)) as [p ->].
    + intros Hr. apply H in Hr as [E|[E|(i & Hi & Hn & _)]];
        [congruence|contradiction|lia].
    + now exists p.
Qed.

(** X16. What a NIRSpec name is answered.  With axes that match the flux
    grid, the route answers the status 500 when there is no time at all
    (the two maps return early, then the light curves ask for the
    minimum of no value) and when the shape (W, T // 25, 25) the binner
    asks of [reshape] is too big, and the page in every other case,
    rendering aside.  The shape is never too big for a grid with at least
    one row and 25 times. *)
Theorem visualize_nirspec_outcome (filename : string) (flux : ndarray2 F)
    (times wl : list F) (miri : miri_table F) :
  occurs "nirspec" filename ->
  length wl = nrows flux -> length times = ncols flux ->
  (times = [] \/ too_big (bin_shape flux 25) = true ->
   visualize filename (flux, times, wl) miri = VisualizeError)
  /\ (times <> [] -> too_big (bin_shape flux 25) = false ->
      exists p, visualize filename (flux, times, wl) miri = VisualizePage p)
  /\ (0 < nrows flux -> 25 <= ncols flux ->
      too_big (bin_shape flux 25) = false).
Proof.
  intros Hn Hwl _. unfold occurs in Hn. apply contains_iff in Hn.
  unfold visualize. rewrite Hn.
  destruct (generate_plots_paired flux wl times Hwl) as [H1 H2].
  split; [exact H1|]. split; [exact H2|].
  intros HW HT. apply (bin_shape_fits flux 25); [lia|exact HT|exact HW].
Qed.

(** X17. What a MIRI name is answered.  The route answers the status 500
    when the table is empty, when the number of its rows is not a
    multiple of the number of distinct wavelengths of either channel,
    channel B included although only channel A is plotted, and when the
    shape (U, (R / U) // 25, 25) the binner asks of [reshape] is too big.
    On every other table that holds each wavelength at each date it
    answers the page, rendering aside.  The shape is never too big for a
    table with 25 dates for each wavelength. *)
Theorem visualize_miri_outcome (filename : string)
    (nirspec : ndarray2 F * list F * list F) (t : miri_table F) :
  let R := length t in
  let Ua := length (np_unique (map wla t)) in
  let Ub := length (np_unique (map wlb t)) in
  let grid := mk2 Ua (R / Ua) (map fluxa t) in
  ~ occurs "nirspec" filename -> occurs "miri" filename ->
  (t = [] \/ R mod Ua <> 0 \/ R mod Ub <> 0
   \/ too_big (bin_shape grid 25) = true ->
   visualize filename nirspec t = VisualizeError)
  /\ (t <> [] -> R mod Ua = 0 -> R mod Ub = 0 ->
      length (np_unique (map MJD t)) = R / Ua ->
      too_big (bin_shape grid 25) = false ->
      exists p, visualize filename nirspec t = VisualizePage p)
  /\ (t <> [] -> 25 <= R / Ua -> too_big (bin_shape grid 25) = false).
Proof.
  intros R Ua Ub grid Hn Hm. unfold occurs in Hn, Hm.
  rewrite <- contains_iff in Hn, Hm.
  apply not_true_is_false in Hn.
  unfold visualize. rewrite Hn, Hm. rewrite miri_inputs_exact. cbv zeta.
  fold R Ua Ub.
  pose proof (unique_count_zero_iff (map wla t)) as Za.
  pose proof (unique_count_zero_iff (map wlb t)) as Zb.
  fold Ua in Za. fold Ub in Zb.
  assert (Hnil : forall f : miri_row F -> F, map f t = [] <-> t = []).
  { intros f. destruct t; cbn; split; congruence. }
  rewrite Hnil in Za, Zb.
  split; [|split].
  - intros Hbad.
    destruct (Nat.eqb_spec Ua 0) as [E0|E0]; cbn [orb]; [reflexivity|].
    destruct (Nat.eqb_spec (R mod Ua) 0) as [Ea|Ea]; cbn [negb];
      [|reflexivity].
    destruct (Nat.eqb_spec Ub 0) as [E1|E1]; cbn [orb]; [reflexivity|].
    destruct (Nat.eqb_spec (R mod Ub) 0) as [Eb|Eb]; cbn [negb];
      [|reflexivity].
    cbn [bind].
    destruct Hbad as [H|[H|[H|H]]];
      [exfalso; apply E0; now apply Za|contradiction|contradiction|].
    apply generate_plots_paired; [reflexivity|]. right. exact H.
  - intros Ht Ea Eb _ Hbig.
    destruct (Nat.eqb_spec Ua 0) as [E0|E0]; [apply Za in E0; contradiction|].
    destruct (Nat.eqb_spec Ub 0) as [E1|E1]; [apply Zb in E1; contradiction|].
    rewrite Ea, Eb. cbn [Nat.eqb negb orb bind].
    apply generate_plots_paired.
    + reflexivity.
    + apply np_unique_nonempty. now rewrite Hnil.
    + exact Hbig.
  - intros Ht HT. apply (bin_shape_fits grid 25); cbn [nrows ncols grid].
    + lia.
    + exact HT.
    + destruct Ua; [exfalso; apply Ht; now apply Za|lia].
Qed.

End Routes.

(* ================================================================= *)
(** ** Bins of one *)

Lemma window_one {A : Type} (i : nat) (l : list A) (d : A) :
  i < length l -> window 1 i l = [nth i l d].
Proof.
  unfold window. rewrite Nat.mul_1_r.
  revert i; induction l as [|x l IH]; intros i Hi; [cbn in Hi; lia|].
  destruct i as [|i]; cbn [skipn nth].
  - reflexivity.
  - apply IH. cbn in Hi. lia.
Qed.

(** A binary64 value that differs from itself is NaN. *)
Lemma b64_is_nan_eq (x : float) : PrimFloat.is_nan x = true -> x = nan.
Proof.
  unfold PrimFloat.is_nan. rewrite FloatAxioms.eqb_spec. intros H.
  apply Prim2SF_inj. change (Prim2SF nan) with S754_nan.
  destruct (Prim2SF x) as [s|s| |s m e]; try reflexivity; exfalso.
  - discriminate.
  - now destruct s.
  - unfold SFeqb, SFcompare in H.
    rewrite Z.compare_refl, Pos.compare_cont_refl in H.
    now destruct s.
Qed.

(** The nan-aware mean of one value [x] is [0.0 + x]. *)
Lemma b64_nanmean_one (x : float) :
  np_nanmean [x] = if PrimFloat.eqb x 0 then 0%float else x.
Proof.
  rewrite <- b64_zero_add.
  destruct (PrimFloat.is_nan x) eqn:Hx.
  - apply b64_is_nan_eq in Hx. subst x. reflexivity.
  - unfold np_nanmean. cbn [map filter]. unfold notnan.
    cbn [fis_nan binary64]. rewrite Hx. cbn [negb length Z.of_nat].
    change (fof_Z (Z.pos (Pos.of_succ_nat 0))) with 1%float.
    cbn [fdiv binary64]. rewrite b64_div_one.
    change (sum [x]) with (0 + (0 + x))%float.
    apply b64_zero_add_twice.
Qed.

(** X18. Bins of one.  In binary64, binning a grid with a bin size of one
    gives a grid of the same shape that holds every value of the input,
    NaN included, except that [-0.0] comes back as [0.0]: the mean of one
    value [x] is [(0.0 + x) / 1]. *)
Theorem bins_of_one_values (flux out : ndarray2 float) :
  wf2 flux ->
  bin_flux_array flux (PyInt 1) = Ok out ->
  shape out = shape flux /\ wf2 out
  /\ forall w t, w < nrows flux -> t < ncols flux ->
       get2 out w t
       = if PrimFloat.eqb (get2 flux w t) 0 then 0%float
         else get2 flux w t.
Proof.
  intros Hwf Hout.
  destruct (bin_flux_array_ok flux out 1 Hout) as (_ & Hshape & Hwfo).
  destruct (bin_flux_array_ok_values flux out 1 Hout Hwf) as [_ Hget].
  change (Z.to_nat 1) with 1 in Hshape, Hget.
  rewrite Nat.div_1_r in Hshape, Hget.
  split; [exact Hshape|]. split; [now apply Hwfo|].
  intros w t Hw Ht. rewrite (Hget w t Hw Ht).
  rewrite (window_one t _ fnan) by (rewrite row_length; assumption).
  rewrite get2_row by exact Ht.
  apply b64_nanmean_one.
Qed.

(* ================================================================= *)
(** ** The two maps of one grid *)

Section TwoMaps.

Context {F : Type} {FO : FloatOps F}.

(** Two arrays of one shape that agree at every position are equal. *)
Lemma ndarray2_ext (a b : ndarray2 F) :
  wf2 a -> wf2 b -> shape a = shape b ->
  (forall w t, w < nrows a -> t < ncols a -> get2 a w t = get2 b w t) ->
  a = b.
Proof.
  intros Ha Hb Hs Hget.
  destruct a as [W T fa], b as [W' T' fb].
  unfold shape in Hs. cbn [nrows ncols] in Hs. injection Hs as <- <-.
  unfold wf2 in Ha, Hb. cbn [nrows ncols flat] in *.
  f_equal. apply (nth_ext _ _ fnan fnan); [lia|].
  intros k Hk. rewrite Ha in Hk.
  assert (HT : T <> 0) by (intros ->; lia).
  pose proof (Nat.div_mod_eq k T) as Hdm.
  pose proof (Nat.mod_upper_bound k T HT) as Hm.
  assert (Hw : k / T < W) by (apply Nat.Div0.div_lt_upper_bound; lia).
  specialize (Hget (k / T) (k mod T) Hw Hm).
  unfold get2 in Hget. cbn [ncols flat] in Hget.
  now replace (k / T * T + k mod T) with k in Hget by lia.
Qed.

Lemma row_drop_rows (k : nat) (a : ndarray2 F) (w : nat) :
  row (drop_rows k a) w = row a (w + k).
Proof.
  unfold row, drop_rows. cbn [ncols flat].
  rewrite skipn_skipn. do 2 f_equal. lia.
Qed.

(** The variability is computed row by row: it commutes with leaving
    rows out. *)
Lemma variability_drop_rows (k : nat) (a : ndarray2 F) :
  wf2 a -> drop_rows k (variability a) = variability (drop_rows k a).
Proof.
  intros Hwf.
  pose proof (wf2_drop_rows k a Hwf) as Hd.
  apply ndarray2_ext.
  - apply wf2_drop_rows. now apply wf2_variability.
  - now apply wf2_variability.
  - reflexivity.
  - intros w t Hw Ht. cbn [nrows ncols drop_rows variability] in Hw, Ht.
    rewrite get2_drop_rows.
    rewrite get2_variability by (try assumption; lia).
    rewrite get2_variability
      by (try assumption; cbn [nrows ncols drop_rows]; lia).
    now rewrite get2_drop_rows, row_drop_rows.
Qed.

(** X19. The two maps of one grid.  When both maps of a grid are built with
    the same bin size, they are drawn over the same time grid, the same
    wavelength grid and the same band masks, and the z grid of the
    variability map is the variability of the z grid of the flux map: the
    leading trim and the variability commute. *)
Theorem variability_map_of_flux_map (flux : ndarray2 F) (wl times : list F)
    (v : pyval F) (gv gf : map_grids F) :
  wf2 flux ->
  plot_enhanced_lightcurve_map flux wl times v "variability" = Ok (Plot gv) ->
  plot_enhanced_lightcurve_map flux wl times v "flux" = Ok (Plot gf) ->
  z_data gv = variability (z_data gf)
  /\ time_grid gv = time_grid gf
  /\ wavelength_grid gv = wavelength_grid gf
  /\ ch4_mask gv = ch4_mask gf
  /\ co_mask gv = co_mask gf.
Proof.
  intros Hwf Hv Hf.
  apply plot_map_inv in Hv
    as (b & binned & strided & hours & z & Hb & Hbin & Hst & _ & Hh & Hz
        & _ & Htg & Hwg & Hzd & Hc4 & Hco).
  apply plot_map_inv in Hf
    as (b' & binned' & strided' & hours' & z' & Hb' & Hbin' & Hst' & _ & Hh'
        & Hz' & _ & Htg' & Hwg' & Hzd' & Hc4' & Hco').
  rewrite Hb in Hb'. injection Hb' as <-.
  rewrite Hbin in Hbin'. injection Hbin' as <-.
  rewrite Hst in Hst'. injection Hst' as <-.
  rewrite Hh in Hh'. injection Hh' as <-.
  destruct Hz as [[_ ->]|[Hpt _]]; [|discriminate].
  destruct Hz' as [[Hpt _]|[_ ->]]; [discriminate|].
  destruct (bin_flux_array_ok flux binned b Hbin) as (_ & _ & Hwfb).
  specialize (Hwfb Hwf).
  assert (Hw : wavelength_grid gv = wavelength_grid gf) by congruence.
  repeat split.
  - rewrite Hzd, Hzd'. now apply variability_drop_rows.
  - congruence.
  - exact Hw.
  - rewrite Hc4, Hc4', Hw. reflexivity.
  - rewrite Hco, Hco', Hw. reflexivity.
Qed.

End TwoMaps.

(* ================================================================= *)
(** ** More properties on the sample inputs *)

Lemma sample_times_ascending :
  StronglySorted fle sample_times /\ all_numbers sample_times.
Proof.
  split.
  - repeat constructor; vm_compute; reflexivity.
  - repeat constructor.
Qed.

Lemma gap_lightcurves_ok :
  plot_specific_wavelength_lightcurves gap_flux gap_wavelengths gap_times
    (PyInt 1)
  = Ok ([0; 24; 48]%float, [nan; nan; nan]%float, [nan; nan; nan]%float).
Proof. vm_compute. reflexivity. Qed.

(** In [gap_flux] the second bin of one holds a NaN and nothing else. *)
Lemma binned_window_without_value_witness :
  exists out,
    bin_flux_array gap_flux (PyInt 1) = Ok out
    /\ PrimFloat.is_nan (get2 out 0 1) = true.
Proof.
  exists (mk2 1 3 [1; nan; 3]%float).
  split; [vm_compute; reflexivity|].
  apply (binned_window_without_value gap_flux _ 1 0 1).
  - lia.
  - reflexivity.
  - vm_compute. reflexivity.
  - vm_compute. lia.
  - vm_compute. lia.
  - vm_compute. reflexivity.
Defined.

(** An unknown plot type on [sample_flux], which has two bins of two. *)
Lemma map_builder_raises_iff_witness :
  raises (plot_enhanced_lightcurve_map sample_flux sample_band_wavelengths
            sample_times (PyInt 2) "contour").
Proof.
  apply (proj2 (map_builder_raises_iff sample_flux sample_band_wavelengths
                  sample_times (PyInt 2) "contour" eq_refl eq_refl)).
  right. exists 2%Z.
  split; [reflexivity|]. split; [lia|]. split; [reflexivity|].
  split; [vm_compute; discriminate|]. split; discriminate.
Defined.

(** [sample_flux] has two wavelength rows: no figure. *)
Lemma no_figure_below_trim_witness :
  wf2 sample_flux
  /\ plot_enhanced_lightcurve_map sample_flux sample_band_wavelengths
       sample_times (PyInt 2) "flux"
     <> Ok (Plot no_grids).
Proof.
  split; [reflexivity|].
  apply no_figure_below_trim.
  - reflexivity.
  - unfold leading_trim. cbn. lia.
Defined.

(** Five times in bins of two: three hours, two values in each series. *)
Lemma lightcurve_hours_axis_witness :
  length (fst (fst sample_lightcurves)) = 3
  /\ length (snd (fst sample_lightcurves)) = 2
  /\ length (snd sample_lightcurves) = 2.
Proof.
  destruct (lightcurve_hours_axis sample_flux sample_band_wavelengths
              sample_times 2 _ _ _ ltac:(lia)
              (proj1 sample_times_ascending) (proj2 sample_times_ascending)
              eq_refl sample_lightcurves_ok)
    as (H1 & H2 & H3 & _).
  repeat split; assumption.
Defined.

(** The second bin of the sample map opens at the third time. *)
Lemma time_grid_opens_bins_witness :
  get2 (time_grid sample_flux_map) 0 1
  = fmul (fsub (nth 2 sample_times fnan) (nth 0 sample_times fnan)) f24.
Proof.
  apply (time_grid_opens_bins sample_wide_flux sample_wavelengths
           sample_times 2 "flux" sample_flux_map).
  - lia.
  - exact (proj1 sample_times_ascending).
  - exact (proj2 sample_times_ascending).
  - exact sample_wide_flux_wf.
  - vm_compute. reflexivity.
  - reflexivity.
  - exact sample_flux_map_ok.
  - vm_compute. lia.
  - vm_compute. lia.
Defined.

(** The one row of the sample map is the wavelength at index 60. *)
Lemma band_masks_follow_wavelengths_witness :
  mget (ch4_mask sample_flux_map) 0 0
  = in_range ch4_range (nth 60 sample_wavelengths fnan)
  /\ mget (co_mask sample_flux_map) 0 0
     = in_range co_range (nth 60 sample_wavelengths fnan).
Proof.
  apply (band_masks_follow_wavelengths sample_wide_flux sample_wavelengths
           sample_times (PyInt 2) "flux" sample_flux_map).
  - exact sample_wide_flux_wf.
  - vm_compute. reflexivity.
  - reflexivity.
  - exact sample_flux_map_ok.
  - vm_compute. lia.
  - vm_compute. lia.
Defined.

Lemma bands_never_overlap_witness :
  mget (ch4_mask sample_flux_map) 0 0 && mget (co_mask sample_flux_map) 0 0
  = false.
Proof.
  exact (proj1 (bands_never_overlap sample_wide_flux sample_wavelengths
                  sample_times (PyInt 2) "flux" sample_flux_map
                  sample_flux_map_ok) 0 0).
Defined.

(** The CH4 series of [gap_flux] holds a NaN: the light curve is NaN. *)
Lemma lightcurve_nan_spreads_witness :
  exists s4,
    band_mean gap_flux (band_indices ch4_range gap_wavelengths) = Ok s4
    /\ existsb PrimFloat.is_nan s4 = true
    /\ Forall (fun x => PrimFloat.is_nan x = true) [nan; nan; nan]%float.
Proof.
  destruct (lightcurve_nan_spreads gap_flux gap_wavelengths gap_times
              (PyInt 1) _ _ _ gap_lightcurves_ok)
    as (b & binned & s4 & so & Hb & Hbin & H4 & _ & _ & _ & Hn & _).
  cbn [py_int] in Hb. injection Hb as <-.
  assert (Hg : bin_flux_array gap_flux (PyInt 1) = Ok gap_flux)
    by (vm_compute; reflexivity).
  rewrite Hg in Hbin. injection Hbin as <-.
  exists s4. split; [exact H4|].
  assert (Hs : s4 = [1; nan; 3]%float).
  { assert (Hc : band_mean gap_flux (band_indices ch4_range gap_wavelengths)
                 = Ok [1; nan; 3]%float) by (vm_compute; reflexivity).
    rewrite Hc in H4. now injection H4. }
  assert (He : existsb PrimFloat.is_nan s4 = true) by now rewrite Hs.
  split; [exact He|exact (Hn He)].
Defined.

(** [gap_wavelengths] holds no CO wavelength. *)
Lemma empty_band_all_nan_witness :
  band_indices co_range gap_wavelengths = []
  /\ Forall (fun x => PrimFloat.is_nan x = true) [nan; nan; nan]%float.
Proof.
  split; [vm_compute; reflexivity|].
  apply (proj2 (empty_band_all_nan gap_flux gap_wavelengths gap_times
                  (PyInt 1) _ _ _ gap_lightcurves_ok)).
  vm_compute. reflexivity.
Defined.

(** A NIRSpec name, with [sample_flux] behind the configured paths. *)
Lemma visualize_nirspec_outcome_witness :
  exists p,
    visualize "NIRSpec_run.fits"
      (sample_flux, sample_times, sample_band_wavelengths) []
    = VisualizePage p.
Proof.
  apply (proj1 (proj2 (visualize_nirspec_outcome "NIRSpec_run.fits"
                         sample_flux sample_times sample_band_wavelengths []
                         (ex_intro _ ""%string
                            (ex_intro _ "_run.fits"%string eq_refl))
                         eq_refl eq_refl))).
  - discriminate.
  - reflexivity.
Defined.

(** A MIRI name, with [even_table] behind the configured path. *)
Lemma visualize_miri_outcome_witness :
  exists p,
    visualize "MIRI.fits"
      (sample_flux, sample_times, sample_band_wavelengths) even_table
    = VisualizePage p.
Proof.
  assert (Hn : ~ occurs "nirspec" "MIRI.fits").
  { intros H. apply (proj2 (contains_iff _ _)) in H.
    vm_compute in H. discriminate H. }
  assert (Hm : occurs "miri" "MIRI.fits").
  { exists ""%string, ".fits"%string. reflexivity. }
  apply (proj1 (proj2 (visualize_miri_outcome "MIRI.fits"
                         (sample_flux, sample_times, sample_band_wavelengths)
                         even_table Hn Hm))).
  - discriminate.
  - vm_compute. reflexivity.
  - vm_compute. reflexivity.
  - vm_compute. reflexivity.
  - vm_compute. reflexivity.
Defined.

(** [gap_flux] in bins of one: the value, NaN for NaN. *)
Lemma bins_of_one_values_witness :
  bin_flux_array gap_flux (PyInt 1) = Ok gap_flux
  /\ get2 gap_flux 0 2
     = if PrimFloat.eqb (get2 gap_flux 0 2) 0 then 0%float
       else get2 gap_flux 0 2.
Proof.
  assert (H : bin_flux_array gap_flux (PyInt 1) = Ok gap_flux)
    by (vm_compute; reflexivity).
  split; [exact H|].
  apply (proj2 (proj2 (bins_of_one_values gap_flux gap_flux eq_refl H))).
  - vm_compute. lia.
  - vm_compute. lia.
Defined.

(** The two sample maps. *)
Lemma variability_map_of_flux_map_witness :
  z_data sample_variability_map = variability (z_data sample_flux_map)
  /\ time_grid sample_variability_map = time_grid sample_flux_map.
Proof.
  destruct (variability_map_of_flux_map sample_wide_flux sample_wavelengths
              sample_times (PyInt 2) sample_variability_map sample_flux_map
              sample_wide_flux_wf sample_variability_map_ok
              sample_flux_map_ok) as (H1 & H2 & _).
  split; assumption.
Defined.
